(** * PocketCoder A1: session loop, verification engine, task and checkpoint stores

    A shallow embedding of [a1/checkpoint.py], [a1/tasks.py], [a1/validator.py]
    and the verification and context-guard parts of [a1/loop.py], with the
    properties of the design document proved (or refuted) against it.

    Conventions.
    - A Python [dict] with string keys is a [gmap string _]; a dict whose
      iteration order is observable (the validator's results) is an
      association list.
    - The files under [.a1/] are fields of a [World]; every method that touches
      them is a function in the monad [M], which threads the [World] and may
      raise a Python exception.
    - [datetime.now().isoformat()] reads a clock: the [n]-th reading of a run
      is [isoformat_now n], and the [World] counts the readings. *)

From Stdlib Require Import ZArith QArith List String Ascii DecimalString DecimalN.
From stdpp Require Import gmap strings list sorting.

Open Scope Z_scope.
Open Scope string_scope.
Open Scope list_scope.

(** ** Python formatting of integers *)

Module Fmt.

(** [str(n)] for a natural number. *)
Definition digits (n : N) : string := NilZero.string_of_uint (N.to_uint n).

(** [k] characters ['0'] in front of [s]. *)
Fixpoint zeros (k : nat) (s : string) : string :=
  match k with
  | O => s
  | S k' => String "0" (zeros k' s)
  end.

(** Left padding with ['0'] up to [width] characters. *)
Definition zero_fill (width : nat) (s : string) : string :=
  zeros (width - String.length s) s.

(** [f"{z:03d}"]: the sign comes first and counts in the width. *)
Definition format_03d (z : Z) : string :=
  match z with
  | Zneg p => String "-" (zero_fill 2 (digits (Npos p)))
  | _ => zero_fill 3 (digits (Z.to_N z))
  end.

(** [str(z)] for an integer. *)
Definition str_int (z : Z) : string :=
  match z with
  | Zneg p => String "-" (digits (Npos p))
  | _ => digits (Z.to_N z)
  end.

(** [int(s)] restricted to an optional ['-'] followed by decimal digits. *)
Definition read_int (s : string) : option Z :=
  match NilEmpty.uint_of_string s with
  | Some d => Some (Z.of_N (N.of_uint d))
  | None =>
      match s with
      | String "-" r =>
          match NilEmpty.uint_of_string r with
          | Some d => Some (- Z.of_N (N.of_uint d))
          | None => None
          end
      | _ => None
      end
  end.

(** [s[:n]] *)
Definition take (n : nat) (s : string) : string := String.substring 0 n s.

Definition is_space (c : ascii) : bool :=
  match c with
  | " "%char | "009"%char | "010"%char | "011"%char | "012"%char | "013"%char => true
  | _ => false
  end.

Fixpoint lstrip (s : string) : string :=
  match s with
  | String c r => if is_space c then lstrip r else s
  | EmptyString => EmptyString
  end.

Fixpoint rstrip (s : string) : string :=
  match s with
  | String c r =>
      match rstrip r with
      | EmptyString => if is_space c then EmptyString else String c EmptyString
      | r' => String c r'
      end
  | EmptyString => EmptyString
  end.

(** [s.strip()] *)
Definition strip (s : string) : string := rstrip (lstrip s).

(** [sep.join(l)] *)
Fixpoint join (sep : string) (l : list string) : string :=
  match l with
  | [] => ""
  | [x] => x
  | x :: r => x +:+ sep +:+ join sep r
  end.

End Fmt.

(** ** JSON documents and the files of [.a1/] *)

(** A value as [json.load] returns it. Objects are Python dicts; numbers are
    integers (floating-point values are left out of the model). *)
#[local] Unset Elimination Schemes.
Inductive json : Type :=
| JNull
| JBool (b : bool)
| JInt (z : Z)
| JStr (s : string)
| JList (l : list json)
| JObj (o : gmap string json).
#[local] Set Elimination Schemes.

(** Python truthiness ([if v:], [not v]) of a JSON value. *)
Definition truthy (v : json) : bool :=
  match v with
  | JNull => false
  | JBool b => b
  | JInt z => negb (Z.eqb z 0)
  | JStr s => negb (String.eqb s "")
  | JList l => match l with [] => false | _ => true end
  | JObj o => negb (Nat.eqb (size o) 0)
  end.

(** [v == s] for a string literal [s]. *)
Definition eq_str (v : option json) (s : string) : bool :=
  match v with
  | Some (JStr s') => String.eqb s' s
  | _ => false
  end.

Inductive exn : Type :=
| JSONDecodeError
| IOError
| UnicodeDecodeError
| KeyError
| TypeError
| ValueError
| AttributeError.

(** What [open(path)] followed by [json.load] finds. A document written with
    [json.dump] is found again as an equal value. *)
Inductive file (A : Type) : Type :=
| Missing
| Fails (e : exn)
| Holds (doc : A).
Arguments Missing {A}.
Arguments Fails {A} e.
Arguments Holds {A} doc.

Inductive outcome (A : Type) : Type :=
| Return (a : A)
| Raise (e : exn).
Arguments Return {A} a.
Arguments Raise {A} e.

(** ** The task document, [.a1/tasks.json] *)

Module Tasks.

(** The [Task] dataclass; the dicts under ["tasks"] are [asdict] of it. A dict
    without a ["priority"] key reads as priority 0 wherever the code looks at
    it ([t.get("priority", 0)], the default of the dataclass, and the
    migration test ["priority" not in t or t["priority"] == 0]). *)
Record Task : Type := mkTask {
  id : string;
  title : string;
  description : string;
  status : string;
  priority : Z;
  created_at : string;
  completed_at : option string;
  raw_thought : option string;
  phase : option string;
  success_criteria : option string
}.

Record RawThought : Type := mkRawThought {
  text : string;
  added_at : string
}.

(** [{"raw_thoughts": [...], "tasks": [...], "next_id": n}] *)
Record TasksDoc : Type := mkTasksDoc {
  raw_thoughts : list RawThought;
  tasks : list Task;
  next_id : Z
}.

End Tasks.

(** ** The world a run lives in *)

Record World : Type := mkWorld {
  (** [.a1/checkpoint.json]; its document is a JSON object *)
  checkpoint_file : file (gmap string json);
  (** [.a1/checkpoints/]: file name to archived document *)
  checkpoints_dir : gmap string (gmap string json);
  (** [.a1/tasks.json] *)
  tasks_file : file Tasks.TasksDoc;
  (** every document written to [.a1/tasks.json], newest first *)
  tasks_writes : list Tasks.TasksDoc;
  (** the wall clock: its successive readings, and how many were taken *)
  isoformat_now : nat -> string;
  ticks : nat
}.

Definition set_checkpoint_file (f : file (gmap string json)) (w : World) : World :=
  mkWorld f (checkpoints_dir w) (tasks_file w) (tasks_writes w)
          (isoformat_now w) (ticks w).

Definition set_checkpoints_dir (d : gmap string (gmap string json)) (w : World) : World :=
  mkWorld (checkpoint_file w) d (tasks_file w) (tasks_writes w)
          (isoformat_now w) (ticks w).

Definition set_tasks_file (f : file Tasks.TasksDoc) (w : World) : World :=
  mkWorld (checkpoint_file w) (checkpoints_dir w) f (tasks_writes w)
          (isoformat_now w) (ticks w).

Definition set_tasks_writes (l : list Tasks.TasksDoc) (w : World) : World :=
  mkWorld (checkpoint_file w) (checkpoints_dir w) (tasks_file w) l
          (isoformat_now w) (ticks w).

Definition set_ticks (n : nat) (w : World) : World :=
  mkWorld (checkpoint_file w) (checkpoints_dir w) (tasks_file w) (tasks_writes w)
          (isoformat_now w) n.

(** Computations over the world that may raise. *)
Definition M (A : Type) : Type := World -> outcome A * World.

#[export] Instance M_ret : MRet M := fun A a w => (Return a, w).

#[export] Instance M_bind : MBind M := fun A B f m w =>
  match m w with
  | (Return a, w') => f a w'
  | (Raise e, w') => (Raise e, w')
  end.

Definition raise {A : Type} (e : exn) : M A := fun w => (Raise e, w).

Definition get_world : M World := fun w => (Return w, w).

Definition modify_world (f : World -> World) : M unit := fun w => (Return tt, f w).

(** [datetime.now().isoformat()] *)
Definition now : M string :=
  fun w => (Return (isoformat_now w (ticks w)), set_ticks (S (ticks w)) w).

(** ** [a1/checkpoint.py] *)

Module CheckpointManager.

(** The dict literal of [_create_initial]. *)
Definition initial_checkpoint (created updated : string) : gmap string json :=
  <["status" := JStr "STARTING"]>
  (<["session" := JInt 0]>
  (<["current_task" := JNull]>
  (<["context_percent" := JInt 0]>
  (<["files_modified" := JList []]>
  (<["decisions" := JList []]>
  (<["next_steps" := JList []]>
  (<["last_action" := JNull]>
  (<["created_at" := JStr created]>
  (<["updated_at" := JStr updated]> (∅ : gmap string json)))))))))).

(** [_create_initial]: the two timestamps are two readings of the clock. *)
Definition _create_initial : M (gmap string json) :=
  created ← now;
  updated ← now;
  mret (initial_checkpoint created updated).

(** [load]: only [json.JSONDecodeError] and [IOError] are caught. *)
Definition load : M (gmap string json) :=
  w ← get_world;
  match checkpoint_file w with
  | Missing => _create_initial
  | Fails JSONDecodeError => _create_initial
  | Fails IOError => _create_initial
  | Fails e => raise e
  | Holds cp => mret cp
  end.

(** [checkpoint.get("session", 0)] rendered by [f"session_{session:03d}.json"];
    the format code [d] accepts [int] and [bool] only. *)
Definition archive_name (checkpoint : gmap string json) : outcome string :=
  match checkpoint !! "session" with
  | None => Return ("session_" +:+ Fmt.format_03d 0 +:+ ".json")
  | Some (JInt z) => Return ("session_" +:+ Fmt.format_03d z +:+ ".json")
  | Some (JBool b) =>
      Return ("session_" +:+ Fmt.format_03d (if b then 1 else 0) +:+ ".json")
  | Some (JStr _) => Raise ValueError
  | Some _ => Raise TypeError
  end.

(** [save]: the argument is mutated in place ([updated_at]); the dict as the
    caller sees it afterwards is the value returned here. The current file is
    written before the archive name is formatted. *)
Definition save (checkpoint : gmap string json) : M (gmap string json) :=
  t ← now;
  let checkpoint := <["updated_at" := JStr t]> checkpoint in
  _ ← modify_world (set_checkpoint_file (Holds checkpoint));
  match archive_name checkpoint with
  | Raise e => raise e
  | Return archive_file =>
      _ ← modify_world (fun w =>
             set_checkpoints_dir (<[archive_file := checkpoint]> (checkpoints_dir w)) w);
      mret checkpoint
  end.

(** [checkpoint["session"] += 1] *)
Definition incr_session (checkpoint : gmap string json) : outcome (gmap string json) :=
  match checkpoint !! "session" with
  | None => Raise KeyError
  | Some (JInt z) => Return (<["session" := JInt (z + 1)]> checkpoint)
  | Some (JBool b) => Return (<["session" := JInt ((if b then 1 else 0) + 1)]> checkpoint)
  | Some _ => Raise TypeError
  end.

Definition start_session : M (gmap string json) :=
  checkpoint ← load;
  match incr_session checkpoint with
  | Raise e => raise e
  | Return checkpoint =>
      let checkpoint := <["status" := JStr "WORKING"]> checkpoint in
      t ← now;
      let checkpoint := <["session_started_at" := JStr t]> checkpoint in
      save checkpoint
  end.

Definition mark_completed : M unit :=
  checkpoint ← load;
  let checkpoint := <["status" := JStr "COMPLETED"]> checkpoint in
  t ← now;
  let checkpoint := <["completed_at" := JStr t]> checkpoint in
  _ ← save checkpoint;
  mret tt.

Definition is_completed : M bool :=
  checkpoint ← load;
  mret (eq_str (checkpoint !! "status") "COMPLETED").

(** [checkpoint.get("session", 0)] *)
Definition get_session_number : M json :=
  checkpoint ← load;
  mret (default (JInt 0) (checkpoint !! "session")).

End CheckpointManager.

(** ** [a1/tasks.py] *)

Module TaskManager.
Import Tasks.

Definition set_priority (p : Z) (t : Task) : Task :=
  mkTask (id t) (title t) (description t) (status t) p (created_at t)
         (completed_at t) (raw_thought t) (phase t) (success_criteria t).

Definition empty_data : TasksDoc := mkTasksDoc [] [] 1.

(** [_save_data] *)
Definition _save_data (data : TasksDoc) : M unit :=
  modify_world (fun w =>
    set_tasks_writes (data :: tasks_writes w) (set_tasks_file (Holds data) w)).

(** The migration loop of [_load_data]: a task whose priority is missing or 0
    takes its position (from 1) as priority. *)
Definition migrate (ts : list Task) : list Task :=
  imap (fun i t => if Z.eqb (priority t) 0 then set_priority (Z.of_nat i + 1) t else t) ts.

Definition needs_save (ts : list Task) : bool :=
  existsb (fun t => Z.eqb (priority t) 0) ts.

(** [_load_data]: the migrated document is written back when the migration
    changed something. *)
Definition _load_data : M TasksDoc :=
  w ← get_world;
  match tasks_file w with
  | Missing => mret empty_data
  | Fails JSONDecodeError => mret empty_data
  | Fails IOError => mret empty_data
  | Fails e => raise e
  | Holds data =>
      let data' := mkTasksDoc (raw_thoughts data) (migrate (tasks data)) (next_id data) in
      if needs_save (tasks data)
      then _ ← _save_data data'; mret data'
      else mret data'
  end.

(** [max(l, default=0)] *)
Definition max_default0 (l : list Z) : Z :=
  match l with
  | [] => 0
  | x :: r => fold_left Z.max r x
  end.

(** [f"task_{n:03d}"] *)
Definition task_id (n : Z) : string := "task_" +:+ Fmt.format_03d n.

Definition add_task (title description : string) (raw_thought : option string) : M Task :=
  data ← _load_data;
  let existing_priorities := map priority (tasks data) in
  let next_priority := max_default0 existing_priorities + 1 in
  t ← now;
  let task := mkTask (task_id (next_id data)) title description "pending"
                     next_priority t None raw_thought None None in
  let data := mkTasksDoc (raw_thoughts data) (tasks data ++ [task]) (next_id data + 1) in
  _ ← _save_data data;
  mret task.

(** [get_tasks(status)]: [None] and the empty string do not filter. *)
Definition get_tasks (status_filter : option string) : M (list Task) :=
  data ← _load_data;
  let tasks := tasks data in
  match status_filter with
  | None => mret tasks
  | Some s =>
      if String.eqb s "" then mret tasks
      else mret (List.filter (fun t => String.eqb (status t) s) tasks)
  end.

(** [sorted(l, key=lambda t: t.priority)]: Python's sort is stable, so among
    equal priorities the earlier element of [l] stays first. *)
Fixpoint insert_by_priority (t : Task) (l : list Task) : list Task :=
  match l with
  | [] => [t]
  | u :: r => if Z.leb (priority t) (priority u) then t :: l
              else u :: insert_by_priority t r
  end.

Fixpoint sorted_by_priority (l : list Task) : list Task :=
  match l with
  | [] => []
  | t :: r => insert_by_priority t (sorted_by_priority r)
  end.

Definition get_next_task : M (option Task) :=
  in_progress ← get_tasks (Some "in_progress");
  match sorted_by_priority in_progress with
  | t :: _ => mret (Some t)
  | [] =>
      pending ← get_tasks (Some "pending");
      match sorted_by_priority pending with
      | t :: _ => mret (Some t)
      | [] => mret None
      end
  end.

(** One keyword argument of [update_task]: a field of the dataclass and its new
    value. *)
Inductive kwarg : Type :=
| K_id (v : string)
| K_title (v : string)
| K_description (v : string)
| K_status (v : string)
| K_priority (v : Z)
| K_created_at (v : string)
| K_completed_at (v : option string)
| K_raw_thought (v : option string)
| K_phase (v : option string)
| K_success_criteria (v : option string).

Definition update_field (t : Task) (k : kwarg) : Task :=
  match k with
  | K_id v => mkTask v (title t) (description t) (status t) (priority t) (created_at t)
                     (completed_at t) (raw_thought t) (phase t) (success_criteria t)
  | K_title v => mkTask (id t) v (description t) (status t) (priority t) (created_at t)
                     (completed_at t) (raw_thought t) (phase t) (success_criteria t)
  | K_description v => mkTask (id t) (title t) v (status t) (priority t) (created_at t)
                     (completed_at t) (raw_thought t) (phase t) (success_criteria t)
  | K_status v => mkTask (id t) (title t) (description t) v (priority t) (created_at t)
                     (completed_at t) (raw_thought t) (phase t) (success_criteria t)
  | K_priority v => set_priority v t
  | K_created_at v => mkTask (id t) (title t) (description t) (status t) (priority t) v
                     (completed_at t) (raw_thought t) (phase t) (success_criteria t)
  | K_completed_at v => mkTask (id t) (title t) (description t) (status t) (priority t)
                     (created_at t) v (raw_thought t) (phase t) (success_criteria t)
  | K_raw_thought v => mkTask (id t) (title t) (description t) (status t) (priority t)
                     (created_at t) (completed_at t) v (phase t) (success_criteria t)
  | K_phase v => mkTask (id t) (title t) (description t) (status t) (priority t)
                     (created_at t) (completed_at t) (raw_thought t) v (success_criteria t)
  | K_success_criteria v => mkTask (id t) (title t) (description t) (status t) (priority t)
                     (created_at t) (completed_at t) (raw_thought t) (phase t) v
  end.

(** [dict.update(kwargs)] *)
Definition update_fields (t : Task) (kwargs : list kwarg) : Task :=
  fold_left update_field kwargs t.

(** The loop of [update_task]: the first task whose id matches is updated;
    [None] when the loop runs to its end. *)
Fixpoint update_first (task_id : string) (kwargs : list kwarg) (ts : list Task)
  : option (list Task * Task) :=
  match ts with
  | [] => None
  | t :: r =>
      if String.eqb (id t) task_id
      then let t' := update_fields t kwargs in Some (t' :: r, t')
      else match update_first task_id kwargs r with
           | Some (r', t') => Some (t :: r', t')
           | None => None
           end
  end.

Definition update_task (task_id : string) (kwargs : list kwarg) : M (option Task) :=
  data ← _load_data;
  match update_first task_id kwargs (tasks data) with
  | Some (ts, t) =>
      _ ← _save_data (mkTasksDoc (raw_thoughts data) ts (next_id data));
      mret (Some t)
  | None => mret None
  end.

Definition start_task (task_id : string) : M (option Task) :=
  update_task task_id [K_status "in_progress"].

Definition complete_task (task_id : string) : M (option Task) :=
  t ← now;
  update_task task_id [K_status "done"; K_completed_at (Some t)].

(** [{tid: idx + 1 for idx, tid in enumerate(task_ids)}]: a later occurrence of
    an id replaces an earlier one. *)
Definition id_to_priority (task_ids : list string) : gmap string Z :=
  fold_left (fun m p => <[snd p := Z.of_nat (fst p) + 1]> m)
            (imap (fun idx tid => (idx, tid)) task_ids) (∅ : gmap string Z).

Definition reorder_tasks (task_ids : list string) : M unit :=
  data ← _load_data;
  let m := id_to_priority task_ids in
  let ts := map (fun t => match m !! id t with
                          | Some p => set_priority p t
                          | None => t
                          end) (tasks data) in
  _save_data (mkTasksDoc (raw_thoughts data) ts (next_id data)).

Definition get_progress : M (nat * nat) :=
  tasks ← get_tasks None;
  let done := length (List.filter (fun t => String.eqb (status t) "done") tasks) in
  mret (done, length tasks).

End TaskManager.

(** ** [a1/validator.py] *)

Module Validator.

Inductive ValidationResult : Type := OK | FAIL | SKIP | ERROR.

Definition is_fail (r : ValidationResult) : bool :=
  match r with FAIL => true | _ => false end.

Definition is_ok (r : ValidationResult) : bool :=
  match r with OK => true | _ => false end.

Record ValidationReport : Type := mkReport {
  result : ValidationResult;
  message : string;
  details : option string;
  command : option string
}.

(** [run_all]: the four checks always run, the git check only in a git
    repository; the dict keeps this order. The reports themselves come from
    external commands. *)
Definition run_all (syntax tests lint build : ValidationReport)
    (git : option ValidationReport) : list (string * ValidationReport) :=
  [("syntax", syntax); ("tests", tests); ("lint", lint); ("build", build)]
  ++ match git with Some r => [("git", r)] | None => [] end.

(** [check_files_exist]; [exists_on_disk fp] is [(project_dir / fp).exists()]. *)
Definition check_files_exist (exists_on_disk : string -> bool)
    (file_paths : list string) : ValidationReport :=
  match file_paths with
  | [] => mkReport SKIP "No files to check" None None
  | _ =>
      let missing := List.filter (fun fp => negb (exists_on_disk fp)) file_paths in
      match missing with
      | [] => mkReport OK ("All " +:+ Fmt.str_int (Z.of_nat (length file_paths))
                            +:+ " files exist") None None
      | _ => mkReport FAIL (Fmt.str_int (Z.of_nat (length missing)) +:+ " files missing: "
                            +:+ Fmt.join ", " (firstn 5 missing)) None None
      end
  end.

End Validator.

(** ** [a1/loop.py]: stream events and the context guard *)

Module SessionLoop.

(** Context window size (tokens) and the auto-checkpoint threshold. *)
Definition CONTEXT_WINDOW_SIZE : Z := 200000.
Definition CONTEXT_THRESHOLD : Q := 70 # 100.

(** The live metrics of a session. [session_start] and [session_duration] are
    wall-clock readings and are left out. *)
Record SessionMetrics : Type := mkMetrics {
  tokens_in : Z;
  tokens_out : Z;
  cache_read : Z;
  cache_creation : Z;
  tools_used : Z;
  context_percent : Q
}.

(** The attributes of the loop object that the stream parser reads and
    writes. *)
Record Self : Type := mkSelf {
  _session_metrics : SessionMetrics;
  _context_overflow : bool;
  _context_percent : Q
}.

(** The reset at the top of [_run_claude_max]. *)
Definition reset : Self := mkSelf (mkMetrics 0 0 0 0 0 0) false 0.

(** A content block of an assistant message, read with [block.get]. *)
Record Block : Type := mkBlock {
  btype : string;
  name : option string;
  input : gmap string string;
  text : string;
  thinking : string
}.

(** A decoded stream event, read with [event.get]: a missing key is the
    default the code passes to [get]. *)
Record Event : Type := mkEvent {
  etype : string;
  usage : gmap string Z;
  result : string;
  content : list Block
}.

(** A line of the Worker's output after [line.strip()] and [json.loads]. *)
Inductive Line : Type :=
| Blank
| NotJson (stripped : string)
| Json (event : Event).

(** What a session makes observable besides its state. *)
Inductive Effect : Type :=
| ThresholdReached (input_tokens : Z)
| Shown (display_text event_type : string)
| ContextCheckpointSaved
| WorkerTerminated.

(** [a or b] on strings read with [dict.get]. *)
Definition or_else (a : option string) (b : string) : string :=
  match a with
  | Some s => if String.eqb s "" then b else s
  | None => b
  end.

Definition _classify_tool (tool_name : string) (tool_input : gmap string string)
  : string * string :=
  let ev_type :=
    if String.eqb tool_name "Read" then "read"
    else if String.eqb tool_name "Edit" then "edit"
    else if String.eqb tool_name "Write" then "write"
    else if String.eqb tool_name "Bash" then "bash"
    else if String.eqb tool_name "Glob" then "read"
    else if String.eqb tool_name "Grep" then "read"
    else "bash" in
  if String.eqb tool_name "Read" || String.eqb tool_name "Glob" || String.eqb tool_name "Grep"
  then
    let target := or_else (tool_input !! "file_path") (or_else (tool_input !! "pattern") "") in
    ("[" +:+ tool_name +:+ "] " +:+ target, ev_type)
  else if String.eqb tool_name "Edit" || String.eqb tool_name "Write"
  then
    let target := default "" (tool_input !! "file_path") in
    ("[" +:+ tool_name +:+ "] " +:+ target, ev_type)
  else if String.eqb tool_name "Bash"
  then
    let cmd := Fmt.take 80 (default "" (tool_input !! "command")) in
    ("[Bash] " +:+ cmd, ev_type)
  else ("[" +:+ tool_name +:+ "]", ev_type).

(** [context_percent >= CONTEXT_THRESHOLD]. The source compares floats; for an
    integer token count the correctly rounded quotient and the rounded literal
    0.70 compare as the exact rationals do, since rounding is monotone and
    140000 / 200000 rounds to the literal itself. *)
Definition over_threshold (percent : Q) : bool := Qle_bool CONTEXT_THRESHOLD percent.

(** The [rate_limit_event] branch with a non-empty [usage]. *)
Definition record_usage (self : Self) (usage : gmap string Z) : Self * list Effect :=
  let m := _session_metrics self in
  let input_tokens := default (tokens_in m) (usage !! "input_tokens") in
  let percent := (inject_Z input_tokens / inject_Z CONTEXT_WINDOW_SIZE)%Q in
  let m' := mkMetrics input_tokens
                      (default (tokens_out m) (usage !! "output_tokens"))
                      (default (cache_read m) (usage !! "cache_read_input_tokens"))
                      (default (cache_creation m) (usage !! "cache_creation_input_tokens"))
                      (tools_used m) percent in
  if over_threshold percent && negb (_context_overflow self)
  then (mkSelf m' true percent, [ThresholdReached input_tokens])
  else (mkSelf m' (_context_overflow self) percent, []).

Definition count_tool (self : Self) : Self :=
  let m := _session_metrics self in
  mkSelf (mkMetrics (tokens_in m) (tokens_out m) (cache_read m) (cache_creation m)
                    (tools_used m + 1) (context_percent m))
         (_context_overflow self) (_context_percent self).

(** The loop over the content blocks of an assistant message. *)
Fixpoint scan_blocks (self : Self) (content : list Block)
  : Self * option (string * string) :=
  match content with
  | [] => (self, None)
  | block :: rest =>
      if String.eqb (btype block) "tool_use"
      then (count_tool self,
            Some (_classify_tool (default "unknown" (name block)) (input block)))
      else if String.eqb (btype block) "text"
              && negb (String.eqb (Fmt.strip (Fmt.take 150 (text block))) "")
      then (self, Some (Fmt.strip (Fmt.take 150 (text block)), "text"))
      else if String.eqb (btype block) "thinking"
              && negb (String.eqb (Fmt.strip (Fmt.take 100 (thinking block))) "")
      then (self, Some (Fmt.strip (Fmt.take 100 (thinking block)), "thinking"))
      else scan_blocks self rest
  end.

(** [_parse_stream_event]: the new state, the pair [(display_text,
    event_type)] when there is one, and what was announced on the way. *)
Definition _parse_stream_event (self : Self) (line : Line)
  : Self * option (string * string) * list Effect :=
  match line with
  | Blank => (self, None, [])
  | NotJson stripped => (self, Some (stripped, "text"), [])
  | Json event =>
      if String.eqb (etype event) "system" || String.eqb (etype event) "user"
      then (self, None, [])
      else if String.eqb (etype event) "rate_limit_event"
      then
        if negb (Nat.eqb (size (usage event)) 0)
        then let '(self', effects) := record_usage self (usage event) in
             (self', None, effects)
        else (self, None, [])
      else if String.eqb (etype event) "result"
      then
        let result_text := Fmt.take 200 (result event) in
        if negb (String.eqb (Fmt.strip result_text) "")
        then (self, Some ("[Result] " +:+ result_text, "text"), [])
        else (self, None, [])
      else if String.eqb (etype event) "assistant"
      then let '(self', shown) := scan_blocks self (content event) in (self', shown, [])
      else (self, None, [])
  end.

Definition show (shown : option (string * string)) : list Effect :=
  match shown with
  | Some (display_text, event_type) =>
      if String.eqb display_text "" then [] else [Shown display_text event_type]
  | None => []
  end.

(** The read loop of [_run_claude_max], once the Worker process is started.
    Each line comes with the answer of [poll() is None] at the overflow test
    that follows it; [returncode] is the Worker's exit status when its output
    ends first. Saving the context checkpoint and terminating the Worker are
    recorded as effects; [ClaudeMax.read_lines] below is the same loop over the
    files, with the ways the overflow branch can fail. *)
Fixpoint read_lines (self : Self) (lines : list (Line * bool)) (returncode : Z)
  : Self * list Effect * Z :=
  match lines with
  | [] => (self, [], returncode)
  | (line, running) :: rest =>
      let '(self', shown, announced) := _parse_stream_event self line in
      let effects := announced ++ show shown in
      if _context_overflow self' && running
      then (self', effects ++ [ContextCheckpointSaved; WorkerTerminated], 0)
      else let '(self'', later, code) := read_lines self' rest returncode in
           (self'', effects ++ later, code)
  end.

(** [_run_claude_max]: whatever the previous session left in [self], the
    session starts from [reset]. *)
Definition _run_claude_max (self : Self) (lines : list (Line * bool)) (returncode : Z)
  : Self * list Effect * Z :=
  read_lines reset lines returncode.

Definition is_threshold_reached (e : Effect) : bool :=
  match e with ThresholdReached _ => true | _ => false end.

(** How often the guard fired in a session. *)
Definition guard_fired (effects : list Effect) : nat :=
  length (List.filter is_threshold_reached effects).

Definition is_checkpoint_saved (e : Effect) : bool :=
  match e with ContextCheckpointSaved => true | _ => false end.

(** How often a session saved the context checkpoint. *)
Definition checkpoints_saved (effects : list Effect) : nat :=
  length (List.filter is_checkpoint_saved effects).

(** *** Verification *)

(** Checks that block completion, the cap on retries. *)
Definition BLOCKING_CHECKS : gset string := {[ "syntax"; "tests" ]}.
Definition WARNING_CHECKS : gset string := {[ "lint"; "build"; "git" ]}.
Definition MAX_VERIFY_RETRIES : Z := 3.

(** Where an entry of [blocking_issues] or [warnings] comes from. The Python
    lists hold the [line] only; the source of each line is kept beside it. *)
Inductive IssueSource : Type :=
| CheckFailed (check : string)
| CheckDetails (check : string)
| CheckWarning (check : string)
| PreExisting (check : string)
| FilesMissing
| CriteriaFailed (task : string)
| TasksIncomplete
| MaxRetries.

Record Issue : Type := mkIssue {
  source : IssueSource;
  line : string
}.

Record VerificationResult : Type := mkVerification {
  passed : bool;
  force_accepted : bool;
  blocking_issues : list Issue;
  warnings : list Issue;
  retry_count : Z;
  summary : string
}.

Record BaselineEntry : Type := mkBaseline {
  baseline_result : Validator.ValidationResult;
  baseline_message : string
}.

(** [_capture_baseline] *)
Definition _capture_baseline (val_results : list (string * Validator.ValidationReport))
  : gmap string BaselineEntry :=
  fold_left (fun b entry =>
               <[fst entry := mkBaseline (Validator.result (snd entry))
                                         (Validator.message (snd entry))]> b)
            val_results (∅ : gmap string BaselineEntry).

(** [_is_new_issue]; [None] is a loop object without a [_baseline]
    attribute. *)
Definition _is_new_issue (baseline : option (gmap string BaselineEntry))
    (check_name : string) : bool :=
  match baseline with
  | None => true
  | Some b =>
      if Nat.eqb (size b) 0 then true
      else match b !! check_name with
           | Some entry => negb (Validator.is_fail (baseline_result entry))
           | None => true
           end
  end.

(** One iteration of the loop over [val_results.items()]. *)
Definition classify_report (baseline : option (gmap string BaselineEntry))
    (acc : list Issue * list Issue) (entry : string * Validator.ValidationReport)
  : list Issue * list Issue :=
  let '(blocking_issues, warnings) := acc in
  let '(name, report) := entry in
  if negb (Validator.is_fail (Validator.result report)) then acc
  else if negb (_is_new_issue baseline name)
  then (blocking_issues,
        warnings ++ [mkIssue (PreExisting name)
                       (name +:+ ": " +:+ Validator.message report
                        +:+ " (pre-existing, skipped)")])
  else if bool_decide (name ∈ BLOCKING_CHECKS)
  then (blocking_issues
          ++ [mkIssue (CheckFailed name) (name +:+ ": " +:+ Validator.message report)]
          ++ match Validator.details report with
             | Some d => if String.eqb d "" then []
                         else [mkIssue (CheckDetails name) ("  " +:+ Fmt.take 200 d)]
             | None => []
             end,
        warnings)
  else (blocking_issues,
        warnings ++ [mkIssue (CheckWarning name)
                       (name +:+ ": " +:+ Validator.message report)]).

(** The paths [check_files_exist] iterates over. A truthy value that is not a
    list of strings is taken to raise [TypeError], as [project_dir / fp] does
    for a [fp] that is not a string. *)
Fixpoint strings_of (l : list json) : option (list string) :=
  match l with
  | [] => Some []
  | JStr s :: r => match strings_of r with Some r' => Some (s :: r') | None => None end
  | _ => None
  end.

Definition paths_of (files_modified : json) : outcome (list string) :=
  match files_modified with
  | JList l => match strings_of l with Some p => Return p | None => Raise TypeError end
  | _ => Raise TypeError
  end.

(** Step 3, one done task. *)
Definition check_task_criteria (check_criteria : string -> Validator.ValidationReport)
    (blocking_issues : list Issue) (task : Tasks.Task) : list Issue :=
  match Tasks.success_criteria task with
  | Some c =>
      if String.eqb c "" then blocking_issues
      else
        let criteria_report := check_criteria c in
        if Validator.is_fail (Validator.result criteria_report)
        then blocking_issues
               ++ [mkIssue (CriteriaFailed (Tasks.id task))
                     (Tasks.id task +:+ " criteria: " +:+ Validator.message criteria_report)]
        else blocking_issues
  | None => blocking_issues
  end.

(** [checkpoint.get("last_verification", {})], then used through [.get]. *)
Definition last_verification_of (checkpoint : gmap string json)
  : outcome (gmap string json) :=
  match checkpoint !! "last_verification" with
  | None => Return ∅
  | Some (JObj o) => Return o
  | Some _ => Raise AttributeError
  end.

(** [last_ver.get("retry_count", 0) if not last_ver.get("passed", True) else 0] *)
Definition prev_retry (last_ver : gmap string json) : json :=
  if negb (truthy (default (JBool true) (last_ver !! "passed")))
  then default (JInt 0) (last_ver !! "retry_count")
  else JInt 0.

(** [prev_retry + 1 if blocking_issues else 0] *)
Definition next_retry_count (prev_retry : json) (blocking_issues : list Issue)
  : outcome Z :=
  match blocking_issues with
  | [] => Return 0
  | _ => match prev_retry with
         | JInt z => Return (z + 1)
         | JBool b => Return ((if b then 1 else 0) + 1)
         | _ => Raise TypeError
         end
  end.

Definition newline : string := String "010"%char "".

Definition summary_of (val_results : list (string * Validator.ValidationReport))
    (passed force_accept : bool) (blocking_issues warnings : list Issue)
    (retry_count : Z) : string :=
  let head :=
    if passed && negb force_accept
    then "[VERIFY] All checks PASSED"
         :: map (fun entry =>
                   "  [" +:+ (if Validator.is_ok (Validator.result (snd entry))
                              then "OK" else "SKIP")
                   +:+ "] " +:+ fst entry +:+ ": " +:+ Validator.message (snd entry))
                val_results
    else if force_accept
    then ("[VERIFY] FORCE ACCEPTED after " +:+ Fmt.str_int retry_count +:+ " retries")
         :: map (fun issue => "  [!] " +:+ line issue) blocking_issues
    else ("[VERIFY] FAILED (attempt " +:+ Fmt.str_int retry_count +:+ "/"
          +:+ Fmt.str_int MAX_VERIFY_RETRIES +:+ ")")
         :: map (fun issue => "  [BLOCK] " +:+ line issue) blocking_issues in
  let tail :=
    match warnings with
    | [] => []
    | _ => "  Warnings:" :: map (fun w => "    [WARN] " +:+ line w) (firstn 5 warnings)
    end in
  Fmt.join newline (head ++ tail).

(** Steps 6 and the result: force-accept, [passed], the summary. *)
Definition conclude (val_results : list (string * Validator.ValidationReport))
    (blocking_issues warnings : list Issue) (retry_count : Z) : VerificationResult :=
  let force_accept :=
    match blocking_issues with
    | [] => false
    | _ => Z.leb MAX_VERIFY_RETRIES retry_count
    end in
  let warnings :=
    if force_accept
    then warnings ++ [mkIssue MaxRetries
                        ("MAX RETRIES (" +:+ Fmt.str_int MAX_VERIFY_RETRIES
                         +:+ ") reached — accepting with issues")]
    else warnings in
  let passed := Nat.eqb (length blocking_issues) 0 || force_accept in
  mkVerification passed force_accept blocking_issues warnings retry_count
    (summary_of val_results passed force_accept blocking_issues warnings retry_count).

(** Step 2: every file the checkpoint lists as modified must exist. *)
Definition check_files_modified (exists_on_disk : string -> bool)
    (checkpoint : gmap string json) (blocking_issues : list Issue) : M (list Issue) :=
  let files_modified := default (JList []) (checkpoint !! "files_modified") in
  if truthy files_modified
  then match paths_of files_modified with
       | Raise e => raise e
       | Return paths =>
           let files_report := Validator.check_files_exist exists_on_disk paths in
           if Validator.is_fail (Validator.result files_report)
           then mret (blocking_issues
                        ++ [mkIssue FilesMissing
                              ("files: " +:+ Validator.message files_report)])
           else mret blocking_issues
       end
  else mret blocking_issues.

(** Step 4: a checkpoint that says COMPLETED needs every task done. *)
Definition check_all_done (checkpoint : gmap string json)
    (blocking_issues : list Issue) : M (list Issue) :=
  if eq_str (checkpoint !! "status") "COMPLETED"
  then progress ← TaskManager.get_progress;
       if Nat.ltb (fst progress) (snd progress)
       then mret (blocking_issues
                    ++ [mkIssue TasksIncomplete
                          ("tasks: Only " +:+ Fmt.str_int (Z.of_nat (fst progress))
                           +:+ "/" +:+ Fmt.str_int (Z.of_nat (snd progress))
                           +:+ " done but checkpoint says COMPLETED")])
       else mret blocking_issues
  else mret blocking_issues.

(** [_verify_session]. The validator's answers are the arguments:
    [val_results] is [validator.run_all()], [exists_on_disk] decides
    [check_files_exist], and [check_criteria] is the validator's heuristic of
    the same name (it runs the tests or the linter, or looks for a file). *)
Definition _verify_session (baseline : option (gmap string BaselineEntry))
    (val_results : list (string * Validator.ValidationReport))
    (exists_on_disk : string -> bool)
    (check_criteria : string -> Validator.ValidationReport) : M VerificationResult :=
  let '(blocking_issues, warnings) :=
    fold_left (classify_report baseline) val_results ([], []) in
  checkpoint ← CheckpointManager.load;
  blocking_issues ← check_files_modified exists_on_disk checkpoint blocking_issues;
  done_tasks ← TaskManager.get_tasks (Some "done");
  let blocking_issues :=
    fold_left (check_task_criteria check_criteria) done_tasks blocking_issues in
  blocking_issues ← check_all_done checkpoint blocking_issues;
  match last_verification_of checkpoint with
  | Raise e => raise e
  | Return last_ver =>
      match next_retry_count (prev_retry last_ver) blocking_issues with
      | Raise e => raise e
      | Return retry_count =>
          mret (conclude val_results blocking_issues warnings retry_count)
      end
  end.

(** *** The tail of one iteration of [start] *)

(** "Save session metrics to checkpoint": [metrics] is [dict(_session_metrics)]
    and [percent] is [int(_context_percent * 100)]. *)
Definition save_session_metrics (metrics : json) (percent : Z) : M unit :=
  cp_data ← CheckpointManager.load;
  let cp_data := <["session_metrics" := metrics]> cp_data in
  let cp_data := <["context_percent" := JInt percent]> cp_data in
  _ ← CheckpointManager.save cp_data;
  mret tt.

(** The dict stored under ["last_verification"] when a completion claim is
    rejected. *)
Definition failed_verification (verification : VerificationResult)
    (cp_data : gmap string json) : gmap string json :=
  <["passed" := JBool false]>
  (<["blocking_issues" := JList (map (fun i => JStr (line i)) (blocking_issues verification))]>
  (<["warnings" := JList (map (fun i => JStr (line i)) (warnings verification))]>
  (<["retry_count" := JInt (retry_count verification)]>
  (<["session" := default (JInt 0) (cp_data !! "session")]> (∅ : gmap string json))))).

(** Post-session verification and the test that follows it in [start]: the
    boolean tells whether the loop breaks (all tasks completed and verified or
    force-accepted). *)
Definition verify_and_record (baseline : option (gmap string BaselineEntry))
    (val_results : list (string * Validator.ValidationReport))
    (exists_on_disk : string -> bool)
    (check_criteria : string -> Validator.ValidationReport)
  : M (VerificationResult * bool) :=
  verification ← _verify_session baseline val_results exists_on_disk check_criteria;
  completed ← CheckpointManager.is_completed;
  if (completed : bool)
  then
    if passed verification
    then (mret (verification, true) : M (VerificationResult * bool))
    else
      cp_data ← CheckpointManager.load;
      let cp_data := <["status" := JStr "WORKING"]> cp_data in
      let cp_data := <["last_verification" := JObj (failed_verification verification cp_data)]>
                       cp_data in
      _ ← CheckpointManager.save cp_data;
      mret (verification, false)
  else mret (verification, false).

End SessionLoop.

(** ** Vocabulary of the statements

    What the theorems below say about a world without running the code: which
    documents can be read, what a read returns and leaves behind, and the
    predicates the claims are phrased with. *)

Module Obs.

(** [open] and [json.load] succeed, or fail in one of the two ways the stores
    catch. *)
Definition readable {A : Type} (f : file A) : bool :=
  match f with
  | Fails JSONDecodeError | Fails IOError => true
  | Fails _ => false
  | _ => true
  end.

(** The document is missing, is not JSON, or cannot be read. *)
Definition missing_or_unparsable {A : Type} (f : file A) : bool :=
  match f with
  | Missing | Fails JSONDecodeError | Fails IOError => true
  | _ => false
  end.

(** *** Task store *)

(** The tasks as [get_tasks()] lists them. *)
Definition listed (w : World) : list Tasks.Task :=
  match tasks_file w with
  | Holds data => TaskManager.migrate (Tasks.tasks data)
  | _ => []
  end.

(** What [_load_data] returns in a readable world. *)
Definition loaded (w : World) : Tasks.TasksDoc :=
  match tasks_file w with
  | Holds data =>
      Tasks.mkTasksDoc (Tasks.raw_thoughts data) (TaskManager.migrate (Tasks.tasks data))
                       (Tasks.next_id data)
  | _ => TaskManager.empty_data
  end.

(** The world [_load_data] leaves behind: the migrated document is written
    when some task had no priority. *)
Definition after_load (w : World) : World :=
  match tasks_file w with
  | Holds data =>
      if TaskManager.needs_save (Tasks.tasks data)
      then set_tasks_writes (loaded w :: tasks_writes w) (set_tasks_file (Holds (loaded w)) w)
      else w
  | _ => w
  end.

(** The add calls of a sequence, one after the other. *)
Fixpoint add_tasks (calls : list (string * string * option string)) : M (list Tasks.Task) :=
  match calls with
  | [] => mret []
  | (title, description, raw_thought) :: rest =>
      task ← TaskManager.add_task title description raw_thought;
      tasks ← add_tasks rest;
      mret (task :: tasks)
  end.

Fixpoint strip_prefix (p s : string) : option string :=
  match p, s with
  | EmptyString, _ => Some s
  | String a p', String b s' => if Ascii.eqb a b then strip_prefix p' s' else None
  | _, _ => None
  end.

(** The sequence number an id carries: [int(task_id[len("task_"):])]. *)
Definition id_number (task_id : string) : option Z :=
  match strip_prefix "task_" task_id with
  | Some digits => Fmt.read_int digits
  | None => None
  end.

Definition by_priority (t u : Tasks.Task) : Prop := Tasks.priority t <= Tasks.priority u.

Definition with_status (s : string) (ts : list Tasks.Task) : list Tasks.Task :=
  List.filter (fun t => String.eqb (Tasks.status t) s) ts.

(** [id_to_priority] step by step, counting positions from [n]. *)
Definition assign (m : gmap string Z) (p : nat * string) : gmap string Z :=
  <[snd p := Z.of_nat (fst p) + 1]> m.

Definition positions_from (n : nat) (ids : list string) (m : gmap string Z) : gmap string Z :=
  fold_left assign (imap (fun idx tid => (n + idx, tid)%nat) ids) m.

(** The loop of [reorder_tasks] on one task. *)
Definition reassign (m : gmap string Z) (t : Tasks.Task) : Tasks.Task :=
  match m !! Tasks.id t with
  | Some p => TaskManager.set_priority p t
  | None => t
  end.

(** *** Context guard *)

(** The input token count a line reports, when it is a usage report. *)
Definition reported_tokens (l : SessionLoop.Line) : option Z :=
  match l with
  | SessionLoop.Json event =>
      if String.eqb (SessionLoop.etype event) "rate_limit_event"
         && negb (Nat.eqb (size (SessionLoop.usage event)) 0)
      then SessionLoop.usage event !! "input_tokens"
      else None
  | _ => None
  end.

(** [tokens / CONTEXT_WINDOW_SIZE >= CONTEXT_THRESHOLD] *)
Definition at_or_above_threshold (tokens : Z) : bool :=
  SessionLoop.over_threshold (inject_Z tokens / inject_Z SessionLoop.CONTEXT_WINDOW_SIZE)%Q.

Definition effects_of (run : SessionLoop.Self * list SessionLoop.Effect * Z)
  : list SessionLoop.Effect := snd (fst run).

(** The guard has not fired and the last count is under the threshold. *)
Definition below (self : SessionLoop.Self) : Prop :=
  SessionLoop._context_overflow self = false
  /\ SessionLoop.tokens_in (SessionLoop._session_metrics self) < 140000.

Definition fired (effects : list SessionLoop.Effect) : list SessionLoop.Effect :=
  List.filter SessionLoop.is_threshold_reached effects.

(** *** Verification *)

(** The checkpoint [load] returns in a world whose document can be read. *)
Definition loaded_checkpoint (w : World) : gmap string json :=
  match checkpoint_file w with
  | Holds cp => cp
  | _ => CheckpointManager.initial_checkpoint (isoformat_now w (ticks w))
                                              (isoformat_now w (S (ticks w)))
  end.

Definition files_ok (cp : gmap string json) : bool :=
  let v := default (JList []) (cp !! "files_modified") in
  negb (truthy v)
  || match SessionLoop.paths_of v with Return _ => true | Raise _ => false end.

Definition retry_ok (cp : gmap string json) : bool :=
  match SessionLoop.last_verification_of cp with
  | Return lv =>
      match SessionLoop.prev_retry lv with JInt _ | JBool _ => true | _ => false end
  | Raise _ => false
  end.

Definition session_ok (cp : gmap string json) : bool :=
  match CheckpointManager.archive_name cp with Return _ => true | Raise _ => false end.

(** Verification runs without raising: both documents can be read (or are
    missing or corrupt in the two ways that are caught) and the fields that
    are read have the types the code expects. *)
Definition ready (w : World) : bool :=
  readable (checkpoint_file w) && readable (tasks_file w)
  && files_ok (loaded_checkpoint w)
  && retry_ok (loaded_checkpoint w).

(** The checkpoint can be saved: its session formats as a file name. *)
Definition recordable (w : World) : bool := session_ok (loaded_checkpoint w).

Definition claims_completed (w : World) : bool :=
  match checkpoint_file w with
  | Holds cp => eq_str (cp !! "status") "COMPLETED"
  | _ => false
  end.

Definition stored_last_verification (w : World) : option json :=
  match checkpoint_file w with
  | Holds cp => cp !! "last_verification"
  | _ => None
  end.

(** The count the next evaluation starts from. *)
Definition previous_retry_count (w : World) : json :=
  match stored_last_verification w with
  | Some (JObj last_ver) => SessionLoop.prev_retry last_ver
  | _ => JInt 0
  end.

(** What the loop over the validator's results yields. *)
Definition from_checks (baseline : option (gmap string SessionLoop.BaselineEntry))
    (val_results : list (string * Validator.ValidationReport))
  : list SessionLoop.Issue * list SessionLoop.Issue :=
  fold_left (SessionLoop.classify_report baseline) val_results ([], []).

(** A blocking entry of that loop comes from a failing check that is new. *)
Definition blocking_origin (baseline : option (gmap string SessionLoop.BaselineEntry))
    (vr : list (string * Validator.ValidationReport)) (i : SessionLoop.Issue) : Prop :=
  exists name report, In (name, report) vr
    /\ Validator.is_fail (Validator.result report) = true
    /\ SessionLoop._is_new_issue baseline name = true
    /\ (SessionLoop.source i = SessionLoop.CheckFailed name
        \/ SessionLoop.source i = SessionLoop.CheckDetails name).

(** Steps 2 to 4 add entries from these sources only. *)
Definition later_source (s : SessionLoop.IssueSource) : bool :=
  match s with
  | SessionLoop.FilesMissing | SessionLoop.CriteriaFailed _
  | SessionLoop.TasksIncomplete => true
  | _ => false
  end.

(** The sources of warnings. *)
Definition warning_source (s : SessionLoop.IssueSource) : bool :=
  match s with
  | SessionLoop.CheckWarning _ | SessionLoop.PreExisting _
  | SessionLoop.MaxRetries => true
  | _ => false
  end.

(** The ["tests"] check fails and the baseline does not excuse it. *)
Definition new_tests_failure (baseline : option (gmap string SessionLoop.BaselineEntry))
    (val_results : list (string * Validator.ValidationReport)) : Prop :=
  exists report, In ("tests", report) val_results
    /\ Validator.is_fail (Validator.result report) = true
    /\ SessionLoop._is_new_issue baseline "tests" = true.

Definition max_retries_notice : SessionLoop.Issue :=
  SessionLoop.mkIssue SessionLoop.MaxRetries
    "MAX RETRIES (3) reached — accepting with issues".

End Obs.

(** ** Concrete runs *)

Module Ex.

Definition clock (n : nat) : string := "2026-01-01T00:00:" +:+ Fmt.format_03d (Z.of_nat n).

(** A project directory before the first run. *)
Definition fresh_world : World := mkWorld Missing ∅ Missing [] clock 0.

(** The checkpoint document holds text that is not JSON. *)
Definition malformed_world : World :=
  set_checkpoint_file (Fails JSONDecodeError) fresh_world.

(** The Worker edits [.a1/checkpoint.json] and sets the status to COMPLETED. *)
Definition worker_claims_completed (w : World) : World :=
  set_checkpoint_file
    (Holds (<["status" := JStr "COMPLETED"]> (Obs.loaded_checkpoint w))) w.

Definition ok_report : Validator.ValidationReport :=
  Validator.mkReport Validator.OK "ok" None None.
Definition tests_failed : Validator.ValidationReport :=
  Validator.mkReport Validator.FAIL "Tests failed" None (Some "pytest").
Definition lint_failed : Validator.ValidationReport :=
  Validator.mkReport Validator.FAIL "Lint issues: 3" None (Some "ruff check").

Definition failing_tests_run : list (string * Validator.ValidationReport) :=
  Validator.run_all ok_report tests_failed ok_report ok_report None.
Definition failing_lint_run : list (string * Validator.ValidationReport) :=
  Validator.run_all ok_report ok_report lint_failed ok_report None.

Definition all_exist (fp : string) : bool := true.
Definition unverifiable (criteria : string) : Validator.ValidationReport :=
  Validator.mkReport Validator.SKIP "can't verify automatically" None None.

(** Three sessions in which the tests keep failing and the Worker claims
    completion each time. *)
Definition session1 : World :=
  worker_claims_completed (snd (CheckpointManager.start_session fresh_world)).
Definition after1 : World :=
  snd (SessionLoop.verify_and_record None failing_tests_run all_exist unverifiable session1).
Definition session2 : World :=
  worker_claims_completed (snd (CheckpointManager.start_session after1)).
Definition after2 : World :=
  snd (SessionLoop.verify_and_record None failing_tests_run all_exist unverifiable session2).
Definition session3 : World :=
  worker_claims_completed (snd (CheckpointManager.start_session after2)).

(** The same three sessions when the Worker never claims completion. *)
Definition quiet1 : World := snd (CheckpointManager.start_session fresh_world).
Definition quiet2 : World :=
  snd (CheckpointManager.start_session
         (snd (SessionLoop.verify_and_record None failing_tests_run all_exist unverifiable
                 quiet1))).
Definition quiet3 : World :=
  snd (CheckpointManager.start_session
         (snd (SessionLoop.verify_and_record None failing_tests_run all_exist unverifiable
                 quiet2))).

(** A checkpoint whose recorded verification passed with a count of 2. *)
Definition passed_record : gmap string json :=
  <["status" := JStr "WORKING"]>
  (<["session" := JInt 4]>
  (<["last_verification" :=
       JObj (<["passed" := JBool true]> (<["retry_count" := JInt 2]> ∅))]> ∅)).
Definition passed_record_world : World :=
  mkWorld (Holds passed_record) ∅ Missing [] clock 0.

Definition task (n : Z) (status : string) (priority : Z) : Tasks.Task :=
  Tasks.mkTask (TaskManager.task_id n) "title" "" status priority "2026-01-01" None None
               None None.

Definition tasks_world (ts : list Tasks.Task) (next_id : Z) : World :=
  mkWorld Missing ∅ (Holds (Tasks.mkTasksDoc [] ts next_id)) [] clock 0.

(** One task in progress at priority 5, two pending at priorities 1 and 2. *)
Definition interrupted_world : World :=
  tasks_world [task 1 "pending" 1; task 2 "pending" 2; task 3 "in_progress" 5] 4.

(** A task document written before priorities existed. *)
Definition legacy_world : World :=
  tasks_world [task 1 "pending" 0; task 2 "pending" 0] 3.

Definition usage_report (input_tokens : Z) : SessionLoop.Line :=
  SessionLoop.Json (SessionLoop.mkEvent "rate_limit_event"
                      (<["input_tokens" := input_tokens]> ∅) "" []).

End Ex.

(** ** [a1/tasks.py]: raw thoughts and the summary *)

Module TaskSummary.
Import Tasks TaskManager.

(** [add_raw_thought] *)
Definition add_raw_thought (thought : string) : M unit :=
  data ← _load_data;
  t ← now;
  _save_data (mkTasksDoc (raw_thoughts data ++ [mkRawThought thought t])
                         (tasks data) (next_id data)).

(** [get_raw_thoughts] *)
Definition get_raw_thoughts : M (list RawThought) :=
  data ← _load_data;
  mret (raw_thoughts data).

(** [clear_raw_thoughts] *)
Definition clear_raw_thoughts : M unit :=
  data ← _load_data;
  _save_data (mkTasksDoc [] (tasks data) (next_id data)).

(** The sort key of [get_summary], [(t.status == "done", t.priority)]: tuples
    compare by the first component ([False < True]), then by the second. *)
Definition summary_key_le (t u : Task) : bool :=
  let dt := String.eqb (status t) "done" in
  let du := String.eqb (status u) "done" in
  if Bool.eqb dt du then Z.leb (priority t) (priority u) else negb dt.

(** [tasks.sort(key=...)], stable like every Python sort. *)
Fixpoint insert_by_summary_key (t : Task) (l : list Task) : list Task :=
  match l with
  | [] => [t]
  | u :: r => if summary_key_le t u then t :: l
              else u :: insert_by_summary_key t r
  end.

Fixpoint sorted_for_summary (l : list Task) : list Task :=
  match l with
  | [] => []
  | t :: r => insert_by_summary_key t (sorted_for_summary r)
  end.

Definition status_mark (status : string) : string :=
  if String.eqb status "pending" then "[ ]"
  else if String.eqb status "in_progress" then "[~]"
  else if String.eqb status "done" then "[x]"
  else if String.eqb status "blocked" then "[!]"
  else "[?]".

(** The lines [get_summary] appends for one task. *)
Definition task_lines (t : Task) : list string :=
  [status_mark (status t) +:+ " [" +:+ id t +:+ "] " +:+ title t]
  ++ (if String.eqb (description t) "" then []
      else ["    " +:+ Fmt.take 100 (description t)])
  ++ match success_criteria t with
     | Some c =>
         if negb (String.eqb c "") && negb (String.eqb (status t) "done")
         then ["    SUCCESS CRITERIA: " +:+ c]
         else []
     | None => []
     end.

(** The lines of [get_summary] before they are joined. *)
Definition summary_lines (done total : nat) (tasks : list Task)
    (thoughts : list RawThought) : list string :=
  ["## Tasks (" +:+ Fmt.str_int (Z.of_nat done) +:+ "/" +:+ Fmt.str_int (Z.of_nat total)
   +:+ " completed)"]
  ++ concat (map task_lines (sorted_for_summary tasks))
  ++ match thoughts with
     | [] => []
     | _ => (SessionLoop.newline +:+ "## Raw Thoughts (need transform)")
            :: map (fun th => "  - " +:+ text th) thoughts
     end.

(** [get_summary] *)
Definition get_summary : M string :=
  progress ← get_progress;
  tasks ← get_tasks None;
  thoughts ← get_raw_thoughts;
  mret (Fmt.join SessionLoop.newline
          (summary_lines (fst progress) (snd progress) tasks thoughts)).

End TaskSummary.

(** ** [a1/checkpoint.py]: a run of sessions *)

Module CheckpointRuns.

(** [start_session] called [k] times in a row, as the loop does once per
    iteration. *)
Fixpoint start_sessions (k : nat) : M unit :=
  match k with
  | O => mret tt
  | S k' => _ ← CheckpointManager.start_session; start_sessions k'
  end.

End CheckpointRuns.

(** ** Vocabulary for the stores *)

Module StoreObs.
Import Tasks TaskManager.

(** [t] at position [i] is the task the loop of [update_task] stops at. *)
Definition first_match (tid : string) (ts : list Task) (i : nat) (t : Task) : Prop :=
  ts !! i = Some t /\ id t = tid
  /\ forall j u, (j < i)%nat -> ts !! j = Some u -> id u <> tid.

(** Equal in every field but the priority. *)
Definition same_but_priority (t u : Task) : Prop := set_priority 0 t = set_priority 0 u.

(** [k] is the last position of [x] in [ids]. *)
Definition last_position (ids : list string) (x : string) (k : nat) : Prop :=
  ids !! k = Some x /\ forall j, (k < j)%nat -> ids !! j <> Some x.

Definition is_done (t : Task) : bool := String.eqb (status t) "done".

(** The order of the tasks in [get_summary]. *)
Definition summary_order (t u : Task) : Prop :=
  TaskSummary.summary_key_le t u = true.

(** The checkpoint's session number, when it is an [int]. *)
Definition session_of (cp : gmap string json) : option Z :=
  match cp !! "session" with
  | Some (JInt z) => Some z
  | _ => None
  end.

Definition session_file (n : Z) : string := "session_" +:+ Fmt.format_03d n +:+ ".json".

(** The checkpoint [start_session] writes for session [n + 1]. *)
Definition started (cp : gmap string json) (n : Z) (t_start t_save : string)
  : gmap string json :=
  <["updated_at" := JStr t_save]>
  (<["session_started_at" := JStr t_start]>
  (<["status" := JStr "WORKING"]>
  (<["session" := JInt (n + 1)]> cp))).

End StoreObs.

(** ** More string operations of Python *)

Module Text.

(** [s[-n:]] for [n > 0] *)
Definition last_chars (n : nat) (s : string) : string :=
  String.substring (String.length s - n) n s.

(** [l[-n:]] for [n > 0] *)
Definition last_items {A : Type} (n : nat) (l : list A) : list A :=
  skipn (length l - n) l.

(** [s.count(c)] for a one-character [c] *)
Fixpoint count_char (c : ascii) (s : string) : nat :=
  match s with
  | EmptyString => 0
  | String x r => (if Ascii.eqb x c then 1 else 0) + count_char c r
  end.

(** [sub in s] *)
Fixpoint contains (sub s : string) : bool :=
  String.prefix sub s
  || match s with
     | EmptyString => false
     | String _ r => contains sub r
     end.

(** [s.split(c)] for a one-character [c] *)
Fixpoint split_on (c : ascii) (s : string) : list string :=
  match s with
  | EmptyString => [EmptyString]
  | String x r =>
      if Ascii.eqb x c then EmptyString :: split_on c r
      else match split_on c r with
           | h :: t => String x h :: t
           | [] => [String x EmptyString]
           end
  end.

(** The ASCII characters [str.strip()] removes. *)
Definition is_whitespace (c : ascii) : bool :=
  let n := nat_of_ascii c in
  ((9 <=? n) && (n <=? 13) || (28 <=? n) && (n <=? 32))%nat.

Fixpoint lstrip (s : string) : string :=
  match s with
  | String c r => if is_whitespace c then lstrip r else s
  | EmptyString => EmptyString
  end.

Fixpoint rstrip (s : string) : string :=
  match s with
  | String c r =>
      match rstrip r with
      | EmptyString => if is_whitespace c then EmptyString else String c EmptyString
      | r' => String c r'
      end
  | EmptyString => EmptyString
  end.

(** [s.strip()] *)
Definition strip (s : string) : string := rstrip (lstrip s).

(** [a or b] on strings *)
Definition or_str (a b : string) : string := if String.eqb a "" then b else a.

(** The digits of a number in groups of three, from the reversed digits. *)
Fixpoint group3 (rev_digits : list ascii) : list ascii :=
  match rev_digits with
  | a :: b :: c :: ((_ :: _) as rest) => a :: b :: c :: ","%char :: group3 rest
  | l => l
  end.

(** [f"{z:,}"] *)
Definition format_commas (z : Z) : string :=
  let grouped (n : N) :=
    string_of_list_ascii (rev (group3 (rev (list_ascii_of_string (Fmt.digits n))))) in
  match z with
  | Zneg p => String "-" (grouped (Npos p))
  | _ => grouped (Z.to_N z)
  end.

End Text.

(** ** [a1/validator.py]: the checks *)

Module ValidatorChecks.
Import Validator.

(** How [subprocess.run] ends for [_run_command]. *)
Inductive Completed : Type :=
| Exited (returncode : Z) (stdout stderr : string)
| TimeoutExpired
| FileNotFoundError.

(** What the checks see of the project directory: the answer of
    [subprocess.run(cmd, cwd=project_dir, timeout=timeout)], the paths
    [rglob("*.py")] yields and the files whose existence is tested. *)
Record Project : Type := mkProject {
  run : list string -> nat -> Completed;
  py_files : list string;
  has_pyproject : bool;
  has_package_json : bool;
  has_git : bool
}.

(** [_run_command] *)
Definition _run_command (p : Project) (cmd : list string) (timeout : nat)
  : Z * string * string :=
  match run p cmd timeout with
  | Exited returncode stdout stderr => (returncode, stdout, stderr)
  | TimeoutExpired => (-1, "", "Command timed out")
  | FileNotFoundError => (-2, "", "Command not found: " +:+ hd "" cmd)
  end.

(** The part of a path after its last ['/'], when there is one. *)
Fixpoint after_last_slash (path : string) : option string :=
  match path with
  | EmptyString => None
  | String c r =>
      match after_last_slash r with
      | Some n => Some n
      | None => if Ascii.eqb c "/" then Some r else None
      end
  end.

(** [f.name] *)
Definition name_of (path : string) : string := default path (after_last_slash path).

(** [_check_syntax] *)
Definition _check_syntax (p : Project) : ValidationReport :=
  match py_files p with
  | [] => mkReport SKIP "No Python files found" None None
  | _ =>
      let errors :=
        flat_map (fun f =>
                    let '(code, _, stderr) :=
                      _run_command p ["python"; "-m"; "py_compile"; f] 60 in
                    if negb (Z.eqb code 0) then [name_of f +:+ ": " +:+ stderr] else [])
                 (py_files p) in
      match errors with
      | [] => mkReport OK ("Syntax OK (" +:+ Fmt.str_int (Z.of_nat (length (py_files p)))
                            +:+ " files)") None None
      | _ => mkReport FAIL ("Syntax errors in " +:+ Fmt.str_int (Z.of_nat (length errors))
                             +:+ " files")
                      (Some (Fmt.join SessionLoop.newline (firstn 5 errors)))
                      (Some "python -m py_compile")
      end
  end.

(** The end of [_run_tests], once the exit status of a test run is known. *)
Definition tests_report (code : Z) (stdout stderr : string) : ValidationReport :=
  if Z.eqb code 0
  then mkReport OK "All tests passed"
                (if String.eqb stdout "" then None else Some (Text.last_chars 500 stdout))
                (Some "pytest")
  else if Z.eqb code 5
  then mkReport SKIP "No tests found" None (Some "pytest")
  else mkReport FAIL "Tests failed" (Some (Text.last_chars 500 (Text.or_str stderr stdout)))
                (Some "pytest").

(** [_run_tests]: pytest first, then unittest when pytest cannot be started. *)
Definition _run_tests (p : Project) : ValidationReport :=
  let '(code, stdout, stderr) :=
    _run_command p ["python"; "-m"; "pytest"; "-v"; "--tb=short"] 120 in
  if Z.eqb code (-2)
  then
    let '(code, stdout, stderr) :=
      _run_command p ["python"; "-m"; "unittest"; "discover"; "-v"] 60 in
    if Z.eqb code (-2)
    then mkReport SKIP "No test framework found" None None
    else tests_report code stdout stderr
  else tests_report code stdout stderr.

(** The end of [_run_lint]. *)
Definition lint_report (code : Z) (stdout stderr : string) : ValidationReport :=
  if Z.eqb code 0
  then mkReport OK "Lint passed" None (Some "ruff check")
  else
    let issues := if String.eqb stdout "" then 0%nat
                  else Text.count_char "010"%char stdout in
    mkReport FAIL ("Lint issues: " +:+ Fmt.str_int (Z.of_nat issues))
             (Some (Text.last_chars 500 (Text.or_str stdout stderr)))
             (Some "ruff check").

(** [_run_lint]: ruff first, then flake8. *)
Definition _run_lint (p : Project) : ValidationReport :=
  let '(code, stdout, stderr) :=
    _run_command p ["ruff"; "check"; "."; "--output-format=concise"] 60 in
  if Z.eqb code (-2)
  then
    let '(code, stdout, stderr) := _run_command p ["flake8"; "."] 60 in
    if Z.eqb code (-2)
    then mkReport SKIP "No linter found (ruff/flake8)" None None
    else lint_report code stdout stderr
  else lint_report code stdout stderr.

(** [_check_build] *)
Definition _check_build (p : Project) : ValidationReport :=
  if has_pyproject p
  then
    let '(code, stdout, stderr) :=
      _run_command p ["python"; "-m"; "build"; "--no-isolation"] 120 in
    if Z.eqb code (-2)
    then mkReport SKIP "build module not installed" None None
    else if Z.eqb code 0
    then mkReport OK "Build successful" None (Some "python -m build")
    else mkReport FAIL "Build failed" (Some (Text.last_chars 500 (Text.or_str stderr stdout)))
                  (Some "python -m build")
  else if has_package_json p
  then
    let '(code, stdout, stderr) := _run_command p ["npm"; "run"; "build"] 60 in
    if Z.eqb code 0
    then mkReport OK "npm build successful" None (Some "npm run build")
    else if Text.contains "missing script: build" stderr
    then mkReport SKIP "No build script" None None
    else mkReport FAIL "npm build failed"
                  (Some (Text.last_chars 500 (Text.or_str stderr stdout)))
                  (Some "npm run build")
  else mkReport SKIP "No build config found" None None.

(** [_check_git] *)
Definition _check_git (p : Project) : option ValidationReport :=
  if negb (has_git p) then None
  else
    let '(_, stdout, _) := _run_command p ["git"; "diff"; "--stat"] 60 in
    let '(_, staged_out, _) := _run_command p ["git"; "diff"; "--cached"; "--stat"] 60 in
    let has_changes :=
      negb (String.eqb (Text.strip stdout) "")
      || negb (String.eqb (Text.strip staged_out) "") in
    let '(_, stdout, _) := _run_command p ["git"; "status"; "--porcelain"] 60 in
    let lines :=
      List.filter (fun l => negb (String.eqb (Text.strip l) ""))
                  (Text.split_on "010"%char (Text.strip stdout)) in
    let untracked := List.filter (fun l => String.prefix "??" l) lines in
    let msg := "Changes: " +:+ (if has_changes then "yes" else "none")
               +:+ ", untracked: " +:+ Fmt.str_int (Z.of_nat (length untracked)) in
    Some (mkReport OK msg None (Some "git status")).

(** [run_all] on a project. *)
Definition run_all (p : Project) : list (string * ValidationReport) :=
  Validator.run_all (_check_syntax p) (_run_tests p) (_run_lint p) (_check_build p)
                    (_check_git p).

End ValidatorChecks.

(** ** [a1/loop.py]: what the next prompt is told *)

Module Prompt.
Import SessionLoop.

(** A message of [.a1/queue.json]; [read] is the truth value of
    [m.get("read")]. *)
Record Message : Type := mkMessage {
  text : option string;
  added_at : option string;
  read : bool
}.

(** The queue document, with or without its ["messages"] key. *)
Record QueueDoc : Type := mkQueueDoc {
  messages : option (list Message)
}.

Definition mark_read (m : Message) : Message := mkMessage (text m) (added_at m) true.

(** The loop over [unread] that formats the messages; [m['text']] raises
    [KeyError] on a message without text. *)
Fixpoint message_lines (unread : list Message) : option (list string) :=
  match unread with
  | [] => Some []
  | m :: r =>
      match text m with
      | None => None
      | Some t =>
          match message_lines r with
          | Some l => Some (("- [" +:+ default "?" (added_at m) +:+ "] " +:+ t) :: l)
          | None => None
          end
      end
  end.

(** [_read_queue_messages] over the state of [.a1/queue.json]: the answer and
    the file afterwards. The file is written before the lines are built. *)
Definition _read_queue_messages (queue_file : file QueueDoc)
  : outcome string * file QueueDoc :=
  match queue_file with
  | Missing => (Return "", queue_file)
  | Fails JSONDecodeError => (Return "", queue_file)
  | Fails IOError => (Return "", queue_file)
  | Fails e => (Raise e, queue_file)
  | Holds data =>
      let unread := List.filter (fun m => negb (read m)) (default [] (messages data)) in
      match unread with
      | [] => (Return "", queue_file)
      | _ =>
          let written := Holds (mkQueueDoc (Some (map mark_read (default [] (messages data))))) in
          match message_lines unread with
          | None => (Raise KeyError, written)
          | Some lines =>
              (Return (Fmt.join newline
                         (["## USER MESSAGES (from queue)"] ++ lines
                          ++ ["Please address these messages as part of your work."
                              +:+ newline])),
               written)
          end
      end
  end.

(** The [/queue-message] branch of the dashboard's [do_POST]; [added_at] is
    the reading of the clock. *)
Definition queue_message (msg_text added_at : string) (queue_file : file QueueDoc)
  : outcome unit * file QueueDoc :=
  if String.eqb msg_text "" then (Return tt, queue_file)
  else
    let queue_data :=
      match queue_file with
      | Missing => Return (mkQueueDoc (Some []))
      | Fails JSONDecodeError => Return (mkQueueDoc (Some []))
      | Fails IOError => Return (mkQueueDoc (Some []))
      | Fails e => Raise e
      | Holds data => Return data
      end in
    match queue_data with
    | Raise e => (Raise e, queue_file)
    | Return data =>
        match messages data with
        | None => (Raise KeyError, queue_file)
        | Some l =>
            (Return tt,
             Holds (mkQueueDoc (Some (l ++ [mkMessage (Some msg_text) (Some added_at) false]))))
        end
    end.

(** The lines of [_get_verification_prompt] for a failed verification. *)
Definition verification_lines (v : VerificationResult) : list string :=
  let retry := retry_count v in
  ["## VERIFICATION FAILED (attempt " +:+ Fmt.str_int retry +:+ "/"
   +:+ Fmt.str_int MAX_VERIFY_RETRIES +:+ ")";
   "The system ran automated checks after your last session.";
   ""]
  ++ match blocking_issues v with
     | [] => []
     | blocking => "BLOCKING ISSUES (must fix):"
                   :: map (fun issue => "- " +:+ line issue) (firstn 10 blocking) ++ [""]
     end
  ++ match warnings v with
     | [] => []
     | warnings => "Warnings (non-blocking):"
                   :: map (fun w => "- " +:+ line w) (firstn 5 warnings) ++ [""]
     end
  ++ ["FIX THE BLOCKING ISSUES before marking any task as done."]
  ++ (if Z.leb (MAX_VERIFY_RETRIES - 1) retry
      then ["WARNING: This is attempt " +:+ Fmt.str_int (retry + 1) +:+ " of "
            +:+ Fmt.str_int MAX_VERIFY_RETRIES
            +:+ ". If issues persist, the system will force-accept."]
      else [])
  ++ [""].

(** [_get_verification_prompt]; the argument is [self._last_verification]. *)
Definition _get_verification_prompt (last_verification : option VerificationResult)
  : string :=
  match last_verification with
  | None => ""
  | Some v =>
      if passed v then ""
      else match blocking_issues v, warnings v with
           | [], [] => ""
           | _, _ => Fmt.join newline (verification_lines v)
           end
  end.

(** [_save_context_checkpoint]: [pct] is [int(self._context_percent * 100)],
    [tokens_in] the input tokens of the live metrics and [metrics] their
    copy [dict(self._session_metrics)]. *)
Definition _save_context_checkpoint (pct tokens_in : Z) (metrics : json) : M unit :=
  cp_data ← CheckpointManager.load;
  let cp_data := <["context_percent" := JInt pct]> cp_data in
  let cp_data := <["status" := JStr "WORKING"]> cp_data in
  match default (JList []) (cp_data !! "decisions") with
  | JList decisions =>
      let decisions :=
        decisions ++ [JStr ("Auto-checkpoint at " +:+ Fmt.str_int pct +:+ "% context ("
                            +:+ Text.format_commas tokens_in +:+ " tokens)")] in
      let cp_data := <["decisions" := JList (Text.last_items 20 decisions)]> cp_data in
      let cp_data :=
        <["last_action" := JStr ("Context overflow at " +:+ Fmt.str_int pct
                                 +:+ "% — session terminated for checkpoint")]> cp_data in
      let cp_data := <["session_metrics" := metrics]> cp_data in
      _ ← CheckpointManager.save cp_data;
      mret tt
  | _ => raise AttributeError
  end.

End Prompt.

(** ** Vocabulary for the loop *)

Module LoopObs.
Import SessionLoop.

(** The entry step 2 of [_verify_session] adds. *)
Definition files_issue (exists_on_disk : string -> bool) (cp : gmap string json)
  : list Issue :=
  let files_modified := default (JList []) (cp !! "files_modified") in
  if truthy files_modified
  then match paths_of files_modified with
       | Return paths =>
           let files_report := Validator.check_files_exist exists_on_disk paths in
           if Validator.is_fail (Validator.result files_report)
           then [mkIssue FilesMissing ("files: " +:+ Validator.message files_report)]
           else []
       | Raise _ => []
       end
  else [].

(** The entries step 3 adds for the done tasks. *)
Definition criteria_issues (check_criteria : string -> Validator.ValidationReport)
    (done_tasks : list Tasks.Task) : list Issue :=
  fold_left (check_task_criteria check_criteria) done_tasks [].

(** The entry step 4 adds. *)
Definition incomplete_issue (cp : gmap string json) (ts : list Tasks.Task) : list Issue :=
  let done := length (Obs.with_status "done" ts) in
  if eq_str (cp !! "status") "COMPLETED" && Nat.ltb done (length ts)
  then [mkIssue TasksIncomplete
          ("tasks: Only " +:+ Fmt.str_int (Z.of_nat done) +:+ "/"
           +:+ Fmt.str_int (Z.of_nat (length ts)) +:+ " done but checkpoint says COMPLETED")]
  else [].

Definition later_issues (exists_on_disk : string -> bool)
    (check_criteria : string -> Validator.ValidationReport)
    (cp : gmap string json) (ts : list Tasks.Task) : list Issue :=
  files_issue exists_on_disk cp
  ++ criteria_issues check_criteria (Obs.with_status "done" ts)
  ++ incomplete_issue cp ts.

(** The issue comes from a check, and which. *)
Definition check_of (s : IssueSource) : option string :=
  match s with
  | CheckFailed n | CheckDetails n => Some n
  | _ => None
  end.

(** The issue comes from one of the checks that block. *)
Definition from_blocking_check (i : Issue) : Prop :=
  exists n, check_of (source i) = Some n /\ bool_decide (n ∈ BLOCKING_CHECKS) = true.

(** The paths the checkpoint lists as modified. *)
Definition modified_files (cp : gmap string json) : list string :=
  match paths_of (default (JList []) (cp !! "files_modified")) with
  | Return paths => paths
  | Raise _ => []
  end.

(** The line is a message of the assistant. *)
Definition is_assistant (l : Line) : bool :=
  match l with
  | Json event => String.eqb (etype event) "assistant"
  | _ => false
  end.

(** How many lines of a session are messages of the assistant. *)
Definition assistant_messages (lines : list (Line * bool)) : nat :=
  length (List.filter (fun p => is_assistant (fst p)) lines).

(** The note [_save_context_checkpoint] appends to the decisions. *)
Definition auto_checkpoint_note (pct tokens_in : Z) : json :=
  JStr ("Auto-checkpoint at " +:+ Fmt.str_int pct +:+ "% context ("
        +:+ Text.format_commas tokens_in +:+ " tokens)").

(** The decisions a checkpoint holds. *)
Definition decisions_of (cp : gmap string json) : option (list json) :=
  match default (JList []) (cp !! "decisions") with
  | JList ds => Some ds
  | _ => None
  end.

Definition unread (m : Prompt.Message) : bool := negb (Prompt.read m).

Definition message_line (added_at msg_text : string) : string :=
  "- [" +:+ added_at +:+ "] " +:+ msg_text.

Definition is_shown (e : Effect) : bool :=
  match e with Shown _ _ => true | _ => false end.

(** The state a run ends in, and its exit status. *)
Definition state_of (run : Self * list Effect * Z) : Self := fst (fst run).
Definition exit_of (run : Self * list Effect * Z) : Z := snd run.

End LoopObs.

(** ** More concrete runs *)

Module Scenes.
Import Tasks.

(** A finished task with a criterion, and one still open. *)
Definition shipped : Task :=
  mkTask "task_001" "ship" "" "done" 1 "2026-01-01" (Some "2026-01-02") None None
         (Some "tests pass").

Definition claimed_checkpoint : gmap string json :=
  <["status" := JStr "COMPLETED"]>
  (<["session" := JInt 1]>
  (<["files_modified" := JList [JStr "src/app.py"; JStr "README.md"]]> ∅)).

(** The Worker says COMPLETED with a task still pending. *)
Definition claimed_world : World :=
  mkWorld (Holds claimed_checkpoint) ∅
          (Holds (mkTasksDoc [] [shipped; Ex.task 2 "pending" 2] 3)) [] Ex.clock 0.

Definition only_readme (fp : string) : bool := String.eqb fp "README.md".

Definition criteria_fail (criteria : string) : Validator.ValidationReport :=
  Validator.mkReport Validator.FAIL "Tests failed" None None.

Definition all_ok_run : list (string * Validator.ValidationReport) :=
  Validator.run_all Ex.ok_report Ex.ok_report Ex.ok_report Ex.ok_report None.

(** A project whose commands all hang until the timeout. *)
Definition stuck_project : ValidatorChecks.Project :=
  ValidatorChecks.mkProject (fun _ _ => ValidatorChecks.TimeoutExpired) ["app.py"] false false
                   false.

(** A directory with no Python files, where no command can be started. *)
Definition bare_project : ValidatorChecks.Project :=
  ValidatorChecks.mkProject (fun _ _ => ValidatorChecks.FileNotFoundError) [] false true false.

(** A queue with one message already delivered and one waiting. *)
Definition queue : list Prompt.Message :=
  [Prompt.mkMessage (Some "use tabs") (Some "2026-01-01T10:00:00") true;
   Prompt.mkMessage (Some "add a README") None false].

End Scenes.

(** ** [a1/loop.py]: the read loop of a session and the files it touches *)

Module ClaudeMax.
Import SessionLoop.

(** How the read loop of [_run_claude_max] ends: the function returns an exit
    status, or an exception leaves it. [_run_claude_max] catches
    [FileNotFoundError] and [KeyboardInterrupt] only, so an exception of the
    checkpoint store and the [subprocess.TimeoutExpired] of [wait(timeout=10)]
    pass through to the caller. *)
Inductive Ending : Type :=
| Returns (returncode : Z)
| Raises (e : exn)
| TimeoutExpired.

Section Floats.

(** [int(self._context_percent * 100)], a product of floats cut to an
    integer, and [dict(self._session_metrics)], which also holds the readings
    of the wall clock. *)
Variable percent_int : Q -> Z.
Variable metrics_dict : SessionMetrics -> json.

(** The body of the overflow test in the read loop: [_save_context_checkpoint()],
    then [terminate()], then [wait(timeout=10)], then [return 0]. An exception
    of the save leaves the loop before the Worker is terminated;
    [exits_in_time] says whether the Worker exits within the ten seconds
    [wait] allows, [TimeoutExpired] being raised otherwise. The effect
    [ContextCheckpointSaved] records that the save returned,
    [WorkerTerminated] that [terminate()] was called. *)
Definition context_overflow_branch (self : Self) (exits_in_time : bool) (w : World)
  : list Effect * Ending * World :=
  let pct := percent_int (_context_percent self) in
  match Prompt._save_context_checkpoint pct (tokens_in (_session_metrics self))
          (metrics_dict (_session_metrics self)) w with
  | (Raise e, w') => ([], Raises e, w')
  | (Return _, w') =>
      ([ContextCheckpointSaved; WorkerTerminated],
       if exits_in_time then Returns 0 else TimeoutExpired, w')
  end.

(** The read loop of [_run_claude_max] over the files of [.a1/]. Each line
    comes with the answer of [poll() is None] at the overflow test that
    follows it; [returncode] is the Worker's exit status when its output ends
    first. The loop looks at the files in the overflow branch only: [w] holds
    them as that branch finds them. *)
Fixpoint read_lines (self : Self) (lines : list (Line * bool)) (returncode : Z)
    (exits_in_time : bool) (w : World) : Self * list Effect * Ending * World :=
  match lines with
  | [] => (self, [], Returns returncode, w)
  | (line, running) :: rest =>
      let '(self', shown, announced) := _parse_stream_event self line in
      let effects := announced ++ show shown in
      if _context_overflow self' && running
      then let '(acted, ending, w') := context_overflow_branch self' exits_in_time w in
           (self', effects ++ acted, ending, w')
      else let '(self'', later, ending, w') :=
             read_lines self' rest returncode exits_in_time w in
           (self'', effects ++ later, ending, w')
  end.

(** [f"session_{session_num:03d}.log"]; the format code [d] accepts [int] and
    [bool] only. *)
Definition log_name (session_num : json) : outcome string :=
  match session_num with
  | JInt z => Return ("session_" +:+ Fmt.format_03d z +:+ ".log")
  | JBool b => Return ("session_" +:+ Fmt.format_03d (if b then 1 else 0) +:+ ".log")
  | JStr _ => Raise ValueError
  | _ => Raise TypeError
  end.

(** [_run_claude_max]: whatever the previous session left in [self], the
    context state is reset; the session number is looked up and the log file
    named, outside the [try]; then the Worker is started and its output read.
    [found] says whether [Popen] finds the [claude] program: the
    [FileNotFoundError] it raises otherwise is caught and gives exit status 1.
    [worker_edits] is what the Worker does to the files of [.a1/] while it
    runs. The session log and [KeyboardInterrupt] are not modelled. *)
Definition _run_claude_max (self : Self) (found : bool) (worker_edits : World -> World)
    (lines : list (Line * bool)) (returncode : Z) (exits_in_time : bool) (w : World)
  : Self * list Effect * Ending * World :=
  match CheckpointManager.get_session_number w with
  | (Raise e, w1) => (reset, [], Raises e, w1)
  | (Return session_num, w1) =>
      match log_name session_num with
      | Raise e => (reset, [], Raises e, w1)
      | Return _ =>
          if found
          then read_lines reset lines returncode exits_in_time (worker_edits w1)
          else (reset, [], Returns 1, w1)
      end
  end.

End Floats.

End ClaudeMax.

(** ** Vocabulary for the runs of a session *)

Module RunObs.
Import SessionLoop ClaudeMax.

Definition Run : Type := Self * list Effect * Ending * World.

Definition run_state (run : Run) : Self := fst (fst (fst run)).
Definition run_effects (run : Run) : list Effect := snd (fst (fst run)).
Definition run_ending (run : Run) : Ending := snd (fst run).
Definition run_world (run : Run) : World := snd run.

(** The effects [earlier], then the run. *)
Definition after_effects (earlier : list Effect) (run : Run) : Run :=
  (run_state run, earlier ++ run_effects run, run_ending run, run_world run).

Definition is_worker_terminated (e : Effect) : bool :=
  match e with WorkerTerminated => true | _ => false end.

(** How often a session called [terminate()] on the Worker. *)
Definition workers_terminated (effects : list Effect) : nat :=
  length (List.filter is_worker_terminated effects).

(** Every usage report among the lines is under the threshold. *)
Definition under_threshold (lines : list (Line * bool)) : Prop :=
  forall l b m, In (l, b) lines -> Obs.reported_tokens l = Some m ->
                Obs.at_or_above_threshold m = false.

(** The Worker has exited by the time each of the lines is read. *)
Definition worker_exited (lines : list (Line * bool)) : Prop :=
  forall l b, In (l, b) lines -> b = false.

(** The session gets as far as starting the Worker: the session number can
    be looked up and formats as the name of the log file. *)
Definition starts (w : World) : bool :=
  match CheckpointManager.get_session_number w with
  | (Return session_num, _) =>
      match log_name session_num with Return _ => true | Raise _ => false end
  | (Raise _, _) => false
  end.

(** The files as the read loop finds them: as the lookup of the session
    number left them, then edited by the Worker. *)
Definition at_overflow (worker_edits : World -> World) (w : World) : World :=
  worker_edits (snd (CheckpointManager.get_session_number w)).

(** The Worker leaves the files alone. *)
Definition no_edits (w : World) : World := w.

(** The context percentage of a token count, as [record_usage] computes it. *)
Definition percent_of (tokens : Z) : Q :=
  (inject_Z tokens / inject_Z CONTEXT_WINDOW_SIZE)%Q.

End RunObs.

Module Runs.
Import SessionLoop.

(** [int(percent * 100)] where the float product is exact. *)
Definition whole_percent (percent : Q) : Z :=
  (Qnum percent * 100) / Zpos (Qden percent).

(** The live metrics without the readings of the wall clock. *)
Definition metrics_dict (m : SessionMetrics) : json :=
  JObj (<["tokens_in" := JInt (tokens_in m)]>
        (<["tokens_out" := JInt (tokens_out m)]>
        (<["cache_read" := JInt (cache_read m)]>
        (<["cache_creation" := JInt (cache_creation m)]>
        (<["tools_used" := JInt (tools_used m)]> ∅))))).

(** The state a session that overflowed leaves behind. *)
Definition overflowed : Self :=
  mkSelf (mkMetrics 150000 900 0 0 12 (RunObs.percent_of 150000)) true
         (RunObs.percent_of 150000).

(** The Worker reports 100000 tokens, then 140000, then 150000, and is
    running throughout. *)
Definition overflowing : list (Line * bool) :=
  [(Ex.usage_report 100000, true); (Ex.usage_report 140000, true);
   (Ex.usage_report 150000, true)].

(** The same reports, read after the Worker has exited with status 1: its
    last output was still in the pipe. *)
Definition read_after_exit : list (Line * bool) :=
  [(Ex.usage_report 100000, true); (Ex.usage_report 140000, false);
   (Ex.usage_report 150000, false)].

End Runs.

(** ** More concrete worlds *)

Module Cases.

(** The checkpoint document holds bytes that are not text in the encoding
    [open(..., "r")] decodes with. *)
Definition undecodable_world : World :=
  set_checkpoint_file (Fails UnicodeDecodeError) Ex.fresh_world.

(** Twenty-five decisions, the oldest first. *)
Definition long_history : list json :=
  map (fun k => JStr ("decision " +:+ Fmt.str_int (Z.of_nat k))) (seq 1 25).

(** Session 3 of a project with that history; the Worker says COMPLETED. *)
Definition long_history_world : World :=
  mkWorld (Holds (<["status" := JStr "COMPLETED"]>
                  (<["session" := JInt 3]>
                  (<["decisions" := JList long_history]> ∅))))
          ∅ Missing [] Ex.clock 0.

(** The checkpoint's decisions are a string, not a list. *)
Definition odd_decisions_world : World :=
  mkWorld (Holds (<["status" := JStr "WORKING"]>
                  (<["session" := JInt 3]>
                  (<["decisions" := JStr "use tabs"]> ∅))))
          ∅ Missing [] Ex.clock 0.

End Cases.

(** * Proofs *)

(** ** Integer formatting *)

Module FmtFacts.
Import Fmt.

Lemma uint_of_string_zeros (k : nat) (s : string) :
  NilEmpty.uint_of_string (zeros k s)
  = option_map (Nat.iter k Decimal.D0) (NilEmpty.uint_of_string s).
Proof.
  induction k as [|k IH]; simpl.
  - destruct (NilEmpty.uint_of_string s); reflexivity.
  - rewrite IH. destruct (NilEmpty.uint_of_string s); reflexivity.
Qed.

Lemma of_uint_iter_D0 (k : nat) (d : Decimal.uint) :
  N.of_uint (Nat.iter k Decimal.D0 d) = N.of_uint d.
Proof. induction k as [|k IH]; simpl; [reflexivity | exact IH]. Qed.

Lemma to_uint_not_nil (n : N) : N.to_uint n <> Decimal.Nil.
Proof.
  intros H. destruct n as [|p]; simpl in H; [discriminate|].
  pose proof (DecimalPos.Unsigned.to_uint_nonnil p) as Hp. contradiction.
Qed.

Lemma uint_of_digits (n : N) : NilEmpty.uint_of_string (digits n) = Some (N.to_uint n).
Proof.
  unfold digits, NilZero.string_of_uint.
  pose proof (to_uint_not_nil n) as Hn.
  destruct (N.to_uint n) eqn:E; try contradiction; rewrite <- E;
    apply NilEmpty.usu.
Qed.

Lemma read_zero_fill (width : nat) (n : N) :
  exists d, NilEmpty.uint_of_string (zero_fill width (digits n)) = Some d
            /\ N.of_uint d = n.
Proof.
  unfold zero_fill. eexists. rewrite uint_of_string_zeros, uint_of_digits.
  split; [reflexivity|]. rewrite of_uint_iter_D0. apply DecimalN.Unsigned.of_to.
Qed.

(** Reading back what [f"{z:03d}"] prints gives [z]. *)
Lemma read_format_03d (z : Z) : read_int (format_03d z) = Some z.
Proof.
  unfold read_int, format_03d. destruct z as [|p|p].
  - reflexivity.
  - destruct (read_zero_fill 3 (Z.to_N (Zpos p))) as [d [Hd Hn]].
    rewrite Hd, Hn. reflexivity.
  - destruct (read_zero_fill 2 (Npos p)) as [d [Hd Hn]].
    cbn [NilEmpty.uint_of_string]. rewrite Hd.
    cbn. rewrite Hn. reflexivity.
Qed.

Example format_03d_1 : format_03d 1 = "001".
Proof. reflexivity. Qed.

Example format_03d_1000 : format_03d 1000 = "1000".
Proof. reflexivity. Qed.

Example format_03d_negative : format_03d (-5) = "-05".
Proof. reflexivity. Qed.

Example strip_example : strip "  a b  " = "a b".
Proof. reflexivity. Qed.

End FmtFacts.

(** ** Checkpoint store *)

Module CheckpointFacts.
Import CheckpointManager Obs.

Lemma archive_name_updated_at (cp : gmap string json) (t : string) :
  archive_name (<["updated_at" := JStr t]> cp) = archive_name cp.
Proof. unfold archive_name. rewrite lookup_insert_ne; [reflexivity | discriminate]. Qed.

Lemma save_returns (cp : gmap string json) (w : World) (name : string) :
  archive_name cp = Return name ->
  let cp' := <["updated_at" := JStr (isoformat_now w (ticks w))]> cp in
  save cp w
  = (Return cp',
     mkWorld (Holds cp') (<[name := cp']> (checkpoints_dir w)) (tasks_file w)
             (tasks_writes w) (isoformat_now w) (S (ticks w))).
Proof.
  intros Hname cp'. unfold save, mbind, M_bind, mret, M_ret, raise, modify_world, now.
  cbn -[archive_name]. rewrite archive_name_updated_at, Hname. reflexivity.
Qed.

Lemma load_holds (cp : gmap string json) (w : World) :
  checkpoint_file w = Holds cp -> load w = (Return cp, w).
Proof.
  intros H. unfold load, mbind, M_bind, mret, M_ret, get_world. rewrite H. reflexivity.
Qed.

Lemma load_initial (w : World) :
  missing_or_unparsable (checkpoint_file w) = true ->
  load w
  = (Return (initial_checkpoint (isoformat_now w (ticks w))
                                (isoformat_now w (S (ticks w)))),
     set_ticks (S (S (ticks w))) w).
Proof.
  intros H. unfold load, mbind, M_bind, get_world.
  destruct (checkpoint_file w) as [|e|cp]; [reflexivity | | discriminate].
  destruct e; try discriminate; reflexivity.
Qed.

(** When the checkpoint document is missing, or reading it raises one of
    the two exceptions [load] catches, [load] does not raise: it returns the
    initial record of [_create_initial], stamped with the next two readings of
    the clock, and leaves every file as it was. *)
Lemma load_default_on_missing_or_unparsable (w : World) :
  missing_or_unparsable (checkpoint_file w) = true ->
  exists w',
    load w
    = (Return (initial_checkpoint (isoformat_now w (ticks w))
                                  (isoformat_now w (S (ticks w)))), w')
    /\ checkpoint_file w' = checkpoint_file w
    /\ checkpoints_dir w' = checkpoints_dir w
    /\ tasks_file w' = tasks_file w.
Proof.
  intros H. eexists. split; [apply (load_initial w H)|]. repeat split.
Qed.

Lemma load_default_witness :
  exists w',
    load Ex.malformed_world
    = (Return (initial_checkpoint (Ex.clock 0) (Ex.clock 1)), w')
    /\ checkpoint_file w' = checkpoint_file Ex.malformed_world
    /\ checkpoints_dir w' = checkpoints_dir Ex.malformed_world
    /\ tasks_file w' = tasks_file Ex.malformed_world.
Proof.
  apply (load_default_on_missing_or_unparsable Ex.malformed_world). reflexivity.
Defined.

(** C9. The claim fails on the code for a checkpoint document that cannot
    be decoded: [json.load] reads the text of the file, and bytes that are not
    text in the file's encoding raise [UnicodeDecodeError], which is neither
    [json.JSONDecodeError] nor [IOError]. [load] then raises it and returns no
    record, where the claim promises the initial record; so does every
    exception of the read other than the two that are caught. *)
Theorem load_raises_on_undecodable_document :
  load Cases.undecodable_world = (Raise UnicodeDecodeError, Cases.undecodable_world)
  /\ (forall (cp : gmap string json) (w' : World),
        load Cases.undecodable_world <> (Return cp, w'))
  /\ (forall (w : World) (e : exn),
        checkpoint_file w = Fails e -> e <> JSONDecodeError -> e <> IOError ->
        load w = (Raise e, w)).
Proof.
  split; [reflexivity|]. split; [intros cp w'; discriminate|].
  intros w e Hfile H1 H2. unfold load, mbind, M_bind, get_world. rewrite Hfile.
  destruct e; try reflexivity; contradiction.
Qed.

(** C5 (amended). For a checkpoint whose session is absent, an int or a bool,
    [save] followed by [load] returns the saved dict with [updated_at] set to
    the time of the save and every other key as given; the archive then holds
    that dict under the name of the session number and is otherwise unchanged.
    The entry is new when the archive had none of that name; otherwise the
    existing entry is overwritten and the number of entries stays the same. *)
Theorem save_then_load (cp : gmap string json) (w : World) (name : string) :
  archive_name cp = Return name ->
  exists cp' w',
    save cp w = (Return cp', w')
    /\ load w' = (Return cp', w')
    /\ delete "updated_at" cp' = delete "updated_at" cp
    /\ cp' !! "updated_at" = Some (JStr (isoformat_now w (ticks w)))
    /\ checkpoints_dir w' = <[name := cp']> (checkpoints_dir w)
    /\ size (checkpoints_dir w')
       = match checkpoints_dir w !! name with
         | Some _ => size (checkpoints_dir w)
         | None => S (size (checkpoints_dir w))
         end.
Proof.
  intros Hname. eexists _, _. split; [apply (save_returns cp w name Hname)|].
  split; [apply load_holds; reflexivity|].
  split; [apply delete_insert_eq|].
  split; [apply lookup_insert_eq|].
  split; [reflexivity|]. cbn.
  destruct (checkpoints_dir w !! name) eqn:E.
  - rewrite <- (insert_id _ _ _ E) at 2. rewrite <- insert_delete_eq.
    rewrite <- (insert_delete_eq (checkpoints_dir w)).
    rewrite !map_size_insert_None by apply lookup_delete_eq. reflexivity.
  - apply map_size_insert_None, E.
Qed.

Lemma save_then_load_witness :
  exists cp' w',
    save (<["session" := JInt 7]> ∅) Ex.fresh_world = (Return cp', w')
    /\ load w' = (Return cp', w')
    /\ checkpoints_dir w' !! "session_007.json" = Some cp'
    /\ size (checkpoints_dir w') = 1%nat.
Proof.
  destruct (save_then_load (<["session" := JInt 7]> ∅) Ex.fresh_world "session_007.json")
    as (cp' & w' & Hsave & Hload & _ & _ & Hdir & Hsize); [reflexivity|].
  exists cp', w'. split; [exact Hsave|]. split; [exact Hload|].
  split; [rewrite Hdir; apply lookup_insert_eq | exact Hsize].
Defined.

(** The claim as stated fails on the loop's own path: [start_session] saves
    session 1, the save of the session metrics that follows finds the entry
    [session_001.json] and overwrites it, so it creates no new entry. *)
Lemma second_save_of_a_session_adds_no_entry :
  let w1 := snd (start_session Ex.fresh_world) in
  let w2 := snd (SessionLoop.save_session_metrics JNull 0 w1) in
  fst (SessionLoop.save_session_metrics JNull 0 w1) = Return tt
  /\ size (checkpoints_dir w1) = 1%nat
  /\ size (checkpoints_dir w2) = 1%nat
  /\ is_Some (checkpoints_dir w1 !! "session_001.json")
  /\ is_Some (checkpoints_dir w2 !! "session_001.json")
  /\ size (checkpoints_dir w2) <> S (size (checkpoints_dir w1)).
Proof.
  cbv zeta. split; [vm_compute; reflexivity|].
  assert (size (checkpoints_dir (snd (start_session Ex.fresh_world))) = 1%nat) as H1
    by (vm_compute; reflexivity).
  assert (size (checkpoints_dir
                  (snd (SessionLoop.save_session_metrics JNull 0
                          (snd (start_session Ex.fresh_world))))) = 1%nat) as H2
    by (vm_compute; reflexivity).
  split; [exact H1|]. split; [exact H2|].
  split; [vm_compute; eexists; reflexivity|].
  split; [vm_compute; eexists; reflexivity|].
  rewrite H1, H2. discriminate.
Qed.

End CheckpointFacts.

(** ** Task store *)

Module TaskFacts.
Import Tasks TaskManager Obs.

Lemma migrate_lookup (ts : list Task) (i : nat) :
  migrate ts !! i
  = (fun t => if Z.eqb (priority t) 0 then set_priority (Z.of_nat i + 1) t else t) <$> ts !! i.
Proof. unfold migrate. apply list_lookup_imap. Qed.

Lemma migrate_nonzero (ts : list Task) (t : Task) :
  In t (migrate ts) -> priority t <> 0.
Proof.
  intros Hin. apply list_elem_of_In, list_elem_of_lookup in Hin as [i Hi].
  rewrite migrate_lookup in Hi. destruct (ts !! i) as [u|]; [|discriminate].
  cbn in Hi. injection Hi as <-.
  destruct (Z.eqb_spec (priority u) 0); cbn; lia.
Qed.

Lemma needs_save_false (ts : list Task) :
  (forall t, In t ts -> priority t <> 0) -> needs_save ts = false.
Proof.
  intros H. unfold needs_save. apply not_true_is_false. intros Hex.
  apply existsb_exists in Hex as [t [Hin Hz]]. apply Z.eqb_eq in Hz.
  exact (H t Hin Hz).
Qed.

Lemma migrate_id_nonzero (ts : list Task) :
  (forall t, In t ts -> priority t <> 0) -> migrate ts = ts.
Proof.
  intros H. apply list_eq. intros i. rewrite migrate_lookup.
  destruct (ts !! i) as [u|] eqn:E; [|reflexivity]. cbn.
  assert (In u ts) as Hin by (apply list_elem_of_In, list_elem_of_lookup; eauto).
  destruct (Z.eqb_spec (priority u) 0) as [Hz|Hz];
    [exfalso; exact (H u Hin Hz) | reflexivity].
Qed.

Lemma migrate_idem (ts : list Task) : migrate (migrate ts) = migrate ts.
Proof. apply migrate_id_nonzero, migrate_nonzero. Qed.

Lemma _load_data_returns (w : World) :
  readable (tasks_file w) = true -> _load_data w = (Return (loaded w), after_load w).
Proof.
  intros Hr. unfold _load_data, loaded, after_load, mbind, M_bind, mret, M_ret, get_world.
  destruct (tasks_file w) as [|e|data] eqn:E; cbn.
  - reflexivity.
  - destruct e; try discriminate; reflexivity.
  - unfold loaded. rewrite E. destruct (needs_save (tasks data)); reflexivity.
Qed.

Lemma tasks_loaded (w : World) : tasks (loaded w) = listed w.
Proof. unfold loaded, listed. destruct (tasks_file w); reflexivity. Qed.

Lemma readable_after_load (w : World) :
  readable (tasks_file w) = true -> readable (tasks_file (after_load w)) = true.
Proof.
  unfold after_load. destruct (tasks_file w) as [|e|data] eqn:E; try (rewrite E; tauto).
  destruct (needs_save (tasks data)); [reflexivity | rewrite E; tauto].
Qed.

Lemma loaded_after_load (w : World) : loaded (after_load w) = loaded w.
Proof.
  unfold after_load. destruct (tasks_file w) as [|e|data] eqn:E; try reflexivity.
  destruct (needs_save (tasks data)); [|reflexivity].
  unfold loaded at 1. cbn. unfold loaded. rewrite E. cbn. rewrite migrate_idem. reflexivity.
Qed.

Lemma listed_after_load (w : World) : listed (after_load w) = listed w.
Proof. rewrite <- !tasks_loaded, loaded_after_load. reflexivity. Qed.

Lemma after_load_clean (w : World) (data : TasksDoc) :
  tasks_file w = Holds data -> needs_save (tasks data) = false -> after_load w = w.
Proof. intros E N. unfold after_load. rewrite E, N. reflexivity. Qed.

Lemma after_load_idem (w : World) : after_load (after_load w) = after_load w.
Proof.
  destruct (tasks_file w) as [|e|data] eqn:E.
  - unfold after_load. rewrite E. cbn. rewrite E. reflexivity.
  - unfold after_load. rewrite E. cbn. rewrite E. reflexivity.
  - destruct (needs_save (tasks data)) eqn:N.
    + assert (after_load w
              = set_tasks_writes (loaded w :: tasks_writes w)
                  (set_tasks_file (Holds (loaded w)) w)) as ->
        by (unfold after_load; rewrite E, N; reflexivity).
      apply (after_load_clean _ (loaded w)); [reflexivity|].
      rewrite tasks_loaded. unfold listed. rewrite E.
      apply needs_save_false, migrate_nonzero.
    + rewrite (after_load_clean w data E N). apply (after_load_clean w data E N).
Qed.

Lemma after_load_checkpoint (w : World) :
  checkpoint_file (after_load w) = checkpoint_file w
  /\ checkpoints_dir (after_load w) = checkpoints_dir w.
Proof.
  unfold after_load. destruct (tasks_file w) as [| |data]; try (split; reflexivity).
  destruct (needs_save (tasks data)); split; reflexivity.
Qed.

Lemma get_tasks_all (w : World) :
  readable (tasks_file w) = true ->
  get_tasks None w = (Return (listed w), after_load w).
Proof.
  intros Hr. unfold get_tasks, mbind, M_bind.
  rewrite (_load_data_returns w Hr), tasks_loaded. reflexivity.
Qed.

Lemma get_tasks_status (s : string) (w : World) :
  readable (tasks_file w) = true -> s <> "" ->
  get_tasks (Some s) w = (Return (with_status s (listed w)), after_load w).
Proof.
  intros Hr Hs. unfold get_tasks, mbind, M_bind.
  rewrite (_load_data_returns w Hr), tasks_loaded.
  destruct (String.eqb_spec s ""); [contradiction | reflexivity].
Qed.

(** *** [sorted(..., key=priority)] *)

Lemma insert_by_priority_perm (t : Task) (l : list Task) :
  Permutation (insert_by_priority t l) (t :: l).
Proof.
  induction l as [|u r IH]; cbn; [reflexivity|].
  destruct (Z.leb (priority t) (priority u)); [reflexivity|].
  rewrite IH. apply perm_swap.
Qed.

Lemma sorted_by_priority_perm (l : list Task) : Permutation (sorted_by_priority l) l.
Proof.
  induction l as [|t r IH]; cbn; [reflexivity|].
  rewrite insert_by_priority_perm, IH. reflexivity.
Qed.

Lemma insert_by_priority_sorted (t : Task) (l : list Task) :
  StronglySorted by_priority l -> StronglySorted by_priority (insert_by_priority t l).
Proof.
  induction l as [|u r IH]; cbn; intros Hs.
  - constructor; [constructor | constructor].
  - apply StronglySorted_inv in Hs as [Hr Hu].
    destruct (Z.leb_spec (priority t) (priority u)) as [Hle|Hlt].
    + constructor; [constructor; assumption|].
      constructor; [exact Hle|].
      eapply Forall_impl; [exact Hu|]. intros v Hv. unfold by_priority in *. lia.
    + constructor; [apply IH, Hr|].
      apply List.Forall_forall. intros v Hv.
      apply (Permutation_in _ (insert_by_priority_perm t r)) in Hv as [<-|Hv].
      * unfold by_priority. lia.
      * rewrite List.Forall_forall in Hu. apply Hu, Hv.
Qed.

Lemma sorted_by_priority_sorted (l : list Task) :
  StronglySorted by_priority (sorted_by_priority l).
Proof.
  induction l as [|t r IH]; cbn; [constructor | apply insert_by_priority_sorted, IH].
Qed.

(** The first element of a sorted list is one of the list and none has a
    smaller priority. *)
Lemma sorted_head (l : list Task) (t : Task) (r : list Task) :
  sorted_by_priority l = t :: r ->
  In t l /\ forall u, In u l -> priority t <= priority u.
Proof.
  intros E. pose proof (sorted_by_priority_perm l) as P.
  pose proof (sorted_by_priority_sorted l) as S. rewrite E in P, S.
  split.
  - apply (Permutation_in _ P). left. reflexivity.
  - intros u Hu. apply (Permutation_in _ (Permutation_sym P)) in Hu as [<-|Hu]; [lia|].
    apply StronglySorted_inv in S as [_ Hall]. rewrite List.Forall_forall in Hall.
    apply Hall, Hu.
Qed.

Lemma sorted_by_priority_nil (l : list Task) : sorted_by_priority l = [] -> l = [].
Proof.
  intros E. pose proof (sorted_by_priority_perm l) as P. rewrite E in P.
  apply Permutation_nil in P. exact P.
Qed.

Lemma filter_sorted (f : Task -> bool) (l : list Task) :
  StronglySorted by_priority l -> StronglySorted by_priority (List.filter f l).
Proof.
  induction 1 as [|t r Hr IH Ht]; cbn; [constructor|].
  destruct (f t); [|exact IH].
  constructor; [exact IH|].
  apply List.Forall_forall. intros u Hu. apply filter_In in Hu as [Hu _].
  rewrite List.Forall_forall in Ht. apply Ht, Hu.
Qed.

Lemma in_with_status (s : string) (ts : list Task) (t : Task) :
  In t (with_status s ts) <-> In t ts /\ status t = s.
Proof. unfold with_status. rewrite filter_In, String.eqb_eq. reflexivity. Qed.

End TaskFacts.

Module NextTaskFacts.
Import Tasks TaskManager Obs TaskFacts.

Lemma get_next_task_returns (w : World) :
  readable (tasks_file w) = true ->
  get_next_task w
  = (Return match sorted_by_priority (with_status "in_progress" (listed w)) with
            | t :: _ => Some t
            | [] => match sorted_by_priority (with_status "pending" (listed w)) with
                    | t :: _ => Some t
                    | [] => None
                    end
            end, after_load w).
Proof.
  intros Hr. unfold get_next_task. unfold mbind, M_bind.
  rewrite (get_tasks_status "in_progress" w Hr) by discriminate.
  destruct (sorted_by_priority (with_status "in_progress" (listed w))); [|reflexivity].
  rewrite (get_tasks_status "pending" (after_load w) (readable_after_load w Hr))
    by discriminate.
  rewrite listed_after_load, after_load_idem.
  destruct (sorted_by_priority (with_status "pending" (listed w))); reflexivity.
Qed.

Lemma next_task_general (w : World) :
  readable (tasks_file w) = true ->
  exists r w', get_next_task w = (Return r, w')
  /\ ((exists u, In u (listed w) /\ status u = "in_progress") ->
      exists t, r = Some t /\ In t (listed w) /\ status t = "in_progress"
        /\ forall u, In u (listed w) -> status u = "in_progress" ->
                     priority t <= priority u)
  /\ (forall t, r = Some t ->
        In t (listed w) /\
        forall u, In u (listed w) -> status u = status t -> priority t <= priority u).
Proof.
  intros Hr. eexists _, _. split; [apply (get_next_task_returns w Hr)|].
  destruct (sorted_by_priority (with_status "in_progress" (listed w))) as [|t r] eqn:E.
  - apply sorted_by_priority_nil in E. split.
    + intros [u [Hu Hs]]. exfalso.
      assert (In u (with_status "in_progress" (listed w))) as H
        by (apply in_with_status; split; assumption).
      rewrite E in H. exact H.
    + destruct (sorted_by_priority (with_status "pending" (listed w))) as [|t r] eqn:E2;
        [discriminate|].
      intros t' [= <-]. apply sorted_head in E2 as [Hin Hmin].
      apply in_with_status in Hin as [Hin Hs]. split; [exact Hin|].
      intros u Hu Hsu. apply Hmin, in_with_status. split; [exact Hu | congruence].
  - apply sorted_head in E as [Hin Hmin]. apply in_with_status in Hin as [Hin Hs].
    split.
    + intros _. exists t. repeat split; try assumption.
      intros u Hu Hsu. apply Hmin, in_with_status. split; assumption.
    + intros t' [= <-]. split; [exact Hin|].
      intros u Hu Hsu. apply Hmin, in_with_status. split; [exact Hu | congruence].
Qed.

Lemma next_task_pending (w : World) :
  readable (tasks_file w) = true ->
  (forall u, In u (listed w) -> status u <> "in_progress") ->
  (exists u, In u (listed w) /\ status u = "pending") ->
  exists t w', get_next_task w = (Return (Some t), w')
    /\ In t (listed w) /\ status t = "pending"
    /\ forall u, In u (listed w) -> status u = "pending" -> priority t <= priority u.
Proof.
  intros Hr Hnone [u [Hu Hs]].
  destruct (sorted_by_priority (with_status "pending" (listed w))) as [|t r] eqn:E2.
  - apply sorted_by_priority_nil in E2. exfalso.
    assert (In u (with_status "pending" (listed w))) as H
      by (apply in_with_status; split; assumption).
    rewrite E2 in H. exact H.
  - exists t, (after_load w). rewrite (get_next_task_returns w Hr), E2.
    destruct (sorted_by_priority (with_status "in_progress" (listed w))) as [|t0 r0] eqn:E.
    + apply sorted_head in E2 as [Hin Hmin]. apply in_with_status in Hin as [Hin Ht].
      repeat split; try assumption.
      intros v Hv Hsv. apply Hmin, in_with_status. split; assumption.
    + apply sorted_head in E as [Hin _]. apply in_with_status in Hin as [Hin Ht].
      exfalso. exact (Hnone t0 Hin Ht).
Qed.

Lemma next_task_cases (w : World) :
  readable (tasks_file w) = true ->
  exists r w', get_next_task w = (Return r, w')
  /\ ((exists u, In u (listed w) /\ status u = "in_progress") ->
      exists t, r = Some t /\ In t (listed w) /\ status t = "in_progress"
        /\ forall u, In u (listed w) -> status u = "in_progress" ->
                     priority t <= priority u)
  /\ ((forall u, In u (listed w) -> status u <> "in_progress") ->
      (exists u, In u (listed w) /\ status u = "pending") ->
      exists t, r = Some t /\ In t (listed w) /\ status t = "pending"
        /\ forall u, In u (listed w) -> status u = "pending" ->
                     priority t <= priority u)
  /\ (r = None <->
      forall u, In u (listed w) -> status u <> "in_progress" /\ status u <> "pending")
  /\ (forall t, r = Some t ->
        In t (listed w) /\
        forall u, In u (listed w) -> status u = status t -> priority t <= priority u).
Proof.
  intros Hr.
  destruct (next_task_general w Hr) as (r & w' & Hrun & Hfirst & Hleast).
  exists r, w'. split; [exact Hrun|]. split; [exact Hfirst|]. split; [|split].
  - intros Hnone Hsome.
    destruct (next_task_pending w Hr Hnone Hsome) as (t & w2 & Hrun2 & Hin & Hs & Hmin).
    exists t. rewrite Hrun in Hrun2. split; [congruence|]. repeat split; assumption.
  - rewrite (get_next_task_returns w Hr) in Hrun.
    assert (Hopen : forall s, sorted_by_priority (with_status s (listed w)) = []
                              <-> forall u, In u (listed w) -> status u <> s).
    { intros s. split.
      - intros E u Hu Hs. apply sorted_by_priority_nil in E.
        assert (In u (with_status s (listed w))) as H
          by (apply in_with_status; split; assumption).
        rewrite E in H. exact H.
      - intros Hno.
        destruct (sorted_by_priority (with_status s (listed w))) as [|t l] eqn:E;
          [reflexivity|].
        apply sorted_head in E as [Hin _]. apply in_with_status in Hin as [Hin Hs].
        exfalso. exact (Hno t Hin Hs). }
    destruct (sorted_by_priority (with_status "in_progress" (listed w)))
      as [|t l] eqn:E1.
    + destruct (sorted_by_priority (with_status "pending" (listed w)))
        as [|t l] eqn:E2.
      * split; [|intros _; congruence].
        intros _ u Hu. split.
        -- apply (proj1 (Hopen "in_progress")); [exact E1 | exact Hu].
        -- apply (proj1 (Hopen "pending")); [exact E2 | exact Hu].
      * split; [intros ->; discriminate|].
        intros Hno. exfalso.
        assert (sorted_by_priority (with_status "pending" (listed w)) = []) as E
          by (apply Hopen; intros u Hu; apply (Hno u Hu)).
        congruence.
    + split; [intros ->; discriminate|].
      intros Hno. exfalso.
      assert (sorted_by_priority (with_status "in_progress" (listed w)) = []) as E
        by (apply Hopen; intros u Hu; apply (Hno u Hu)).
      congruence.
  - exact Hleast.
Qed.

(** C7. In every store that can be read, [get_next_task] returns a task in
    progress whenever one is listed, whatever the priorities of the pending
    tasks; when none is in progress and a pending task is listed, it returns a
    pending task; it returns nothing exactly when no listed task is in
    progress or pending; the task it returns has the lowest priority number
    among the listed tasks of its status. In particular, with one task in
    progress at priority 5 and two pending at priorities 1 and 2, it returns
    the task in progress. *)
Theorem next_task_prefers_in_progress :
  (forall w : World, readable (tasks_file w) = true ->
     exists r w', get_next_task w = (Return r, w')
     /\ ((exists u, In u (listed w) /\ status u = "in_progress") ->
         exists t, r = Some t /\ In t (listed w) /\ status t = "in_progress"
           /\ forall u, In u (listed w) -> status u = "in_progress" ->
                        priority t <= priority u)
     /\ ((forall u, In u (listed w) -> status u <> "in_progress") ->
         (exists u, In u (listed w) /\ status u = "pending") ->
         exists t, r = Some t /\ In t (listed w) /\ status t = "pending"
           /\ forall u, In u (listed w) -> status u = "pending" ->
                        priority t <= priority u)
     /\ (r = None <->
         forall u, In u (listed w) ->
                   status u <> "in_progress" /\ status u <> "pending")
     /\ (forall t, r = Some t ->
           In t (listed w) /\
           forall u, In u (listed w) -> status u = status t -> priority t <= priority u))
  /\ (forall (w : World) (a b c : Task),
     readable (tasks_file w) = true ->
     Permutation (listed w) [a; b; c] ->
     status a = "in_progress" -> priority a = 5 ->
     status b = "pending" -> priority b = 1 ->
     status c = "pending" -> priority c = 2 ->
     exists w', get_next_task w = (Return (Some a), w')).
Proof.
  split; [exact next_task_cases|].
  intros w a b c Hr Hperm Sa Pa Sb Pb Sc Pc.
  destruct (next_task_cases w Hr) as (r & w' & Hrun & Hin_progress & _).
  destruct Hin_progress as (t & -> & Hin & Hs & _).
  { exists a. split; [|exact Sa].
    apply (Permutation_in _ (Permutation_sym Hperm)). left. reflexivity. }
  exists w'. rewrite Hrun. do 3 f_equal.
  apply (Permutation_in _ Hperm) in Hin as [<-|[<-|[<-|[]]]]; [reflexivity | congruence..].
Qed.

Lemma next_task_witness :
  exists w', get_next_task Ex.interrupted_world
             = (Return (Some (Ex.task 3 "in_progress" 5)), w').
Proof.
  apply (proj2 next_task_prefers_in_progress Ex.interrupted_world
           (Ex.task 3 "in_progress" 5) (Ex.task 1 "pending" 1) (Ex.task 2 "pending" 2));
    try reflexivity.
  change (listed Ex.interrupted_world)
    with [Ex.task 1 "pending" 1; Ex.task 2 "pending" 2; Ex.task 3 "in_progress" 5].
  apply Permutation_sym, (Permutation_cons_app [_; _] []). reflexivity.
Defined.

End NextTaskFacts.

Module AddFacts.
Import Tasks TaskManager Obs TaskFacts.

Lemma id_number_task_id (n : Z) : id_number (task_id n) = Some n.
Proof. unfold id_number, task_id. cbn. apply FmtFacts.read_format_03d. Qed.

Lemma task_id_inj (a b : Z) : task_id a = task_id b -> a = b.
Proof.
  intros H. apply (f_equal id_number) in H. rewrite !id_number_task_id in H. congruence.
Qed.

Lemma fold_left_max_ge (l : list Z) (a : Z) :
  a <= fold_left Z.max l a /\ forall x, In x l -> x <= fold_left Z.max l a.
Proof.
  revert a. induction l as [|y r IH]; intros a; cbn.
  - split; [lia | tauto].
  - destruct (IH (Z.max a y)) as [H1 H2]. split; [lia|].
    intros x [<-|Hx]; [lia | apply H2, Hx].
Qed.

Lemma fold_left_max_in (l : list Z) (a : Z) :
  fold_left Z.max l a = a \/ In (fold_left Z.max l a) l.
Proof.
  revert a. induction l as [|y r IH]; intros a; cbn; [left; reflexivity|].
  destruct (IH (Z.max a y)) as [H|H].
  - rewrite H. destruct (Z.max_spec a y) as [[_ ->]|[_ ->]];
      [right; left; reflexivity | left; reflexivity].
  - right. right. exact H.
Qed.

Lemma max_default0_spec (l : list Z) :
  l <> [] ->
  In (max_default0 l) l /\ forall x, In x l -> x <= max_default0 l.
Proof.
  destruct l as [|a r]; [congruence|]. intros _. cbn [max_default0]. split.
  - destruct (fold_left_max_in r a) as [->|H]; [left; reflexivity | right; exact H].
  - destruct (fold_left_max_ge r a) as [H1 H2]. intros x [<-|Hx]; [exact H1 | apply H2, Hx].
Qed.

Lemma add_task_returns (title description : string) (raw_thought : option string)
    (w : World) :
  readable (tasks_file w) = true ->
  let w1 := after_load w in
  let task := mkTask (task_id (next_id (loaded w))) title description "pending"
                (max_default0 (map priority (listed w)) + 1)
                (isoformat_now w1 (ticks w1)) None raw_thought None None in
  let data := mkTasksDoc (raw_thoughts (loaded w)) (listed w ++ [task])
                (next_id (loaded w) + 1) in
  add_task title description raw_thought w
  = (Return task,
     set_tasks_writes (data :: tasks_writes w1)
       (set_tasks_file (Holds data) (set_ticks (S (ticks w1)) w1))).
Proof.
  intros Hr w1 task data. unfold add_task, mbind, M_bind.
  rewrite (_load_data_returns w Hr). rewrite tasks_loaded. reflexivity.
Qed.

Lemma add_task_step (title description : string) (raw_thought : option string)
    (w : World) :
  readable (tasks_file w) = true ->
  exists t w',
    add_task title description raw_thought w = (Return t, w')
    /\ id t = task_id (next_id (loaded w))
    /\ priority t = max_default0 (map priority (listed w)) + 1
    /\ readable (tasks_file w') = true
    /\ next_id (loaded w') = next_id (loaded w) + 1.
Proof.
  intros Hr. eexists _, _. split; [apply (add_task_returns _ _ _ w Hr)|].
  repeat split; reflexivity.
Qed.

Lemma add_tasks_ids (calls : list (string * string * option string)) (w : World) :
  readable (tasks_file w) = true ->
  exists ts w',
    add_tasks calls w = (Return ts, w')
    /\ map id ts
       = map (fun k => task_id (next_id (loaded w) + Z.of_nat k)) (seq 0 (length calls)).
Proof.
  revert w. induction calls as [|[[title description] raw_thought] rest IH]; intros w Hr.
  - eexists _, _. split; reflexivity.
  - destruct (add_task_step title description raw_thought w Hr)
      as (t & w1 & Hadd & Hid & _ & Hr1 & Hnext).
    destruct (IH w1 Hr1) as (ts & w2 & Hrest & Hids).
    exists (t :: ts), w2. split.
    + cbn [add_tasks]. unfold mbind, M_bind. rewrite Hadd.
      fold (@mbind M _). unfold mbind, M_bind. rewrite Hrest. reflexivity.
    + cbn [map length seq]. rewrite Hid, Z.add_0_r. f_equal.
      rewrite Hids, Hnext, <- seq_shift, map_map.
      apply map_ext. intros k. f_equal. lia.
Qed.

Lemma consecutive_sorted (n : Z) (start len : nat) :
  StronglySorted Z.lt (map (fun k => n + Z.of_nat k) (seq start len)).
Proof.
  revert start. induction len as [|len IH]; intros start; cbn; constructor; [apply IH|].
  apply List.Forall_forall. intros x Hx. apply in_map_iff in Hx as (k & <- & Hk).
  apply in_seq in Hk. lia.
Qed.

Lemma NoDup_map_injective {A B : Type} (f : A -> B) (l : list A) :
  (forall a b, f a = f b -> a = b) -> List.NoDup l -> List.NoDup (map f l).
Proof.
  intros Hinj. induction 1 as [|a l Hnotin Hnd IH]; cbn; constructor; [|exact IH].
  intros Hin. apply in_map_iff in Hin as (b & Hb & Hbin). apply Hinj in Hb. subst.
  contradiction.
Qed.

Lemma max_default0_snoc (l : list Z) (x : Z) :
  max_default0 (l ++ [x])
  = match l with
    | [] => x
    | _ :: _ => Z.max (max_default0 l) x
    end.
Proof.
  destruct l as [|a r]; [reflexivity|].
  cbn [app max_default0]. rewrite fold_left_app. reflexivity.
Qed.

Lemma migrate_snoc (ts : list Task) (t : Task) :
  migrate (ts ++ [t])
  = migrate ts
    ++ [if Z.eqb (priority t) 0 then set_priority (Z.of_nat (length ts) + 1) t else t].
Proof. unfold migrate. rewrite imap_app. cbn [imap]. rewrite Nat.add_0_r. reflexivity. Qed.

Lemma listed_nonzero_priority (w : World) (t : Task) :
  In t (listed w) -> priority t <> 0.
Proof. unfold listed. destruct (tasks_file w); try (intros []). apply migrate_nonzero. Qed.

(** What one add leaves in the store: the document holds the listed tasks
    followed by the new one; the next load lists the same, the new task taking
    its position as priority when its priority is 0. *)
Lemma add_task_stores (title description : string) (raw_thought : option string)
    (w : World) :
  readable (tasks_file w) = true ->
  exists t w' data,
    add_task title description raw_thought w = (Return t, w')
    /\ id t = task_id (next_id (loaded w))
    /\ priority t = max_default0 (map priority (listed w)) + 1
    /\ readable (tasks_file w') = true
    /\ next_id (loaded w') = next_id (loaded w) + 1
    /\ tasks_file w' = Holds data
    /\ tasks data = listed w ++ [t]
    /\ listed w'
       = listed w ++ [if Z.eqb (priority t) 0
                      then set_priority (Z.of_nat (length (listed w)) + 1) t else t].
Proof.
  intros Hr. eexists _, _, _. split; [apply (add_task_returns _ _ _ w Hr)|].
  repeat split.
  unfold listed at 1. cbn [tasks_file set_tasks_writes set_tasks_file tasks].
  rewrite migrate_snoc. f_equal.
  apply migrate_id_nonzero. intros u. apply listed_nonzero_priority.
Qed.

Lemma add_tasks_cons (title description : string) (raw_thought : option string)
    (rest : list (string * string * option string)) (w w1 w2 : World) (t : Task)
    (ts : list Task) :
  add_task title description raw_thought w = (Return t, w1) ->
  add_tasks rest w1 = (Return ts, w2) ->
  add_tasks ((title, description, raw_thought) :: rest) w = (Return (t :: ts), w2).
Proof.
  intros Hadd Hrest. cbn [add_tasks]. unfold mbind, M_bind. rewrite Hadd.
  fold (@mbind M _). unfold mbind, M_bind. rewrite Hrest. reflexivity.
Qed.

Lemma add_tasks_app (pre post : list (string * string * option string))
    (w w1 w2 : World) (ts1 ts2 : list Task) :
  add_tasks pre w = (Return ts1, w1) ->
  add_tasks post w1 = (Return ts2, w2) ->
  readable (tasks_file w) = true ->
  add_tasks (pre ++ post) w = (Return (ts1 ++ ts2), w2).
Proof.
  revert w ts1. induction pre as [|[[title description] raw_thought] pre IH];
    intros w ts1 Hpre Hpost Hr.
  - cbn in Hpre. unfold mret, M_ret in Hpre. injection Hpre as <- <-. exact Hpost.
  - destruct (add_task_step title description raw_thought w Hr)
      as (t & wa & Hadd & _ & _ & Hra & _).
    destruct (add_tasks_ids pre wa Hra) as (ts & wb & Hrun & _).
    rewrite (add_tasks_cons _ _ _ _ _ _ _ _ _ Hadd Hrun) in Hpre.
    injection Hpre as <- <-.
    cbn [app]. apply (add_tasks_cons _ _ _ _ _ _ _ _ _ Hadd).
    apply IH; assumption.
Qed.

(** The priorities along a sequence of adds. *)
Lemma add_tasks_priorities (calls : list (string * string * option string)) (w : World) :
  readable (tasks_file w) = true ->
  exists ts w',
    add_tasks calls w = (Return ts, w')
    /\ readable (tasks_file w') = true
    /\ StronglySorted Z.lt (map priority ts)
    /\ (forall t, In t ts -> max_default0 (map priority (listed w)) < priority t)
    /\ map id (listed w') = map id (listed w) ++ map id ts
    /\ (0 <= max_default0 (map priority (listed w)) ->
        listed w' = listed w ++ ts
        /\ map priority ts
           = map (fun k => max_default0 (map priority (listed w)) + 1 + Z.of_nat k)
                 (seq 0 (length calls))).
Proof.
  revert w. induction calls as [|[[title description] raw_thought] rest IH]; intros w Hr.
  - exists [], w. split; [reflexivity|]. split; [exact Hr|]. split; [constructor|].
    split; [intros t []|]. rewrite !app_nil_r. repeat split; reflexivity.
  - destruct (add_task_stores title description raw_thought w Hr)
      as (t & w1 & data & Hadd & _ & Hp & Hr1 & _ & _ & _ & Hl).
    destruct (IH w1 Hr1) as (ts & w2 & Hrest & Hr2 & Hsorted & Hlow & Hids & Hplain).
    assert (Hm1 : max_default0 (map priority (listed w)) + 1
                  <= max_default0 (map priority (listed w1))
                  /\ (0 <= max_default0 (map priority (listed w)) ->
                      max_default0 (map priority (listed w1))
                      = max_default0 (map priority (listed w)) + 1
                      /\ listed w1 = listed w ++ [t])).
    { rewrite Hl, map_app. cbn [map]. rewrite max_default0_snoc.
      destruct (listed w) as [|u l] eqn:El.
      - cbn [map max_default0] in Hp |- *.
        destruct (Z.eqb_spec (priority t) 0) as [Hz|Hz]; [exfalso; lia|].
        split; [lia|]. intros _. split; [lia | reflexivity].
      - cbn [map] in Hp |- *.
        set (m := max_default0 (priority u :: map priority l)) in *.
        destruct (Z.eqb_spec (priority t) 0) as [Hz|Hz].
        + cbn [priority set_priority]. split; [lia|]. intros Hm. exfalso. lia.
        + rewrite Hp. split; [lia|]. intros _. split; [lia | reflexivity]. }
    set (m := max_default0 (map priority (listed w))) in *.
    set (m1 := max_default0 (map priority (listed w1))) in *.
    destruct Hm1 as [Hge Hnormal].
    exists (t :: ts), w2. split; [exact (add_tasks_cons _ _ _ _ _ _ _ _ _ Hadd Hrest)|].
    split; [exact Hr2|]. split; [|split; [|split]].
    + cbn [map]. constructor; [exact Hsorted|].
      apply List.Forall_forall. intros p Hin. apply in_map_iff in Hin as (u & <- & Hu).
      specialize (Hlow u Hu). lia.
    + intros u [<-|Hu]; [lia|]. specialize (Hlow u Hu). lia.
    + rewrite Hids, Hl, map_app. cbn [map]. rewrite <- app_assoc. cbn [app].
      do 2 f_equal. destruct (Z.eqb (priority t) 0); reflexivity.
    + intros Hm. destruct (Hnormal Hm) as [Em1 El1].
      destruct Hplain as [Hl2 Hps]; [lia|]. split.
      * rewrite Hl2, El1, <- app_assoc. reflexivity.
      * cbn [map length seq]. rewrite Hp, Z.add_0_r. f_equal.
        rewrite Hps, Em1, <- seq_shift, map_map. apply map_ext. intros k. lia.
Qed.

(** C6. In a store that can be read, [add_task] gives the new task priority 1
    when no task is listed and otherwise one more than the greatest listed
    priority, and writes the listed tasks followed by the new one. For any
    sequence of add calls the ids assigned are pairwise distinct and carry
    strictly increasing sequence numbers, the priorities assigned increase
    strictly and exceed every priority listed before, and the new tasks are
    listed after the earlier ones in the order of the calls; when no listed
    priority is negative they are [m + 1], [m + 2], ... for [m] the greatest
    priority listed before (0 in an empty store). Each call of a sequence is
    an [add_task] on the store the earlier calls left, which lists the tasks
    they added, so its task has priority 1 when that store lists nothing and
    otherwise one more than the greatest priority listed there. *)
Theorem add_assigns_increasing_ids_and_last_priority :
  (forall (w : World) (title description : string) (raw_thought : option string),
     readable (tasks_file w) = true ->
     exists t w' data,
       add_task title description raw_thought w = (Return t, w')
       /\ (listed w = [] -> priority t = 1)
       /\ (listed w <> [] ->
           (exists u, In u (listed w) /\ priority t = priority u + 1)
           /\ forall u, In u (listed w) -> priority u + 1 <= priority t)
       /\ tasks_file w' = Holds data
       /\ tasks data = listed w ++ [t]
       /\ (priority t <> 0 -> listed w' = listed w ++ [t]))
  /\
  (forall (w : World) (calls : list (string * string * option string)),
     readable (tasks_file w) = true ->
     exists ts w' numbers,
       add_tasks calls w = (Return ts, w')
       /\ length ts = length calls
       /\ List.NoDup (map id ts)
       /\ map (fun t => id_number (id t)) ts = map Some numbers
       /\ StronglySorted Z.lt numbers
       /\ StronglySorted Z.lt (map priority ts)
       /\ (forall t u, In t ts -> In u (listed w) -> priority u < priority t)
       /\ map id (listed w') = map id (listed w) ++ map id ts
       /\ (0 <= max_default0 (map priority (listed w)) ->
           listed w' = listed w ++ ts
           /\ map priority ts
              = map (fun k => max_default0 (map priority (listed w)) + 1 + Z.of_nat k)
                    (seq 0 (length calls))))
  /\
  (forall (w : World) (pre post : list (string * string * option string))
          (title description : string) (raw_thought : option string),
     readable (tasks_file w) = true ->
     exists ts1 w1 t w2 ts2 w',
       add_tasks (pre ++ (title, description, raw_thought) :: post) w
       = (Return (ts1 ++ t :: ts2), w')
       /\ add_tasks pre w = (Return ts1, w1)
       /\ add_task title description raw_thought w1 = (Return t, w2)
       /\ add_tasks post w2 = (Return ts2, w')
       /\ map id (listed w1) = map id (listed w) ++ map id ts1
       /\ (listed w1 = [] -> priority t = 1)
       /\ (listed w1 <> [] ->
           (exists u, In u (listed w1) /\ priority t = priority u + 1)
           /\ forall u, In u (listed w1) -> priority u + 1 <= priority t)).
Proof.
  assert (Hone : forall (w : World) (t : Task),
            priority t = max_default0 (map priority (listed w)) + 1 ->
            (listed w = [] -> priority t = 1)
            /\ (listed w <> [] ->
                (exists u, In u (listed w) /\ priority t = priority u + 1)
                /\ forall u, In u (listed w) -> priority u + 1 <= priority t)).
  { intros w t Hp. split.
    - intros E. rewrite Hp, E. reflexivity.
    - intros Hne.
      assert (map priority (listed w) <> []) as Hne'
        by (destruct (listed w); [congruence | discriminate]).
      destruct (max_default0_spec _ Hne') as [Hin Hmax]. split.
      + apply in_map_iff in Hin as (u & Hu & Huin). exists u. split; [exact Huin | lia].
      + intros u Hu. rewrite Hp.
        specialize (Hmax (priority u) (in_map priority _ _ Hu)). lia. }
  split; [|split].
  - intros w title description raw_thought Hr.
    destruct (add_task_stores title description raw_thought w Hr)
      as (t & w' & data & Hadd & _ & Hp & _ & _ & Hfile & Htasks & Hl).
    exists t, w', data. split; [exact Hadd|].
    destruct (Hone w t Hp) as [Hempty Hmore].
    split; [exact Hempty|]. split; [exact Hmore|]. split; [exact Hfile|].
    split; [exact Htasks|].
    intros Hnz. rewrite Hl. destruct (Z.eqb_spec (priority t) 0); [contradiction | reflexivity].
  - intros w calls Hr. destruct (add_tasks_ids calls w Hr) as (ts & w' & Hrun & Hids).
    destruct (add_tasks_priorities calls w Hr)
      as (ts' & w2 & Hrun' & _ & Hsorted & Hlow & Hlisted & Hplain).
    rewrite Hrun in Hrun'. injection Hrun' as <- <-.
    exists ts, w', (map (fun k => next_id (loaded w) + Z.of_nat k) (seq 0 (length calls))).
    split; [exact Hrun|]. split; [|split; [|split; [|split; [|split; [|split; [|split]]]]]].
    + apply (f_equal (@length _)) in Hids. rewrite !length_map, length_seq in Hids.
      exact Hids.
    + rewrite Hids. apply NoDup_map_injective; [|apply seq_NoDup].
      intros a b H. apply task_id_inj in H. lia.
    + rewrite <- (map_map id id_number), Hids, !map_map.
      apply map_ext. intros k. apply id_number_task_id.
    + apply consecutive_sorted.
    + exact Hsorted.
    + intros t u Ht Hu. specialize (Hlow t Ht).
      assert (map priority (listed w) <> []) as Hne'
        by (destruct (listed w); [destruct Hu | discriminate]).
      destruct (max_default0_spec _ Hne') as [_ Hmax].
      specialize (Hmax (priority u) (in_map priority _ _ Hu)). lia.
    + exact Hlisted.
    + exact Hplain.
  - intros w pre post title description raw_thought Hr.
    destruct (add_tasks_priorities pre w Hr)
      as (ts1 & w1 & Hpre & Hr1 & _ & _ & Hlisted & _).
    destruct (add_task_stores title description raw_thought w1 Hr1)
      as (t & w2 & data & Hadd & _ & Hp & Hr2 & _).
    destruct (add_tasks_ids post w2 Hr2) as (ts2 & w' & Hpost & _).
    exists ts1, w1, t, w2, ts2, w'.
    split; [|split; [exact Hpre|split; [exact Hadd|split; [exact Hpost|split;
      [exact Hlisted | exact (Hone w1 t Hp)]]]]].
    apply (add_tasks_app pre _ w w1 w' ts1 (t :: ts2) Hpre); [|exact Hr].
    exact (add_tasks_cons _ _ _ _ _ _ _ _ _ Hadd Hpost).
Qed.

Lemma add_witness :
  exists ts w' numbers,
    add_tasks [("first", "", None); ("second", "", None); ("third", "", None)]
              Ex.fresh_world = (Return ts, w')
    /\ length ts = 3%nat
    /\ List.NoDup (map id ts)
    /\ map (fun t => id_number (id t)) ts = map Some numbers
    /\ StronglySorted Z.lt numbers
    /\ StronglySorted Z.lt (map priority ts)
    /\ (forall t u, In t ts -> In u (listed Ex.fresh_world) -> priority u < priority t)
    /\ map id (listed w') = map id (listed Ex.fresh_world) ++ map id ts
    /\ (0 <= max_default0 (map priority (listed Ex.fresh_world)) ->
        listed w' = listed Ex.fresh_world ++ ts
        /\ map priority ts
           = map (fun k => max_default0 (map priority (listed Ex.fresh_world)) + 1
                           + Z.of_nat k) (seq 0 3)).
Proof.
  apply (proj1 (proj2 add_assigns_increasing_ids_and_last_priority) Ex.fresh_world
           [("first", "", None); ("second", "", None); ("third", "", None)]).
  reflexivity.
Defined.
Example add_three_tasks :
  option_map (map (fun t => (id t, priority t)))
    (match fst (add_tasks [("first", "", None); ("second", "", None); ("third", "", None)]
                  Ex.fresh_world) with
     | Return ts => Some ts
     | Raise _ => None
     end)
  = Some [("task_001", 1); ("task_002", 2); ("task_003", 3)].
Proof. vm_compute. reflexivity. Qed.

End AddFacts.

Module UpdateFacts.
Import Tasks TaskManager Obs TaskFacts.

Lemma update_first_none (task_id : string) (kwargs : list kwarg) (ts : list Task) :
  (forall t, In t ts -> id t <> task_id) -> update_first task_id kwargs ts = None.
Proof.
  induction ts as [|t r IH]; intros H; cbn; [reflexivity|].
  destruct (String.eqb_spec (id t) task_id) as [E|_].
  - exfalso. apply (H t); [left; reflexivity | exact E].
  - rewrite IH; [reflexivity|]. intros u Hu. apply H. right. exact Hu.
Qed.

Lemma _load_data_clean (w : World) :
  readable (tasks_file w) = true ->
  (forall data, tasks_file w = Holds data -> needs_save (tasks data) = false) ->
  snd (_load_data w) = w.
Proof.
  intros Hr Hclean. rewrite (_load_data_returns w Hr). cbn. unfold after_load.
  destruct (tasks_file w) as [| |data] eqn:E; try reflexivity.
  rewrite (Hclean data eq_refl). reflexivity.
Qed.

(** C10 (amended). For an id that no listed task has, [update_task] returns
    [None] and writes nothing of its own: the world it leaves is the one
    [_load_data] leaves. When no stored task lacks a priority (or the document
    is missing or corrupt), that is the world it started from, the task
    document and the log of writes included. *)
Theorem update_task_not_found (task_id : string) (kwargs : list kwarg) (w : World) :
  readable (tasks_file w) = true ->
  (forall t, In t (listed w) -> id t <> task_id) ->
  update_task task_id kwargs w = (Return None, snd (_load_data w))
  /\ ((forall data, tasks_file w = Holds data -> needs_save (tasks data) = false) ->
      update_task task_id kwargs w = (Return None, w)).
Proof.
  intros Hr Hnot.
  assert (update_task task_id kwargs w = (Return None, snd (_load_data w))) as H.
  { unfold update_task, mbind, M_bind. rewrite (_load_data_returns w Hr). cbn [snd].
    rewrite tasks_loaded, (update_first_none _ _ _ Hnot). reflexivity. }
  split; [exact H|]. intros Hclean. rewrite H, (_load_data_clean w Hr Hclean). reflexivity.
Qed.

Lemma update_task_not_found_witness :
  update_task "task_404" [K_status "done"] Ex.interrupted_world
  = (Return None, Ex.interrupted_world).
Proof.
  apply (update_task_not_found "task_404" [K_status "done"] Ex.interrupted_world).
  - reflexivity.
  - intros t [<-|[<-|[<-|[]]]]; discriminate.
  - intros data [= <-]. reflexivity.
Defined.

(** The claim as stated fails: on a document whose tasks have no priority yet,
    the load inside [update_task] migrates the priorities and writes the
    document back, although the id is not found. *)
Lemma update_task_not_found_may_write :
  exists w',
    update_task "task_404" [K_status "done"] Ex.legacy_world = (Return None, w')
    /\ (forall t, In t (listed Ex.legacy_world) -> id t <> "task_404")
    /\ tasks_file w'
       = Holds (mkTasksDoc [] [Ex.task 1 "pending" 1; Ex.task 2 "pending" 2] 3)
    /\ tasks_file w' <> tasks_file Ex.legacy_world
    /\ length (tasks_writes w') = 1%nat
    /\ tasks_writes Ex.legacy_world = [].
Proof.
  eexists. split; [vm_compute; reflexivity|].
  split; [intros t [<-|[<-|[]]]; discriminate|].
  split; [reflexivity|]. split; [|split; reflexivity].
  intros H. vm_compute in H. discriminate H.
Qed.

End UpdateFacts.

Module ReorderFacts.
Import Tasks TaskManager Obs TaskFacts.

Lemma positions_from_cons (n : nat) (x : string) (ids : list string) (m : gmap string Z) :
  positions_from n (x :: ids) m = positions_from (S n) ids (<[x := Z.of_nat n + 1]> m).
Proof.
  unfold positions_from. rewrite imap_cons. cbn [fold_left]. unfold assign at 2.
  cbn [fst snd]. rewrite Nat.add_0_r. f_equal. apply imap_ext. intros i y _. cbn.
  f_equal. lia.
Qed.

Lemma id_to_priority_positions (ids : list string) :
  id_to_priority ids = positions_from 0 ids ∅.
Proof. reflexivity. Qed.

Lemma positions_from_notin (n : nat) (ids : list string) (m : gmap string Z) (x : string) :
  ~ In x ids -> positions_from n ids m !! x = m !! x.
Proof.
  revert n m. induction ids as [|y r IH]; intros n m Hx; [reflexivity|].
  rewrite positions_from_cons, IH by (intros H; apply Hx; right; exact H).
  apply lookup_insert_ne. intros ->. apply Hx. left. reflexivity.
Qed.

Lemma positions_from_lookup (n : nat) (ids : list string) (m : gmap string Z)
    (k : nat) (x : string) :
  List.NoDup ids -> ids !! k = Some x ->
  positions_from n ids m !! x = Some (Z.of_nat (n + k) + 1).
Proof.
  revert n m k. induction ids as [|y r IH]; intros n m k Hnd Hk; [discriminate|].
  rewrite positions_from_cons. inversion Hnd as [|? ? Hnotin Hnd']; subst.
  destruct k as [|k]; cbn in Hk.
  - injection Hk as ->. rewrite positions_from_notin by exact Hnotin.
    rewrite lookup_insert_eq, Nat.add_0_r. reflexivity.
  - rewrite (IH (S n) _ k Hnd' Hk). do 2 f_equal. lia.
Qed.

Lemma id_to_priority_lookup (ids : list string) (k : nat) (x : string) :
  List.NoDup ids -> ids !! k = Some x -> id_to_priority ids !! x = Some (Z.of_nat k + 1).
Proof.
  intros Hnd Hk. rewrite id_to_priority_positions.
  apply (positions_from_lookup 0 ids ∅ k x Hnd Hk).
Qed.

Lemma id_to_priority_notin (ids : list string) (x : string) :
  ~ In x ids -> id_to_priority ids !! x = None.
Proof.
  intros H. rewrite id_to_priority_positions, positions_from_notin by exact H. reflexivity.
Qed.

Lemma id_reassign (m : gmap string Z) (t : Task) : id (reassign m t) = id t.
Proof. unfold reassign. destruct (m !! id t); reflexivity. Qed.

Lemma reorder_tasks_returns (ids : list string) (w : World) :
  readable (tasks_file w) = true ->
  let data := mkTasksDoc (raw_thoughts (loaded w))
                (map (reassign (id_to_priority ids)) (listed w)) (next_id (loaded w)) in
  reorder_tasks ids w
  = (Return tt, set_tasks_writes (data :: tasks_writes (after_load w))
                  (set_tasks_file (Holds data) (after_load w))).
Proof.
  intros Hr data. unfold reorder_tasks, mbind, M_bind.
  rewrite (_load_data_returns w Hr), tasks_loaded. reflexivity.
Qed.

Lemma sorted_map {A B : Type} (R1 : A -> A -> Prop) (R2 : B -> B -> Prop) (g : A -> B)
    (l : list A) :
  (forall a b, In a l -> In b l -> R1 a b -> R2 (g a) (g b)) ->
  StronglySorted R1 l -> StronglySorted R2 (map g l).
Proof.
  intros H S. induction S as [|a l Sl IH Ha]; cbn; constructor.
  - apply IH. intros x y Hx Hy. apply H; right; assumption.
  - apply List.Forall_forall. intros y Hy. apply in_map_iff in Hy as (b & <- & Hb).
    rewrite List.Forall_forall in Ha.
    apply H; [left; reflexivity | right; exact Hb | apply Ha, Hb].
Qed.

Lemma sorted_of_lookups {A : Type} (R : A -> A -> Prop) (l : list A) :
  (forall i j x y, (i < j)%nat -> l !! i = Some x -> l !! j = Some y -> R x y) ->
  StronglySorted R l.
Proof.
  induction l as [|a l IH]; intros H; constructor.
  - apply IH. intros i j x y Hij Hi Hj. apply (H (S i) (S j)); [lia | exact Hi | exact Hj].
  - apply List.Forall_forall. intros y Hy.
    apply list_elem_of_In, list_elem_of_lookup in Hy as [j Hj].
    apply (H 0%nat (S j)); [lia | reflexivity | exact Hj].
Qed.

Lemma NoDup_map_filter {A B : Type} (g : A -> B) (f : A -> bool) (l : list A) :
  List.NoDup (map g l) -> List.NoDup (map g (List.filter f l)).
Proof.
  induction l as [|a l IH]; cbn; intros H; [constructor|].
  inversion H as [|? ? Hnotin Hnd]; subst.
  destruct (f a); cbn; [|apply IH, Hnd].
  constructor; [|apply IH, Hnd].
  intros Hin. apply Hnotin. apply in_map_iff in Hin as (b & Hb & Hbin).
  apply filter_In in Hbin as [Hbin _]. apply in_map_iff. exists b. split; assumption.
Qed.

End ReorderFacts.

Module ReorderClaim.
Import Tasks TaskManager Obs TaskFacts ReorderFacts.

(** C8. In a store that can be read and whose task ids are distinct, for a
    list [ids] of distinct ids of listed tasks: after [reorder_tasks ids], the
    tasks as [get_tasks()] lists them, sorted by priority and restricted to
    the reordered ids, have exactly the ids [ids] in that order; and the task
    named at position [k] of [ids] (from 0) has priority [k + 1]. *)
Theorem reorder_then_sorted_list (ids : list string) (w : World) :
  readable (tasks_file w) = true ->
  List.NoDup ids ->
  List.NoDup (map id (listed w)) ->
  (forall i, In i ids -> In i (map id (listed w))) ->
  exists w1 ts w2,
    reorder_tasks ids w = (Return tt, w1)
    /\ get_tasks None w1 = (Return ts, w2)
    /\ map id (List.filter (fun t => bool_decide (id t ∈ ids)) (sorted_by_priority ts)) = ids
    /\ forall k t, In t ts -> ids !! k = Some (id t) -> priority t = Z.of_nat k + 1.
Proof.
  intros Hr Hnd Hstore Hpresent.
  set (m := id_to_priority ids).
  set (ts := map (reassign m) (listed w)).
  assert (Hids : map id ts = map id (listed w)).
  { unfold ts. rewrite map_map. apply map_ext. intros t. apply id_reassign. }
  assert (Hprio : forall k t, In t ts -> ids !! k = Some (id t) -> priority t = Z.of_nat k + 1).
  { intros k t Hin Hk. unfold ts in Hin. apply in_map_iff in Hin as (u & <- & Hu).
    rewrite id_reassign in Hk. unfold reassign, m.
    rewrite (id_to_priority_lookup ids k (id u) Hnd Hk). reflexivity. }
  assert (Hnz : forall t, In t ts -> priority t <> 0).
  { intros t Hin. unfold ts in Hin. apply in_map_iff in Hin as (u & <- & Hu).
    unfold reassign. destruct (m !! id u) as [p|] eqn:E.
    - cbn. destruct (in_dec string_dec (id u) ids) as [Hi|Hi].
      + apply list_elem_of_In, list_elem_of_lookup in Hi as [k Hk].
        unfold m in E. rewrite (id_to_priority_lookup ids k (id u) Hnd Hk) in E.
        injection E as <-. lia.
      + unfold m in E. rewrite (id_to_priority_notin ids (id u) Hi) in E. discriminate.
    - unfold listed in Hu. destruct (tasks_file w); try contradiction.
      apply (migrate_nonzero _ _ Hu). }
  eexists _, ts, _. split; [apply (reorder_tasks_returns ids w Hr)|].
  split.
  { rewrite get_tasks_all by reflexivity.
    apply (f_equal2 pair); [|reflexivity]. f_equal. exact (migrate_id_nonzero ts Hnz). }
  split; [|exact Hprio].
  set (L := List.filter (fun t => bool_decide (id t ∈ ids)) (sorted_by_priority ts)).
  assert (HL : forall t, In t L <-> In t ts /\ In (id t) ids).
  { intros t. unfold L. rewrite filter_In, bool_decide_eq_true, list_elem_of_In.
    split; intros [H1 H2]; (split; [|exact H2]).
    - apply (Permutation_in _ (sorted_by_priority_perm ts)), H1.
    - apply (Permutation_in _ (Permutation_sym (sorted_by_priority_perm ts))), H1. }
  set (key := fun x : string => default 0 (m !! x)).
  assert (Hkey : forall k x, ids !! k = Some x -> key x = Z.of_nat k + 1).
  { intros k x Hk. unfold key, m. rewrite (id_to_priority_lookup ids k x Hnd Hk).
    reflexivity. }
  apply (StronglySorted_unique_strong (fun x y => key x <= key y)).
  - intros x y Hx Hy Hxy Hyx.
    apply list_elem_of_In, in_map_iff in Hx as (t & <- & Ht). apply HL in Ht as [_ Ht].
    apply list_elem_of_In, list_elem_of_lookup in Ht as [i Hi].
    apply list_elem_of_lookup in Hy as [j Hj].
    rewrite (Hkey _ _ Hi), (Hkey _ _ Hj) in Hxy, Hyx.
    assert (i = j) as -> by lia. congruence.
  - apply (sorted_map by_priority); [|apply filter_sorted, sorted_by_priority_sorted].
    intros a b Ha Hb Hab. apply HL in Ha as [Ha Hai], Hb as [Hb Hbi].
    apply list_elem_of_In, list_elem_of_lookup in Hai as [i Hi], Hbi as [j Hj].
    rewrite (Hkey _ _ Hi), (Hkey _ _ Hj).
    rewrite <- (Hprio i a Ha Hi), <- (Hprio j b Hb Hj). exact Hab.
  - apply sorted_of_lookups. intros i j x y Hij Hi Hj.
    rewrite (Hkey _ _ Hi), (Hkey _ _ Hj). lia.
  - apply NoDup_Permutation.
    + apply NoDup_ListNoDup, NoDup_map_filter.
      apply (Permutation_NoDup
               (Permutation_map id (Permutation_sym (sorted_by_priority_perm ts)))).
      rewrite Hids. exact Hstore.
    + apply NoDup_ListNoDup, Hnd.
    + intros x. rewrite !list_elem_of_In, in_map_iff. split.
      * intros (t & <- & Ht). apply HL in Ht as [_ Ht]. exact Ht.
      * intros Hx. pose proof (Hpresent x Hx) as Hin. rewrite <- Hids in Hin.
        apply in_map_iff in Hin as (t & <- & Ht). exists t. split; [reflexivity|].
        apply HL. split; assumption.
Qed.

Lemma reorder_witness :
  exists w1 ts w2,
    reorder_tasks ["task_003"; "task_001"] Ex.interrupted_world = (Return tt, w1)
    /\ get_tasks None w1 = (Return ts, w2)
    /\ map id (List.filter (fun t => bool_decide (id t ∈ ["task_003"; "task_001"]))
                 (sorted_by_priority ts))
       = ["task_003"; "task_001"]
    /\ forall k t, In t ts -> ["task_003"; "task_001"] !! k = Some (id t) ->
                   priority t = Z.of_nat k + 1.
Proof.
  apply (reorder_then_sorted_list ["task_003"; "task_001"] Ex.interrupted_world).
  - reflexivity.
  - repeat constructor; cbn; intuition discriminate.
  - change (map id (listed Ex.interrupted_world))
      with ["task_001"; "task_002"; "task_003"].
    repeat constructor; cbn; intuition discriminate.
  - change (map id (listed Ex.interrupted_world))
      with ["task_001"; "task_002"; "task_003"].
    intros i [<-|[<-|[]]]; cbn; tauto.
Defined.

Example reorder_example :
  match fst (mbind (fun _ : unit => get_tasks None)
               (reorder_tasks ["task_003"; "task_001"]) Ex.interrupted_world) with
  | Return ts => map (fun t => (id t, priority t)) (sorted_by_priority ts)
  | Raise _ => []
  end
  = [("task_003", 1); ("task_001", 2); ("task_002", 2)].
Proof. vm_compute. reflexivity. Qed.

End ReorderClaim.

(** ** Context guard *)

Module GuardFacts.
Import SessionLoop Obs.

Lemma at_or_above_threshold_iff (n : Z) : at_or_above_threshold n = true <-> 140000 <= n.
Proof.
  unfold at_or_above_threshold, over_threshold, CONTEXT_THRESHOLD, CONTEXT_WINDOW_SIZE.
  rewrite Qle_bool_iff. unfold Qle, Qdiv, Qmult, Qinv, inject_Z. cbn. lia.
Qed.

Lemma fired_app (a b : list Effect) : fired (a ++ b) = fired a ++ fired b.
Proof. apply List.filter_app. Qed.

Lemma fired_show (shown : option (string * string)) : fired (show shown) = [].
Proof.
  destruct shown as [[d e]|]; cbn; [|reflexivity].
  destruct (String.eqb d ""); reflexivity.
Qed.

Lemma scan_blocks_flags (self : Self) (content : list Block) :
  _context_overflow (fst (scan_blocks self content)) = _context_overflow self
  /\ tokens_in (_session_metrics (fst (scan_blocks self content)))
     = tokens_in (_session_metrics self).
Proof.
  induction content as [|b r IH]; cbn; [split; reflexivity|].
  destruct (String.eqb (btype b) "tool_use"); [split; reflexivity|].
  destruct (String.eqb (btype b) "text" && _); [split; reflexivity|].
  destruct (String.eqb (btype b) "thinking" && _); [split; reflexivity | exact IH].
Qed.

Lemma record_usage_spec (self : Self) (usage : gmap string Z) :
  let n := default (tokens_in (_session_metrics self)) (usage !! "input_tokens") in
  tokens_in (_session_metrics (fst (record_usage self usage))) = n
  /\ _context_overflow (fst (record_usage self usage))
     = _context_overflow self || at_or_above_threshold n
  /\ snd (record_usage self usage)
     = if at_or_above_threshold n && negb (_context_overflow self)
       then [ThresholdReached n] else [].
Proof.
  intros n. unfold record_usage. fold n. fold (at_or_above_threshold n).
  destruct (at_or_above_threshold n), (_context_overflow self); cbn; repeat split; reflexivity.
Qed.

(** A line either leaves the flag and the token count alone and announces
    nothing, or it is a usage report handled by [record_usage]. *)
Lemma parse_cases (self : Self) (l : Line) :
  (exists self' shown,
     _parse_stream_event self l = (self', shown, [])
     /\ _context_overflow self' = _context_overflow self
     /\ tokens_in (_session_metrics self') = tokens_in (_session_metrics self)
     /\ reported_tokens l = None)
  \/ (exists event,
        l = Json event
        /\ _parse_stream_event self l
           = (fst (record_usage self (usage event)), None, snd (record_usage self (usage event)))
        /\ reported_tokens l = usage event !! "input_tokens").
Proof.
  destruct l as [|stripped|event]; [left; eexists _, _; repeat split; reflexivity..|].
  cbn [_parse_stream_event reported_tokens].
  destruct (String.eqb (etype event) "system" || String.eqb (etype event) "user") eqn:E1.
  { left. eexists _, _. repeat split.
    destruct (String.eqb_spec (etype event) "rate_limit_event") as [E|]; [|reflexivity].
    rewrite E in E1. discriminate. }
  destruct (String.eqb (etype event) "rate_limit_event") eqn:E2.
  { destruct (negb (Nat.eqb (size (usage event)) 0)) eqn:E3; cbn [andb].
    - right. exists event. repeat split. destruct (record_usage self (usage event)). reflexivity.
    - left. eexists _, _. repeat split. }
  cbn [andb].
  destruct (String.eqb (etype event) "result").
  { left. destruct (negb _); eexists _, _; repeat split. }
  destruct (String.eqb (etype event) "assistant").
  { left. pose proof (scan_blocks_flags self (content event)) as [H1 H2].
    destruct (scan_blocks self (content event)) as [self' shown].
    eexists _, _. repeat split; assumption. }
  left. eexists _, _. repeat split.
Qed.

Lemma parse_below (self : Self) (l : Line) :
  below self ->
  (forall n, reported_tokens l = Some n -> at_or_above_threshold n = false) ->
  below (fst (fst (_parse_stream_event self l)))
  /\ snd (_parse_stream_event self l) = [].
Proof.
  intros [Hflag Htok] Hl.
  destruct (parse_cases self l) as [(self' & shown & -> & H1 & H2 & _)|(event & -> & -> & Hrep)].
  - cbn. split; [split; congruence | reflexivity].
  - cbn [fst snd]. destruct (record_usage_spec self (usage event)) as (T & F & A).
    rewrite Hrep in Hl.
    assert (at_or_above_threshold
              (default (tokens_in (_session_metrics self)) (usage event !! "input_tokens"))
            = false) as Hn.
    { destruct (usage event !! "input_tokens") as [n|]; cbn; [apply Hl; reflexivity|].
      apply not_true_is_false. rewrite at_or_above_threshold_iff. lia. }
    rewrite Hn in F, A. cbn in A. rewrite Hflag in F. split; [split; [exact F|] | exact A].
    rewrite T. apply not_true_iff_false in Hn. rewrite at_or_above_threshold_iff in Hn. lia.
Qed.

Lemma parse_fire (self : Self) (l : Line) (n : Z) :
  below self -> reported_tokens l = Some n -> at_or_above_threshold n = true ->
  _context_overflow (fst (fst (_parse_stream_event self l))) = true
  /\ snd (_parse_stream_event self l) = [ThresholdReached n].
Proof.
  intros [Hflag Htok] Hl Hn.
  destruct (parse_cases self l) as [(self' & shown & _ & _ & _ & H)|(event & -> & -> & Hrep)];
    [congruence|].
  cbn [fst snd]. destruct (record_usage_spec self (usage event)) as (T & F & A).
  rewrite Hrep in Hl. rewrite Hl in F, A. cbn in F, A. rewrite Hn, Hflag in F, A.
  split; [exact F | exact A].
Qed.

Lemma parse_after (self : Self) (l : Line) :
  _context_overflow self = true ->
  _context_overflow (fst (fst (_parse_stream_event self l))) = true
  /\ snd (_parse_stream_event self l) = [].
Proof.
  intros Hflag.
  destruct (parse_cases self l) as [(self' & shown & -> & H1 & _ & _)|(event & -> & -> & _)].
  - cbn. split; [congruence | reflexivity].
  - cbn [fst snd]. destruct (record_usage_spec self (usage event)) as (_ & F & A).
    rewrite Hflag in F, A. rewrite andb_false_r in A. split; [exact F | exact A].
Qed.

Lemma read_lines_cons (self : Self) (l : Line) (running : bool)
    (rest : list (Line * bool)) (code : Z) :
  effects_of (read_lines self ((l, running) :: rest) code)
  = snd (_parse_stream_event self l)
    ++ show (snd (fst (_parse_stream_event self l)))
    ++ (if _context_overflow (fst (fst (_parse_stream_event self l))) && running
        then [ContextCheckpointSaved; WorkerTerminated]
        else effects_of (read_lines (fst (fst (_parse_stream_event self l))) rest code)).
Proof.
  unfold effects_of. cbn [read_lines].
  destruct (_parse_stream_event self l) as [[self' shown] announced]. cbn [fst snd].
  destruct (_context_overflow self' && running); cbn [fst snd].
  - rewrite <- app_assoc. reflexivity.
  - destruct (read_lines self' rest code) as [[self'' later] code']. cbn [fst snd].
    rewrite <- app_assoc. reflexivity.
Qed.

Lemma read_lines_after (self : Self) (lines : list (Line * bool)) (code : Z) :
  _context_overflow self = true -> fired (effects_of (read_lines self lines code)) = [].
Proof.
  revert self. induction lines as [|[l running] rest IH]; intros self Hflag; [reflexivity|].
  rewrite read_lines_cons, !fired_app, fired_show.
  destruct (parse_after self l Hflag) as [F ->]. rewrite F. cbn [app fired List.filter].
  destruct running; cbn [andb]; [reflexivity | apply IH, F].
Qed.

Lemma read_lines_fires (self : Self) (pre : list (Line * bool)) (l : Line) (running : bool)
    (post : list (Line * bool)) (code n : Z) :
  below self ->
  (forall l' b m, In (l', b) pre -> reported_tokens l' = Some m ->
                  at_or_above_threshold m = false) ->
  reported_tokens l = Some n -> at_or_above_threshold n = true ->
  fired (effects_of (read_lines self (pre ++ (l, running) :: post) code))
  = [ThresholdReached n].
Proof.
  revert self. induction pre as [|[l' b] pre IH]; intros self Hbelow Hpre Hl Hn.
  - cbn [app]. rewrite read_lines_cons, !fired_app, fired_show.
    destruct (parse_fire self l n Hbelow Hl Hn) as [F ->]. rewrite F. cbn [andb].
    destruct running; [reflexivity|].
    rewrite (read_lines_after _ post code F). reflexivity.
  - cbn [app]. rewrite read_lines_cons, !fired_app, fired_show.
    destruct (parse_below self l' Hbelow) as [[F T] ->].
    { intros m Hm. apply (Hpre l' b m); [left; reflexivity | exact Hm]. }
    rewrite F. cbn [andb app fired List.filter]. apply IH; try assumption.
    + split; assumption.
    + intros l'' b' m Hin. apply (Hpre l'' b' m). right. exact Hin.
Qed.

Lemma read_lines_at_most_once (self : Self) (lines : list (Line * bool)) (code : Z) :
  (guard_fired (effects_of (read_lines self lines code)) <= 1)%nat.
Proof.
  revert self. induction lines as [|[l running] rest IH]; intros self; [cbn; lia|].
  unfold guard_fired. fold (fired (effects_of (read_lines self ((l, running) :: rest) code))).
  rewrite read_lines_cons, !fired_app, fired_show. cbn [app].
  destruct (parse_cases self l) as [(self' & shown & -> & H1 & _ & _)|(event & -> & -> & _)].
  - cbn [fst snd app fired List.filter]. destruct (_context_overflow self' && running).
    + cbn. lia.
    + apply IH.
  - cbn [fst snd]. destruct (record_usage_spec self (usage event)) as (_ & F & ->).
    destruct (at_or_above_threshold _ && negb (_context_overflow self)) eqn:E.
    + apply andb_true_iff in E as [E1 E2]. rewrite E1, orb_true_r in F. rewrite F.
      destruct running; cbn [andb]; [cbn; lia|].
      rewrite length_app, (read_lines_after _ rest code F). cbn. lia.
    + cbn [app fired List.filter]. destruct (_ && running); [cbn; lia | apply IH].
Qed.

Lemma saved_show (shown : option (string * string)) :
  List.filter is_checkpoint_saved (show shown) = [].
Proof.
  destruct shown as [[d e]|]; cbn; [|reflexivity].
  destruct (String.eqb d ""); reflexivity.
Qed.

Lemma saved_announced (self : Self) (l : Line) :
  List.filter is_checkpoint_saved (snd (_parse_stream_event self l)) = [].
Proof.
  destruct (parse_cases self l) as [(self' & shown & -> & _)|(event & -> & -> & _)];
    [reflexivity|].
  cbn [snd]. destruct (record_usage_spec self (usage event)) as (_ & _ & ->).
  destruct (_ && _); reflexivity.
Qed.

Lemma read_lines_saves_at_most_once (self : Self) (lines : list (Line * bool)) (code : Z) :
  (checkpoints_saved (effects_of (read_lines self lines code)) <= 1)%nat.
Proof.
  revert self. induction lines as [|[l running] rest IH]; intros self; [cbn; lia|].
  unfold checkpoints_saved. rewrite read_lines_cons, !List.filter_app.
  rewrite saved_announced, saved_show. cbn [app].
  destruct (_ && running); [cbn; lia | apply IH].
Qed.

Lemma below_reset : below reset.
Proof. split; [reflexivity | cbn; lia]. Qed.

Example guard_session_trace :
  _run_claude_max reset
    [(Ex.usage_report 100000, true); (Ex.usage_report 140000, true);
     (Ex.usage_report 150000, true)] 0
  = (mkSelf (mkMetrics 140000 0 0 0 0 (inject_Z 140000 / inject_Z 200000)%Q) true
            (inject_Z 140000 / inject_Z 200000)%Q,
     [ThresholdReached 140000; ContextCheckpointSaved; WorkerTerminated], 0).
Proof. vm_compute. reflexivity. Qed.

End GuardFacts.

(** ** Verification engine *)

Module VerifyFacts.
Import SessionLoop Obs TaskFacts CheckpointFacts.

Lemma load_ready (w : World) :
  readable (checkpoint_file w) = true ->
  exists w1, CheckpointManager.load w = (Return (loaded_checkpoint w), w1)
    /\ checkpoint_file w1 = checkpoint_file w
    /\ tasks_file w1 = tasks_file w
    /\ tasks_writes w1 = tasks_writes w
    /\ checkpoints_dir w1 = checkpoints_dir w.
Proof.
  intros Hr. unfold loaded_checkpoint.
  destruct (checkpoint_file w) as [|e|cp] eqn:E.
  - eexists. split; [apply load_initial; rewrite E; reflexivity|].
    cbn. rewrite E. repeat split.
  - eexists. split; [apply load_initial; rewrite E;
                     destruct e; try discriminate; reflexivity|].
    cbn. rewrite E. repeat split.
  - exists w. split; [apply load_holds, E|]. rewrite E. repeat split.
Qed.

Lemma criteria_appends (check_criteria : string -> Validator.ValidationReport)
    (done_tasks : list Tasks.Task) (blocking : list Issue) :
  exists extra,
    fold_left (check_task_criteria check_criteria) done_tasks blocking = blocking ++ extra
    /\ Forall (fun i => later_source (source i) = true) extra.
Proof.
  revert blocking. induction done_tasks as [|t r IH]; intros blocking; cbn [fold_left].
  - exists []. split; [symmetry; apply app_nil_r | constructor].
  - assert (exists e, check_task_criteria check_criteria blocking t = blocking ++ e
                      /\ Forall (fun i => later_source (source i) = true) e) as (e & -> & He).
    { unfold check_task_criteria. destruct (Tasks.success_criteria t) as [c|].
      - destruct (String.eqb c "");
          [exists []; split; [symmetry; apply app_nil_r | constructor]|].
        destruct (Validator.is_fail _).
        + eexists. split; [reflexivity|]. repeat constructor.
        + exists []. split; [symmetry; apply app_nil_r | constructor].
      - exists []. split; [symmetry; apply app_nil_r | constructor]. }
    destruct (IH (blocking ++ e)) as (extra & -> & Hextra).
    exists (e ++ extra). split; [symmetry; apply app_assoc|].
    apply Forall_app. split; assumption.
Qed.

Section Checks.
Variable baseline : option (gmap string BaselineEntry).

Lemma classify_report_cases (acc : list Issue * list Issue)
    (entry : string * Validator.ValidationReport) :
  (classify_report baseline acc entry = acc
   /\ Validator.is_fail (Validator.result (snd entry)) = false)
  \/ (exists wn, classify_report baseline acc entry = (fst acc, snd acc ++ [wn])
        /\ Validator.is_fail (Validator.result (snd entry)) = true
        /\ ((_is_new_issue baseline (fst entry) = false
             /\ wn = mkIssue (PreExisting (fst entry))
                       (fst entry +:+ ": " +:+ Validator.message (snd entry)
                        +:+ " (pre-existing, skipped)"))
            \/ (_is_new_issue baseline (fst entry) = true
                /\ bool_decide (fst entry ∈ BLOCKING_CHECKS) = false
                /\ wn = mkIssue (CheckWarning (fst entry))
                          (fst entry +:+ ": " +:+ Validator.message (snd entry)))))
  \/ (exists more, classify_report baseline acc entry
                   = (fst acc ++ mkIssue (CheckFailed (fst entry))
                                   (fst entry +:+ ": " +:+ Validator.message (snd entry))
                                 :: more, snd acc)
        /\ Validator.is_fail (Validator.result (snd entry)) = true
        /\ _is_new_issue baseline (fst entry) = true
        /\ Forall (fun i => source i = CheckDetails (fst entry)) more).
Proof.
  destruct acc as [B W], entry as [name report]. unfold classify_report. cbn [fst snd].
  destruct (Validator.is_fail (Validator.result report)); cbn [negb]; [|left; split; reflexivity].
  destruct (_is_new_issue baseline name); cbn [negb].
  - destruct (bool_decide (name ∈ BLOCKING_CHECKS)) eqn:Eb.
    + right. right. eexists. split; [reflexivity|]. split; [reflexivity|]. split; [reflexivity|].
      destruct (Validator.details report) as [d|]; [|constructor].
      destruct (String.eqb d ""); repeat constructor.
    + right. left. eexists. split; [reflexivity|]. split; [reflexivity|].
      right. repeat split.
  - right. left. eexists. split; [reflexivity|]. split; [reflexivity|].
    left. split; reflexivity.
Qed.

Lemma from_checks_spec (vr : list (string * Validator.ValidationReport))
    (acc : list Issue * list Issue) :
  let out := fold_left (classify_report baseline) vr acc in
  (forall i, In i (fst out) -> In i (fst acc) \/ blocking_origin baseline vr i)
  /\ (forall i, In i (snd out) -> In i (snd acc) \/ warning_source (source i) = true)
  /\ (forall i, In i (fst acc) -> In i (fst out))
  /\ (forall i, In i (snd acc) -> In i (snd out))
  /\ (forall name report, In (name, report) vr ->
        Validator.is_fail (Validator.result report) = true ->
        if _is_new_issue baseline name
        then bool_decide (name ∈ BLOCKING_CHECKS) = true ->
             In (mkIssue (CheckFailed name) (name +:+ ": " +:+ Validator.message report))
                (fst out)
        else In (mkIssue (PreExisting name)
                   (name +:+ ": " +:+ Validator.message report
                    +:+ " (pre-existing, skipped)")) (snd out)).
Proof.
  revert acc. induction vr as [|entry rest IH]; intros acc; cbn [fold_left].
  - repeat split; try tauto. intros name report [].
  - destruct (IH (classify_report baseline acc entry)) as (I1 & I2 & I3 & I4 & I5).
    assert (Hwiden : forall i, blocking_origin baseline rest i -> blocking_origin baseline (entry :: rest) i).
    { intros i (n & r & Hin & H). exists n, r. split; [right; exact Hin | exact H]. }
    destruct (classify_report_cases acc entry)
      as [[E F]|[(wn & E & F & Hwn)|(more & E & F & N & Hmore)]]; rewrite E in *; cbn [fst snd] in *.
    + repeat split.
      * intros i Hi. destruct (I1 i Hi) as [H|H]; [left; exact H | right; apply Hwiden, H].
      * exact I2.
      * exact I3.
      * exact I4.
      * intros name report [Heq|Hin] Hfail; [subst entry; cbn in F; congruence|]. apply (I5 name report Hin Hfail).
    + repeat split.
      * intros i Hi. destruct (I1 i Hi) as [H|H]; [left; exact H | right; apply Hwiden, H].
      * intros i Hi. destruct (I2 i Hi) as [H|H]; [|right; exact H].
        apply in_app_iff in H as [H|[<-|[]]]; [left; exact H | right].
        destruct Hwn as [[_ ->]|[_ [_ ->]]]; reflexivity.
      * exact I3.
      * intros i Hi. apply I4, in_app_iff. left. exact Hi.
      * intros name report [Heq|Hin] Hfail; [subst entry|apply (I5 name report Hin Hfail)].
        cbn [fst snd] in Hwn. destruct Hwn as [[-> ->]|[-> [Hb ->]]].
        -- apply I4, in_app_iff. right. left. reflexivity.
        -- intros Hb'. congruence.
    + repeat split.
      * intros i Hi. destruct (I1 i Hi) as [H|H]; [|right; apply Hwiden, H].
        apply in_app_iff in H as [H|[<-|H]]; [left; exact H | right | right].
        -- exists (fst entry), (snd entry). split; [left; destruct entry; reflexivity|].
           repeat split; try assumption. left. reflexivity.
        -- exists (fst entry), (snd entry). split; [left; destruct entry; reflexivity|].
           repeat split; try assumption. right.
           rewrite List.Forall_forall in Hmore. apply Hmore, H.
      * exact I2.
      * intros i Hi. apply I3, in_app_iff. left. exact Hi.
      * exact I4.
      * intros name report [Heq|Hin] Hfail; [subst entry|apply (I5 name report Hin Hfail)].
        cbn [fst snd] in N. rewrite N. intros _. apply I3, in_app_iff. right. left. reflexivity.
Qed.

End Checks.

Section Verify.
Variable baseline : option (gmap string BaselineEntry).
Variable val_results : list (string * Validator.ValidationReport).
Variable exists_on_disk : string -> bool.
Variable check_criteria : string -> Validator.ValidationReport.

Lemma check_files_modified_returns (cp : gmap string json) (B : list Issue) (w : World) :
  files_ok cp = true ->
  exists e, check_files_modified exists_on_disk cp B w = (Return (B ++ e), w)
            /\ Forall (fun i => later_source (source i) = true) e.
Proof.
  intros Hfiles. unfold files_ok in Hfiles. unfold check_files_modified.
  destruct (truthy (default (JList []) (cp !! "files_modified"))); cbn in Hfiles.
  - destruct (paths_of (default (JList []) (cp !! "files_modified"))) as [paths|];
      [|discriminate].
    destruct (Validator.is_fail _).
    + eexists. split; [reflexivity|]. repeat constructor.
    + exists []. rewrite app_nil_r. split; [reflexivity | constructor].
  - exists []. rewrite app_nil_r. split; [reflexivity | constructor].
Qed.

Lemma check_all_done_returns (cp : gmap string json) (B : list Issue) (w : World) :
  readable (tasks_file w) = true ->
  exists e w', check_all_done cp B w = (Return (B ++ e), w')
               /\ Forall (fun i => later_source (source i) = true) e
               /\ (w' = w \/ w' = after_load w).
Proof.
  intros Hr. unfold check_all_done. destruct (eq_str (cp !! "status") "COMPLETED").
  - unfold TaskManager.get_progress. cbv [mbind M_bind mret M_ret].
    rewrite (get_tasks_all w Hr). cbn [fst snd].
    destruct (Nat.ltb _ _).
    + eexists _, _. split; [reflexivity|]. split; [repeat constructor | right; reflexivity].
    + exists [], (after_load w). rewrite app_nil_r. split; [reflexivity|].
      split; [constructor | right; reflexivity].
  - exists [], w. rewrite app_nil_r. split; [reflexivity|]. split; [constructor | left; reflexivity].
Qed.

Lemma verify_returns (w : World) :
  ready w = true ->
  exists extra lv rc w',
    _verify_session baseline val_results exists_on_disk check_criteria w
    = (Return (conclude val_results (fst (from_checks baseline val_results) ++ extra) (snd (from_checks baseline val_results)) rc), w')
    /\ Forall (fun i => later_source (source i) = true) extra
    /\ last_verification_of (loaded_checkpoint w) = Return lv
    /\ next_retry_count (prev_retry lv) (fst (from_checks baseline val_results) ++ extra) = Return rc
    /\ checkpoint_file w' = checkpoint_file w
    /\ checkpoints_dir w' = checkpoints_dir w
    /\ readable (tasks_file w') = true.
Proof.
  intros Hready. unfold ready in Hready.
  apply andb_true_iff in Hready as [Hready Hretry].
  apply andb_true_iff in Hready as [Hready Hfiles].
  apply andb_true_iff in Hready as [Hcp Htasks].
  destruct (load_ready w Hcp) as (w1 & Hload & Hcp1 & Htf1 & _ & Hdir1).
  set (cp := loaded_checkpoint w) in *.
  unfold _verify_session. fold (from_checks baseline val_results).
  destruct (from_checks baseline val_results) as [B0 W0] eqn:EB. cbn [fst snd].
  cbv [mbind M_bind]. rewrite Hload.
  destruct (check_files_modified_returns cp B0 w1 Hfiles) as (e1 & -> & He1).
  assert (readable (tasks_file w1) = true) as Htr1 by (rewrite Htf1; exact Htasks).
  rewrite (get_tasks_status "done" w1 Htr1) by discriminate.
  destruct (criteria_appends check_criteria (with_status "done" (listed w1)) (B0 ++ e1))
    as (e2 & -> & He2).
  pose proof (after_load_checkpoint w1) as (Hcp2 & Hdir2).
  pose proof (readable_after_load w1 Htr1) as Htr2.
  destruct (check_all_done_returns cp ((B0 ++ e1) ++ e2) (after_load w1) Htr2)
    as (e3 & w3 & -> & He3 & Hw3).
  assert (w3 = after_load w1) as -> by (destruct Hw3 as [->| ->]; [reflexivity | apply after_load_idem]).
  unfold retry_ok in Hretry.
  destruct (last_verification_of cp) as [lv|]; [|discriminate].
  assert (exists rc, next_retry_count (prev_retry lv) (((B0 ++ e1) ++ e2) ++ e3) = Return rc)
    as (rc & Hrc).
  { unfold next_retry_count. destruct (((B0 ++ e1) ++ e2) ++ e3); [eexists; reflexivity|].
    destruct (prev_retry lv); try discriminate; eexists; reflexivity. }
  rewrite Hrc. exists (e1 ++ e2 ++ e3), lv, rc, (after_load w1).
  rewrite !app_assoc. split; [reflexivity|].
  split; [rewrite <- app_assoc; repeat (apply Forall_app; split); assumption|].
  split; [reflexivity|]. split; [exact Hrc|].
  split; [congruence|]. split; [congruence | exact Htr2].
Qed.

End Verify.

Lemma blocking_conclude vr B W rc : blocking_issues (conclude vr B W rc) = B.
Proof. reflexivity. Qed.

Lemma retry_conclude vr B W rc : retry_count (conclude vr B W rc) = rc.
Proof. reflexivity. Qed.

Lemma warnings_conclude vr B W rc :
  warnings (conclude vr B W rc)
  = if force_accepted (conclude vr B W rc) then W ++ [max_retries_notice] else W.
Proof. unfold conclude. cbn [warnings force_accepted]. reflexivity. Qed.

Lemma force_conclude vr B W rc :
  force_accepted (conclude vr B W rc)
  = match B with [] => false | _ => Z.leb MAX_VERIFY_RETRIES rc end.
Proof. reflexivity. Qed.

Lemma passed_conclude vr B W rc :
  passed (conclude vr B W rc)
  = match B with [] => true | _ => force_accepted (conclude vr B W rc) end.
Proof. unfold conclude. cbn [passed force_accepted]. destruct B; reflexivity. Qed.

Lemma is_new_issue_false (b : gmap string BaselineEntry) (name : string) (entry : BaselineEntry) :
  b !! name = Some entry -> Validator.is_fail (baseline_result entry) = true ->
  _is_new_issue (Some b) name = false.
Proof.
  intros Hb Hf. unfold _is_new_issue.
  destruct (Nat.eqb_spec (size b) 0) as [E|_].
  - apply map_size_empty_iff in E. rewrite E, lookup_empty in Hb. discriminate.
  - rewrite Hb, Hf. reflexivity.
Qed.

(** C2. When a check fails in the session's validation and the baseline
    recorded the check of that name as failing, the verification result has no
    blocking issue from that check (neither its line nor its details), and
    its warnings hold the line of the check marked "(pre-existing,
    skipped)". *)
Theorem preexisting_failure_never_blocks
    (b : gmap string BaselineEntry) (val_results : list (string * Validator.ValidationReport))
    (exists_on_disk : string -> bool) (check_criteria : string -> Validator.ValidationReport)
    (w : World) (name : string) (report : Validator.ValidationReport) (entry : BaselineEntry) :
  ready w = true ->
  In (name, report) val_results ->
  Validator.is_fail (Validator.result report) = true ->
  b !! name = Some entry ->
  Validator.is_fail (baseline_result entry) = true ->
  exists r w',
    _verify_session (Some b) val_results exists_on_disk check_criteria w = (Return r, w')
    /\ (forall i, In i (blocking_issues r) ->
          source i <> CheckFailed name /\ source i <> CheckDetails name)
    /\ In (mkIssue (PreExisting name)
             (name +:+ ": " +:+ Validator.message report +:+ " (pre-existing, skipped)"))
          (warnings r).
Proof.
  intros Hready Hin Hfail Hb Hbf.
  pose proof (is_new_issue_false b name entry Hb Hbf) as Hold.
  destruct (verify_returns (Some b) val_results exists_on_disk check_criteria w Hready)
    as (extra & lv & rc & w' & Hrun & Hextra & _).
  destruct (from_checks_spec (Some b) val_results ([], [])) as (I1 & _ & _ & _ & I5).
  fold (from_checks (Some b) val_results) in I1, I5.
  eexists _, _. split; [exact Hrun|]. split.
  - intros i Hi. rewrite blocking_conclude in Hi. apply in_app_iff in Hi as [Hi|Hi].
    + destruct (I1 i Hi) as [[]|(n & r & _ & _ & Hnew & Hsrc)].
      split; intros E; rewrite E in Hsrc; destruct Hsrc as [[= <-]|[= <-]]; congruence.
    + rewrite List.Forall_forall in Hextra. specialize (Hextra i Hi).
      split; intros E; rewrite E in Hextra; discriminate.
  - specialize (I5 name report Hin Hfail). rewrite Hold in I5.
    rewrite warnings_conclude. destruct (force_accepted _); [apply in_app_iff; left|]; exact I5.
Qed.

Lemma preexisting_failure_witness :
  exists r w',
    _verify_session (Some (_capture_baseline Ex.failing_lint_run)) Ex.failing_lint_run
      Ex.all_exist Ex.unverifiable Ex.session1 = (Return r, w')
    /\ (forall i, In i (blocking_issues r) ->
          source i <> CheckFailed "lint" /\ source i <> CheckDetails "lint")
    /\ In (mkIssue (PreExisting "lint")
             ("lint" +:+ ": " +:+ Validator.message Ex.lint_failed
              +:+ " (pre-existing, skipped)"))
          (warnings r).
Proof.
  apply (preexisting_failure_never_blocks (_capture_baseline Ex.failing_lint_run)
           Ex.failing_lint_run Ex.all_exist Ex.unverifiable Ex.session1
           "lint" Ex.lint_failed (mkBaseline Validator.FAIL "Lint issues: 3")).
  - vm_compute. reflexivity.
  - right. right. left. reflexivity.
  - reflexivity.
  - vm_compute. reflexivity.
  - reflexivity.
Defined.

(** A failure of the blocking check ["tests"] that the baseline already had
    leaves the session verified. *)
Example preexisting_tests_failure_passes :
  match fst (_verify_session (Some (_capture_baseline Ex.failing_tests_run))
               Ex.failing_tests_run Ex.all_exist Ex.unverifiable Ex.session1) with
  | Return r => (passed r, map line (blocking_issues r), map line (warnings r))
  | Raise _ => (false, [], [])
  end
  = (true, [], ["tests: Tests failed (pre-existing, skipped)"]).
Proof. vm_compute. reflexivity. Qed.

Lemma last_verification_of_loaded (w : World) :
  last_verification_of (loaded_checkpoint w)
  = match stored_last_verification w with
    | None => Return ∅
    | Some (JObj o) => Return o
    | Some _ => Raise AttributeError
    end.
Proof.
  unfold loaded_checkpoint, stored_last_verification, last_verification_of.
  destruct (checkpoint_file w); reflexivity.
Qed.

(** C4 (amended). The retry count of a verification result is zero when the
    attempt has no blocking issue. When it has one, the count is one more than
    the count read from the checkpoint's [last_verification], where that
    record counts only if it is marked as not passed: a record that is absent,
    or whose [passed] is missing or true, counts as zero whatever retry count
    it holds. *)
Theorem retry_counter_rule
    (baseline : option (gmap string BaselineEntry))
    (val_results : list (string * Validator.ValidationReport))
    (exists_on_disk : string -> bool) (check_criteria : string -> Validator.ValidationReport)
    (w : World) :
  ready w = true ->
  exists r w' last_ver,
    _verify_session baseline val_results exists_on_disk check_criteria w = (Return r, w')
    /\ last_verification_of (loaded_checkpoint w) = Return last_ver
    /\ (blocking_issues r = [] -> retry_count r = 0)
    /\ (blocking_issues r <> [] ->
        truthy (default (JBool true) (last_ver !! "passed")) = true ->
        retry_count r = 1)
    /\ (blocking_issues r <> [] ->
        truthy (default (JBool true) (last_ver !! "passed")) = false ->
        forall z, default (JInt 0) (last_ver !! "retry_count") = JInt z ->
                  retry_count r = z + 1).
Proof.
  intros Hready.
  destruct (verify_returns baseline val_results exists_on_disk check_criteria w Hready)
    as (extra & lv & rc & w' & Hrun & _ & Hlv & Hrc & _).
  eexists _, _, lv. split; [exact Hrun|]. split; [exact Hlv|].
  rewrite blocking_conclude, retry_conclude. unfold next_retry_count, prev_retry in Hrc.
  destruct (fst (from_checks baseline val_results) ++ extra) as [|i B]; repeat split.
  - intros _. congruence.
  - congruence.
  - congruence.
  - congruence.
  - intros _ Hp. rewrite Hp in Hrc. cbn -[Z.add] in Hrc. injection Hrc as <-. reflexivity.
  - intros _ Hp z Hz. rewrite Hp, Hz in Hrc. cbn -[Z.add] in Hrc. injection Hrc as <-. reflexivity.
Qed.

Lemma retry_counter_witness :
  exists r w' last_ver,
    _verify_session None Ex.failing_tests_run Ex.all_exist Ex.unverifiable Ex.session2
    = (Return r, w')
    /\ last_verification_of (loaded_checkpoint Ex.session2) = Return last_ver
    /\ (blocking_issues r = [] -> retry_count r = 0)
    /\ (blocking_issues r <> [] ->
        truthy (default (JBool true) (last_ver !! "passed")) = true ->
        retry_count r = 1)
    /\ (blocking_issues r <> [] ->
        truthy (default (JBool true) (last_ver !! "passed")) = false ->
        forall z, default (JInt 0) (last_ver !! "retry_count") = JInt z ->
                  retry_count r = z + 1).
Proof.
  apply (retry_counter_rule None Ex.failing_tests_run Ex.all_exist Ex.unverifiable
           Ex.session2).
  vm_compute. reflexivity.
Defined.

(** The claim as stated fails: the checkpoint records a retry count of 2 in a
    verification marked as passed, the attempt has a blocking issue, and the
    new count is 1, not 3. *)
Lemma passed_record_restarts_the_count :
  exists r w',
    _verify_session None Ex.failing_tests_run Ex.all_exist Ex.unverifiable
      Ex.passed_record_world = (Return r, w')
    /\ stored_last_verification Ex.passed_record_world
       = Some (JObj (<["passed" := JBool true]> (<["retry_count" := JInt 2]> ∅)))
    /\ blocking_issues r <> []
    /\ retry_count r = 1
    /\ retry_count r <> 2 + 1.
Proof.
  eexists _, _. split; [vm_compute; reflexivity|].
  split; [reflexivity|]. split; [discriminate|]. split; [reflexivity | discriminate].
Qed.

Lemma prev_retry_failed_verification (r : VerificationResult) (cp : gmap string json) :
  prev_retry (failed_verification r cp) = JInt (retry_count r).
Proof.
  unfold prev_retry, failed_verification.
  rewrite lookup_insert_eq. cbn [default truthy negb].
  do 3 (rewrite lookup_insert_ne by discriminate). rewrite lookup_insert_eq. reflexivity.
Qed.

Lemma prev_retry_loaded (w : World) (lv : gmap string json) :
  last_verification_of (loaded_checkpoint w) = Return lv ->
  prev_retry lv = previous_retry_count w.
Proof.
  rewrite last_verification_of_loaded. unfold previous_retry_count.
  destruct (stored_last_verification w) as [[| | | | |o]|]; try discriminate.
  - intros [= <-]. reflexivity.
  - intros [= <-]. reflexivity.
Qed.

Section Evaluation.
Variable baseline : option (gmap string BaselineEntry).
Variable val_results : list (string * Validator.ValidationReport).
Variable exists_on_disk : string -> bool.
Variable check_criteria : string -> Validator.ValidationReport.

Lemma verify_facts (w : World) :
  ready w = true ->
  exists r w1,
    _verify_session baseline val_results exists_on_disk check_criteria w = (Return r, w1)
    /\ checkpoint_file w1 = checkpoint_file w
    /\ (forall i, In i (blocking_issues r) -> warning_source (source i) = false)
    /\ (forall i, In i (warnings r) -> warning_source (source i) = true)
    /\ force_accepted r
       = match blocking_issues r with [] => false | _ => Z.leb 3 (retry_count r) end
    /\ passed r = match blocking_issues r with [] => true | _ => force_accepted r end
    /\ (force_accepted r = true -> exists W, warnings r = W ++ [max_retries_notice])
    /\ (blocking_issues r <> [] ->
        forall z, previous_retry_count w = JInt z -> retry_count r = z + 1)
    /\ (new_tests_failure baseline val_results ->
        exists i, In i (blocking_issues r) /\ source i = CheckFailed "tests").
Proof.
  intros Hready.
  destruct (verify_returns baseline val_results exists_on_disk check_criteria w Hready)
    as (extra & lv & rc & w1 & Hrun & Hextra & Hlv & Hrc & Hcp & _).
  destruct (from_checks_spec baseline val_results ([], [])) as (I1 & I2 & _ & _ & I5).
  fold (from_checks baseline val_results) in I1, I2, I5.
  eexists _, _. split; [exact Hrun|]. split; [exact Hcp|].
  rewrite blocking_conclude, retry_conclude, passed_conclude.
  split; [|split; [|split; [|split; [|split; [|split]]]]].
  - intros i Hi. apply in_app_iff in Hi as [Hi|Hi].
    + destruct (I1 i Hi) as [[]|(n & r & _ & _ & _ & [-> | ->])]; reflexivity.
    + rewrite List.Forall_forall in Hextra. specialize (Hextra i Hi).
      destruct (source i); try discriminate; reflexivity.
  - intros i Hi. rewrite warnings_conclude in Hi.
    assert (In i (snd (from_checks baseline val_results)) -> warning_source (source i) = true)
      as Hw by (intros H; destruct (I2 i H) as [[]|H']; exact H').
    destruct (force_accepted _); [|exact (Hw Hi)].
    apply in_app_iff in Hi as [Hi|[<-|[]]]; [exact (Hw Hi) | reflexivity].
  - apply force_conclude.
  - reflexivity.
  - intros Hf. rewrite warnings_conclude, Hf. eexists. reflexivity.
  - intros Hne z Hz. rewrite (prev_retry_loaded w lv Hlv), Hz in Hrc.
    unfold next_retry_count in Hrc.
    destruct (fst (from_checks baseline val_results) ++ extra); [congruence|].
    injection Hrc as <-. reflexivity.
  - intros (report & Hin & Hfail & Hnew). specialize (I5 "tests" report Hin Hfail).
    rewrite Hnew in I5. eexists. split; [apply in_app_iff; left; apply I5; reflexivity|].
    reflexivity.
Qed.

Lemma archive_name_record (cp : gmap string json) (v : json) :
  CheckpointManager.archive_name
    (<["last_verification" := v]> (<["status" := JStr "WORKING"]> cp))
  = CheckpointManager.archive_name cp.
Proof.
  unfold CheckpointManager.archive_name.
  do 2 (rewrite lookup_insert_ne by discriminate). reflexivity.
Qed.

Lemma evaluate_returns (w : World) :
  ready w = true -> recordable w = true ->
  exists r w1 w',
    _verify_session baseline val_results exists_on_disk check_criteria w = (Return r, w1)
    /\ verify_and_record baseline val_results exists_on_disk check_criteria w = (Return (r, claims_completed w && passed r), w')
    /\ (claims_completed w = true -> passed r = false ->
        exists cp, stored_last_verification w'
                   = Some (JObj (failed_verification r cp))).
Proof.
  intros Hready Hsession. destruct (verify_facts w Hready) as (r & w1 & Hrun & Hcp & _).
  exists r, w1. unfold verify_and_record. cbv [mbind M_bind]. rewrite Hrun.
  unfold CheckpointManager.is_completed. cbv [mbind M_bind mret M_ret].
  unfold ready in Hready.
  apply andb_true_iff in Hready as [Hready _]. apply andb_true_iff in Hready as [Hready _].
  apply andb_true_iff in Hready as [Hrcp _].
  unfold claims_completed, recordable, session_ok, loaded_checkpoint in *.
  destruct (checkpoint_file w) as [|e|cp] eqn:E.
  - rewrite (load_initial w1) by (rewrite Hcp; reflexivity).
    eexists. split; [reflexivity|]. split; [reflexivity | discriminate].
  - rewrite (load_initial w1)
      by (rewrite Hcp; destruct e; try discriminate; reflexivity).
    eexists. split; [reflexivity|]. split; [reflexivity | discriminate].
  - rewrite (load_holds cp w1 Hcp).
    destruct (eq_str (cp !! "status") "COMPLETED"); cbn [andb];
      [|eexists; split; [reflexivity|]; split; [reflexivity | discriminate]].
    destruct (passed r);
      [eexists; split; [reflexivity|]; split; [reflexivity | discriminate]|].
    rewrite (load_holds cp w1 Hcp).
    destruct (CheckpointManager.archive_name cp) as [name|] eqn:Hname; [|discriminate].
    rewrite (save_returns _ w1 name) by (rewrite archive_name_record; exact Hname).
    eexists. split; [reflexivity|]. split; [reflexivity|].
    intros _ _. eexists. unfold stored_last_verification. cbn [checkpoint_file].
    rewrite lookup_insert_ne by discriminate. apply lookup_insert_eq.
Qed.

Lemma evaluation_step (w : World) (z : Z) :
  ready w = true -> recordable w = true ->
  new_tests_failure baseline val_results ->
  previous_retry_count w = JInt z ->
  exists r w',
    verify_and_record baseline val_results exists_on_disk check_criteria w = (Return (r, claims_completed w && passed r), w')
    /\ retry_count r = z + 1
    /\ force_accepted r = Z.leb 3 (z + 1)
    /\ passed r = Z.leb 3 (z + 1)
    /\ (exists i, In i (blocking_issues r) /\ source i = CheckFailed "tests")
    /\ (forall i, In i (blocking_issues r) -> warning_source (source i) = false)
    /\ (forall i, In i (warnings r) -> warning_source (source i) = true)
    /\ (force_accepted r = true -> exists W, warnings r = W ++ [max_retries_notice])
    /\ (claims_completed w = true -> passed r = false ->
        previous_retry_count w' = JInt (z + 1)).
Proof.
  intros Hready Hrecordable Htests Hprev.
  destruct (evaluate_returns w Hready Hrecordable) as (r & w1 & w' & Hrun & Heval & Hrec).
  destruct (verify_facts w Hready)
    as (r' & w1' & Hrun' & _ & Hb & Hw & Hf & Hp & Hn & Hrc & Ht).
  rewrite Hrun in Hrun'. injection Hrun' as <- <-.
  destruct (Ht Htests) as (i & Hi & Hsrc).
  assert (blocking_issues r <> []) as Hne by (intros E; rewrite E in Hi; exact Hi).
  specialize (Hrc Hne z Hprev).
  assert (force_accepted r = Z.leb 3 (z + 1)) as Hf'
    by (rewrite Hf, Hrc; destruct (blocking_issues r); [congruence | reflexivity]).
  assert (passed r = Z.leb 3 (z + 1)) as Hp'
    by (rewrite Hp, Hf'; destruct (blocking_issues r); [congruence | reflexivity]).
  exists r, w'. repeat split; try assumption.
  - exists i. split; assumption.
  - intros Hc Hnp. destruct (Hrec Hc Hnp) as (cp & Hcp).
    unfold previous_retry_count. rewrite Hcp, prev_retry_failed_verification, Hrc. reflexivity.
Qed.

End Evaluation.

(** C1 (amended). A verification that finds blocking issues with the retry
    count at the cap of 3 or beyond has [force_accepted] and [passed] true,
    and its warnings end with the notice "MAX RETRIES (3) reached"; the
    blocking issues stay in [blocking_issues], and no warning ever comes from
    a blocking source. In particular, take three evaluations that each find a
    new failure of the ["tests"] check, the first starting from a retry count
    of zero, the first two on a checkpoint that claims COMPLETED, with the
    recorded [last_verification] left as it was between one evaluation and the
    next: the third has retry count 3, [force_accepted] and [passed] true, the
    tests failure among its blocking issues and not among its warnings. *)
Theorem force_accept_at_cap :
  (forall (baseline : option (gmap string BaselineEntry))
          (val_results : list (string * Validator.ValidationReport))
          (exists_on_disk : string -> bool)
          (check_criteria : string -> Validator.ValidationReport) (w : World),
     ready w = true ->
     exists r w',
       _verify_session baseline val_results exists_on_disk check_criteria w = (Return r, w')
       /\ (blocking_issues r <> [] -> 3 <= retry_count r ->
           force_accepted r = true /\ passed r = true
           /\ exists W, warnings r = W ++ [max_retries_notice])
       /\ (forall i, In i (blocking_issues r) -> warning_source (source i) = false)
       /\ (forall i, In i (warnings r) -> warning_source (source i) = true))
  /\
  (forall (baseline : option (gmap string BaselineEntry))
          (vr1 vr2 vr3 : list (string * Validator.ValidationReport))
          (ex1 ex2 ex3 : string -> bool)
          (cc1 cc2 cc3 : string -> Validator.ValidationReport) (w1 w2 w3 : World),
     ready w1 = true -> ready w2 = true -> ready w3 = true ->
     recordable w1 = true -> recordable w2 = true -> recordable w3 = true ->
     new_tests_failure baseline vr1 ->
     new_tests_failure baseline vr2 ->
     new_tests_failure baseline vr3 ->
     previous_retry_count w1 = JInt 0 ->
     claims_completed w1 = true -> claims_completed w2 = true ->
     stored_last_verification w2
     = stored_last_verification (snd (verify_and_record baseline vr1 ex1 cc1 w1)) ->
     stored_last_verification w3
     = stored_last_verification (snd (verify_and_record baseline vr2 ex2 cc2 w2)) ->
     exists r3 finished w3',
       verify_and_record baseline vr3 ex3 cc3 w3 = (Return (r3, finished), w3')
       /\ retry_count r3 = 3
       /\ force_accepted r3 = true /\ passed r3 = true
       /\ (exists i, In i (blocking_issues r3) /\ source i = CheckFailed "tests")
       /\ (forall i, In i (warnings r3) -> source i <> CheckFailed "tests")
       /\ (exists W, warnings r3 = W ++ [max_retries_notice])).
Proof.
  split.
  - intros baseline val_results exists_on_disk check_criteria w Hready.
    destruct (verify_facts baseline val_results exists_on_disk check_criteria w Hready)
      as (r & w' & Hrun & _ & Hb & Hw & Hf & Hp & Hn & _).
    exists r, w'. split; [exact Hrun|]. split; [|split; assumption].
    intros Hne Hcap.
    assert (force_accepted r = true) as Hforce.
    { rewrite Hf. destruct (blocking_issues r); [congruence|]. apply Z.leb_le, Hcap. }
    split; [exact Hforce|]. split; [|apply Hn, Hforce].
    rewrite Hp. destruct (blocking_issues r); [reflexivity | exact Hforce].
  - intros baseline vr1 vr2 vr3 ex1 ex2 ex3 cc1 cc2 cc3 w1 w2 w3
           R1 R2 R3 S1 S2 S3 T1 T2 T3 Hfresh C1 C2 L12 L23.
    assert (Hlink : forall w w', stored_last_verification w = stored_last_verification w' ->
                                 previous_retry_count w = previous_retry_count w')
      by (intros w w' H; unfold previous_retry_count; rewrite H; reflexivity).
    destruct (evaluation_step baseline vr1 ex1 cc1 w1 0 R1 S1 T1 Hfresh)
      as (r1 & w1' & E1 & _ & _ & P1 & _ & _ & _ & _ & N1).
    rewrite E1 in L12. cbn [snd] in L12.
    pose proof (N1 C1 P1) as Hprev2. rewrite <- (Hlink _ _ L12) in Hprev2.
    destruct (evaluation_step baseline vr2 ex2 cc2 w2 1 R2 S2 T2 Hprev2)
      as (r2 & w2' & E2 & _ & _ & P2 & _ & _ & _ & _ & N2).
    rewrite E2 in L23. cbn [snd] in L23.
    pose proof (N2 C2 P2) as Hprev3. rewrite <- (Hlink _ _ L23) in Hprev3.
    destruct (evaluation_step baseline vr3 ex3 cc3 w3 2 R3 S3 T3 Hprev3)
      as (r3 & w3' & E3 & Rc3 & F3 & P3 & B3 & _ & W3 & N3 & _).
    exists r3, (claims_completed w3 && passed r3), w3'.
    split; [exact E3|]. split; [exact Rc3|]. split; [exact F3|]. split; [exact P3|].
    split; [exact B3|]. split; [|apply N3, F3].
    intros i Hi E. specialize (W3 i Hi). rewrite E in W3. discriminate.
Qed.

Lemma force_accept_at_cap_witness :
  exists r3 finished w3',
    verify_and_record None Ex.failing_tests_run Ex.all_exist Ex.unverifiable Ex.session3
    = (Return (r3, finished), w3')
    /\ retry_count r3 = 3
    /\ force_accepted r3 = true /\ passed r3 = true
    /\ (exists i, In i (blocking_issues r3) /\ source i = CheckFailed "tests")
    /\ (forall i, In i (warnings r3) -> source i <> CheckFailed "tests")
    /\ (exists W, warnings r3 = W ++ [max_retries_notice]).
Proof.
  apply (proj2 force_accept_at_cap None Ex.failing_tests_run Ex.failing_tests_run Ex.failing_tests_run
           Ex.all_exist Ex.all_exist Ex.all_exist Ex.unverifiable Ex.unverifiable Ex.unverifiable
           Ex.session1 Ex.session2 Ex.session3).
  - vm_compute. reflexivity.
  - vm_compute. reflexivity.
  - vm_compute. reflexivity.
  - vm_compute. reflexivity.
  - vm_compute. reflexivity.
  - vm_compute. reflexivity.
  - exists Ex.tests_failed. repeat split. right. left. reflexivity.
  - exists Ex.tests_failed. repeat split. right. left. reflexivity.
  - exists Ex.tests_failed. repeat split. right. left. reflexivity.
  - vm_compute. reflexivity.
  - vm_compute. reflexivity.
  - vm_compute. reflexivity.
  - vm_compute. reflexivity.
  - vm_compute. reflexivity.
Defined.

(** The claim as stated fails: on the third evaluation of three sessions that
    leave the tests failing, the result is force-accepted, but the failure is
    still the one blocking issue and the only warning is the notice. *)
Lemma force_accept_keeps_blocking_issues :
  exists r finished w',
    verify_and_record None Ex.failing_tests_run Ex.all_exist Ex.unverifiable Ex.session3
    = (Return (r, finished), w')
    /\ retry_count r = 3 /\ force_accepted r = true /\ passed r = true
    /\ map line (blocking_issues r) = ["tests: Tests failed"]
    /\ map line (warnings r) = ["MAX RETRIES (3) reached — accepting with issues"]
    /\ ~ (blocking_issues r = [] /\ In "tests: Tests failed" (map line (warnings r))).
Proof.
  eexists _, _, _. split; [vm_compute; reflexivity|].
  repeat split; try reflexivity. intros [H _]. discriminate H.
Qed.

(** The retry count is recorded only when a completion claim is rejected:
    without such claims every evaluation counts from zero. *)
Lemma no_force_accept_without_completion_claims :
  exists r finished w',
    verify_and_record None Ex.failing_tests_run Ex.all_exist Ex.unverifiable Ex.quiet3
    = (Return (r, finished), w')
    /\ retry_count r = 1 /\ force_accepted r = false /\ passed r = false.
Proof. eexists _, _, _. split; [vm_compute; reflexivity|]. repeat split. Qed.

End VerifyFacts.

(** * Further properties of the stores, the checks and the loop *)

Module StoreFacts.
Import Tasks TaskManager TaskSummary Obs TaskFacts NextTaskFacts AddFacts ReorderFacts.

Lemma after_load_clock (w : World) :
  isoformat_now (after_load w) = isoformat_now w /\ ticks (after_load w) = ticks w.
Proof.
  unfold after_load. destruct (tasks_file w) as [| |data]; try (split; reflexivity).
  destruct (needs_save (tasks data)); split; reflexivity.
Qed.

Lemma after_load_writes (w : World) :
  tasks_writes (after_load w) = tasks_writes w
  \/ tasks_writes (after_load w) = loaded w :: tasks_writes w.
Proof.
  unfold after_load. destruct (tasks_file w) as [| |data]; try (left; reflexivity).
  destruct (needs_save (tasks data)); [right|left]; reflexivity.
Qed.

(** A document whose priorities are all set is listed as it is stored and
    loading it writes nothing. *)
Lemma listed_stored (w : World) (data : TasksDoc) :
  tasks_file w = Holds data ->
  (forall t, In t (tasks data) -> priority t <> 0) ->
  listed w = tasks data /\ loaded w = data /\ after_load w = w.
Proof.
  intros E Hp. unfold listed, loaded. rewrite E.
  rewrite (migrate_id_nonzero _ Hp). repeat split.
  - destruct data; reflexivity.
  - apply (after_load_clean w data E). apply needs_save_false, Hp.
Qed.

Lemma listed_nonzero (w : World) (t : Task) : In t (listed w) -> priority t <> 0.
Proof.
  unfold listed. destruct (tasks_file w); try (intros []). apply migrate_nonzero.
Qed.

Lemma update_first_found (tid : string) (kwargs : list kwarg) (ts : list Task)
    (i : nat) (t : Task) :
  ts !! i = Some t -> id t = tid ->
  (forall j u, (j < i)%nat -> ts !! j = Some u -> id u <> tid) ->
  update_first tid kwargs ts
  = Some (<[i := update_fields t kwargs]> ts, update_fields t kwargs).
Proof.
  revert i. induction ts as [|u r IH]; intros i Hi Hid Hfirst; [discriminate|].
  destruct i as [|i]; simpl in Hi |- *.
  - injection Hi as ->. rewrite Hid, String.eqb_refl. reflexivity.
  - destruct (String.eqb_spec (id u) tid) as [E|_].
    + exfalso. apply (Hfirst 0%nat u); [lia | reflexivity | exact E].
    + rewrite (IH i Hi Hid); [reflexivity|].
      intros j v Hj Hv. apply (Hfirst (S j) v); [lia | exact Hv].
Qed.

Lemma update_task_returns (tid : string) (kwargs : list kwarg) (w : World)
    (i : nat) (t : Task) :
  readable (tasks_file w) = true ->
  listed w !! i = Some t -> id t = tid ->
  (forall j u, (j < i)%nat -> listed w !! j = Some u -> id u <> tid) ->
  let t' := update_fields t kwargs in
  let data := mkTasksDoc (raw_thoughts (loaded w)) (<[i := t']> (listed w))
                (next_id (loaded w)) in
  update_task tid kwargs w
  = (Return (Some t'),
     set_tasks_writes (data :: tasks_writes (after_load w))
       (set_tasks_file (Holds data) (after_load w))).
Proof.
  intros Hr Hi Hid Hfirst t' data. unfold update_task, mbind, M_bind.
  rewrite (_load_data_returns w Hr), tasks_loaded.
  rewrite (update_first_found tid kwargs (listed w) i t Hi Hid Hfirst). reflexivity.
Qed.

Lemma get_progress_returns (w : World) :
  readable (tasks_file w) = true ->
  get_progress w
  = (Return (length (with_status "done" (listed w)), length (listed w)), after_load w).
Proof.
  intros Hr. unfold get_progress, mbind, M_bind. rewrite (get_tasks_all w Hr). reflexivity.
Qed.

Lemma filter_length_le {A : Type} (f : A -> bool) (l : list A) :
  (length (List.filter f l) <= length l)%nat.
Proof. induction l as [|x r IH]; cbn; [lia|]. destruct (f x); cbn; lia. Qed.

Lemma filter_insert_gain {A : Type} (f : A -> bool) (l : list A) (i : nat) (x y : A) :
  l !! i = Some x -> f x = false -> f y = true ->
  length (List.filter f (<[i := y]> l)) = S (length (List.filter f l)).
Proof.
  revert i. induction l as [|z r IH]; intros i Hi Hx Hy; [discriminate|].
  destruct i as [|i]; simpl in Hi |- *.
  - injection Hi as ->. rewrite Hx, Hy. reflexivity.
  - specialize (IH i Hi Hx Hy). destruct (f z); simpl; rewrite IH; reflexivity.
Qed.

Lemma in_insert {A : Type} (l : list A) (i : nat) (x y u : A) :
  l !! i = Some x -> In u (<[i := y]> l) -> u = y \/ In u l.
Proof.
  revert i. induction l as [|z r IH]; intros i Hi Hu; [discriminate|].
  destruct i as [|i]; simpl in Hi, Hu.
  - destruct Hu as [<-|Hu]; [left; reflexivity | right; right; exact Hu].
  - destruct Hu as [<-|Hu]; [right; left; reflexivity|].
    destruct (IH i Hi Hu) as [->|H]; [left; reflexivity | right; right; exact H].
Qed.

Lemma lookup_In {A : Type} (l : list A) (i : nat) (x : A) : l !! i = Some x -> In x l.
Proof. intros H. apply list_elem_of_In. eapply list_elem_of_lookup_2, H. Qed.

Lemma status_migrate (ts : list Task) : map status (migrate ts) = map status ts.
Proof.
  apply list_eq. intros i.
  change (map status) with (fmap (M := list) status).
  rewrite !list_lookup_fmap, migrate_lookup.
  destruct (ts !! i) as [t|]; [|reflexivity].
  cbn. destruct (Z.eqb (priority t) 0); reflexivity.
Qed.

Lemma count_by_status (s : string) (l l' : list Task) :
  map status l = map status l' ->
  length (with_status s l) = length (with_status s l').
Proof.
  unfold with_status.
  revert l'. induction l as [|t r IH]; intros [|t' r'] H; try discriminate; [reflexivity|].
  simpl in H. injection H as Ht Hr. simpl. rewrite Ht.
  destruct (String.eqb (status t') s); simpl; rewrite (IH r' Hr); reflexivity.
Qed.

End StoreFacts.

Module TaskUpdates.
Import Tasks TaskManager TaskSummary Obs StoreObs TaskFacts NextTaskFacts AddFacts
  ReorderFacts StoreFacts.

Lemma listed_set_ticks (n : nat) (w : World) :
  listed (set_ticks n w) = listed w /\ loaded (set_ticks n w) = loaded w.
Proof. split; reflexivity. Qed.

(** What a successful [update_task] leaves behind, when the update keeps the
    priority away from 0. *)
Lemma listed_after_update (w : World) (i : nat) (t t' : Task) (data : TasksDoc) (w' : World) :
  listed w !! i = Some t ->
  priority t' <> 0 ->
  tasks_file w' = Holds data ->
  tasks data = <[i := t']> (listed w) ->
  listed w' = <[i := t']> (listed w) /\ after_load w' = w'
  /\ readable (tasks_file w') = true.
Proof.
  intros Hi Hp E Ht.
  assert (Hnz : forall u, In u (tasks data) -> priority u <> 0).
  { intros u Hu. rewrite Ht in Hu. destruct (in_insert _ _ _ _ _ Hi Hu) as [->|Hin];
      [exact Hp | exact (listed_nonzero w u Hin)]. }
  destruct (listed_stored w' data E Hnz) as (Hl & _ & Ha).
  rewrite Hl, Ht, E. repeat split; assumption.
Qed.

(** X1. [update_task] on an id that is listed changes the first task with that
    id and no other: it returns that task with the given fields set, the stored
    list is the listing with this one position replaced, raw thoughts and the id
    counter are kept, the document is written once and the checkpoint is not
    touched. *)
Theorem update_task_replaces_first_match (tid : string) (kwargs : list kwarg) (w : World)
    (i : nat) (t : Task) :
  readable (tasks_file w) = true ->
  first_match tid (listed w) i t ->
  exists data w',
    update_task tid kwargs w = (Return (Some (update_fields t kwargs)), w')
    /\ tasks_file w' = Holds data
    /\ tasks data = <[i := update_fields t kwargs]> (listed w)
    /\ raw_thoughts data = raw_thoughts (loaded w)
    /\ next_id data = next_id (loaded w)
    /\ tasks_writes w' = data :: tasks_writes (snd (_load_data w))
    /\ checkpoint_file w' = checkpoint_file w
    /\ checkpoints_dir w' = checkpoints_dir w.
Proof.
  intros Hr (Hi & Hid & Hfirst). eexists _, _.
  split; [apply (update_task_returns tid kwargs w i t Hr Hi Hid Hfirst)|].
  rewrite (_load_data_returns w Hr).
  destruct (after_load_checkpoint w) as [Hc Hd].
  repeat split; cbn; assumption.
Qed.

Lemma update_task_replaces_first_match_witness :
  exists data w',
    update_task "task_002" [K_title "renamed"; K_priority 9] Ex.interrupted_world
    = (Return (Some (update_fields (Ex.task 2 "pending" 2) [K_title "renamed"; K_priority 9])),
       w')
    /\ tasks_file w' = Holds data
    /\ tasks data = <[1%nat := update_fields (Ex.task 2 "pending" 2)
                                 [K_title "renamed"; K_priority 9]]>
                      (listed Ex.interrupted_world)
    /\ raw_thoughts data = raw_thoughts (loaded Ex.interrupted_world)
    /\ next_id data = next_id (loaded Ex.interrupted_world)
    /\ tasks_writes w' = data :: tasks_writes (snd (_load_data Ex.interrupted_world))
    /\ checkpoint_file w' = checkpoint_file Ex.interrupted_world
    /\ checkpoints_dir w' = checkpoints_dir Ex.interrupted_world.
Proof.
  apply (update_task_replaces_first_match "task_002" _ Ex.interrupted_world 1
           (Ex.task 2 "pending" 2)).
  - reflexivity.
  - repeat split. intros j u Hj. assert (j = 0%nat) as -> by lia.
    intros [= <-]. discriminate.
Defined.

(** X2. [complete_task] on a listed task that is not done sets its status to
    ["done"] and its [completed_at] to the time of the call, changes no other
    field, and [get_progress] afterwards counts one more done task out of the
    same total. *)
Theorem complete_task_counts_once (tid : string) (w : World) (i : nat) (t : Task) :
  readable (tasks_file w) = true ->
  first_match tid (listed w) i t ->
  status t <> "done" ->
  exists d n t' w0 w1 w2,
    get_progress w = (Return (d, n), w0)
    /\ complete_task tid w = (Return (Some t'), w1)
    /\ status t' = "done"
    /\ completed_at t' = Some (isoformat_now w (ticks w))
    /\ update_fields t' [K_status (status t); K_completed_at (completed_at t)] = t
    /\ get_progress w1 = (Return (S d, n), w2)
    /\ (d < n)%nat.
Proof.
  intros Hr (Hi & Hid & Hfirst) Hs.
  set (stamp := isoformat_now w (ticks w)).
  set (wt := set_ticks (S (ticks w)) w).
  set (t' := update_fields t [K_status "done"; K_completed_at (Some stamp)]).
  assert (Hc : complete_task tid w
               = update_task tid [K_status "done"; K_completed_at (Some stamp)] wt)
    by reflexivity.
  pose proof (update_task_returns tid [K_status "done"; K_completed_at (Some stamp)] wt i t
                Hr Hi Hid Hfirst) as Hu.
  cbv zeta in Hu. fold t' in Hu.
  set (data := mkTasksDoc (raw_thoughts (loaded wt)) (<[i := t']> (listed wt))
                 (next_id (loaded wt))) in Hu.
  match type of Hu with _ = (_, ?w) => set (w1 := w) in * end.
  destruct (listed_after_update wt i t t' data w1 Hi
              (listed_nonzero w t (lookup_In _ _ _ Hi)) eq_refl eq_refl)
    as (Hl & Ha & Hr1).
  change (listed wt) with (listed w) in Hl.
  exists (length (with_status "done" (listed w))), (length (listed w)), t',
         (after_load w), w1, w1.
  split; [apply (get_progress_returns w Hr)|].
  split; [rewrite Hc; exact Hu|].
  split; [reflexivity|]. split; [reflexivity|].
  split; [destruct t; reflexivity|].
  assert (Hgain : length (with_status "done" (<[i := t']> (listed w)))
                  = S (length (with_status "done" (listed w)))).
  { apply (filter_insert_gain _ _ i t t' Hi); [|reflexivity].
    destruct (String.eqb_spec (status t) "done"); [contradiction | reflexivity]. }
  split.
  - rewrite (get_progress_returns w1 Hr1), Ha, Hl, Hgain.
    rewrite length_insert. reflexivity.
  - pose proof (filter_length_le (fun t => String.eqb (status t) "done")
                  (<[i := t']> (listed w))) as Hle.
    unfold with_status in Hgain |- *. rewrite Hgain, length_insert in Hle. lia.
Qed.

Lemma complete_task_witness :
  exists d n t' w0 w1 w2,
    get_progress Ex.interrupted_world = (Return (d, n), w0)
    /\ complete_task "task_003" Ex.interrupted_world = (Return (Some t'), w1)
    /\ status t' = "done"
    /\ completed_at t' = Some (Ex.clock 0)
    /\ update_fields t' [K_status "in_progress"; K_completed_at None]
       = Ex.task 3 "in_progress" 5
    /\ get_progress w1 = (Return (S d, n), w2)
    /\ (d < n)%nat.
Proof.
  apply (complete_task_counts_once "task_003" Ex.interrupted_world 2
           (Ex.task 3 "in_progress" 5)).
  - reflexivity.
  - repeat split. intros j u Hj.
    destruct j as [|[|j]]; [| |lia]; intros [= <-]; discriminate.
  - discriminate.
Defined.

(** X3. After [start_task] on a listed task, [get_next_task] returns a task in
    progress whose priority is at most that of the started task: a started
    task is never passed over for a pending one. *)
Theorem started_task_is_served_first (tid : string) (w : World) (i : nat) (t : Task) :
  readable (tasks_file w) = true ->
  first_match tid (listed w) i t ->
  exists t' w1 u w2,
    start_task tid w = (Return (Some t'), w1)
    /\ status t' = "in_progress"
    /\ get_next_task w1 = (Return (Some u), w2)
    /\ status u = "in_progress"
    /\ priority u <= priority t.
Proof.
  intros Hr (Hi & Hid & Hfirst).
  set (t' := update_fields t [K_status "in_progress"]).
  pose proof (update_task_returns tid [K_status "in_progress"] w i t Hr Hi Hid Hfirst) as Hu.
  cbv zeta in Hu. fold t' in Hu.
  set (data := mkTasksDoc (raw_thoughts (loaded w)) (<[i := t']> (listed w))
                 (next_id (loaded w))) in Hu.
  match type of Hu with _ = (_, ?w) => set (w1 := w) in * end.
  destruct (listed_after_update w i t t' data w1 Hi
              (listed_nonzero w t (lookup_In _ _ _ Hi)) eq_refl eq_refl)
    as (Hl & Ha & Hr1).
  assert (Hin : In t' (listed w1)).
  { rewrite Hl. apply (lookup_In _ i). apply list_lookup_insert_eq.
    apply lookup_lt_Some in Hi. exact Hi. }
  destruct (next_task_general w1 Hr1) as (r & w2 & Hnext & Hpref & _).
  destruct Hpref as (u & -> & Hu1 & Hu2 & Hmin); [exists t'; split; [exact Hin | reflexivity]|].
  exists t', w1, u, w2. repeat split; try assumption.
  apply (Hmin t' Hin). reflexivity.
Qed.

Lemma started_task_witness :
  exists t' w1 u w2,
    start_task "task_002" Ex.interrupted_world = (Return (Some t'), w1)
    /\ status t' = "in_progress"
    /\ get_next_task w1 = (Return (Some u), w2)
    /\ status u = "in_progress"
    /\ priority u <= priority (Ex.task 2 "pending" 2).
Proof.
  apply (started_task_is_served_first "task_002" Ex.interrupted_world 1
           (Ex.task 2 "pending" 2)).
  - reflexivity.
  - repeat split. intros j u Hj. assert (j = 0%nat) as -> by lia.
    intros [= <-]. discriminate.
Defined.

(** X4. [get_next_task] returns [None] exactly when no listed task is in
    progress or pending; a task it returns is in progress or pending, never
    done or blocked. *)
Theorem next_task_none_iff_nothing_open (w : World) :
  readable (tasks_file w) = true ->
  exists r w',
    get_next_task w = (Return r, w')
    /\ (r = None <->
        forall t, In t (listed w) -> status t <> "in_progress" /\ status t <> "pending")
    /\ (forall t, r = Some t -> status t = "in_progress" \/ status t = "pending").
Proof.
  intros Hr. eexists _, _. split; [apply (get_next_task_returns w Hr)|].
  destruct (sorted_by_priority (with_status "in_progress" (listed w))) as [|a ra] eqn:Ea.
  - apply sorted_by_priority_nil in Ea.
    destruct (sorted_by_priority (with_status "pending" (listed w))) as [|b rb] eqn:Eb.
    + apply sorted_by_priority_nil in Eb. split; [|discriminate].
      split; [|reflexivity]. intros _ t Hin. split; intros Hs.
      * assert (In t (with_status "in_progress" (listed w))) as H
          by (apply in_with_status; split; assumption).
        rewrite Ea in H. exact H.
      * assert (In t (with_status "pending" (listed w))) as H
          by (apply in_with_status; split; assumption).
        rewrite Eb in H. exact H.
    + destruct (sorted_head _ _ _ Eb) as [Hb _]. apply in_with_status in Hb as [Hb1 Hb2].
      split.
      * split; [discriminate|]. intros H. destruct (H b Hb1) as [_ Hn]. contradiction.
      * intros t [= <-]. right. exact Hb2.
  - destruct (sorted_head _ _ _ Ea) as [Ha _]. apply in_with_status in Ha as [Ha1 Ha2].
    split.
    + split; [discriminate|]. intros H. destruct (H a Ha1) as [Hn _]. contradiction.
    + intros t [= <-]. left. exact Ha2.
Qed.

Lemma next_task_none_witness :
  exists r w',
    get_next_task (Ex.tasks_world [Ex.task 1 "done" 1; Ex.task 2 "blocked" 2] 3)
    = (Return r, w')
    /\ (r = None <->
        forall t, In t (listed (Ex.tasks_world [Ex.task 1 "done" 1; Ex.task 2 "blocked" 2] 3)) ->
                  status t <> "in_progress" /\ status t <> "pending")
    /\ (forall t, r = Some t -> status t = "in_progress" \/ status t = "pending").
Proof.
  apply (next_task_none_iff_nothing_open
           (Ex.tasks_world [Ex.task 1 "done" 1; Ex.task 2 "blocked" 2] 3)).
  reflexivity.
Defined.

(** X5. Loading a task document gives every task without a priority (missing
    or 0) its position, counted from 1, as priority and leaves the others as
    they are; no listed task has priority 0; the migrated document is written
    once when something changed, and a second load returns the same list and
    writes nothing. *)
Theorem load_fills_missing_priorities (w : World) (data : TasksDoc) :
  tasks_file w = Holds data ->
  exists ts w1,
    get_tasks None w = (Return ts, w1)
    /\ length ts = length (tasks data)
    /\ (forall i t, tasks data !! i = Some t ->
          ts !! i = Some (if Z.eqb (priority t) 0
                          then set_priority (Z.of_nat i + 1) t else t))
    /\ (forall t, In t ts -> priority t <> 0)
    /\ (if needs_save (tasks data)
        then tasks_file w1 = Holds (mkTasksDoc (raw_thoughts data) ts (next_id data))
             /\ tasks_writes w1
                = mkTasksDoc (raw_thoughts data) ts (next_id data) :: tasks_writes w
        else w1 = w)
    /\ get_tasks None w1 = (Return ts, w1).
Proof.
  intros E.
  assert (Hr : readable (tasks_file w) = true) by (rewrite E; reflexivity).
  exists (listed w), (after_load w).
  split; [apply (get_tasks_all w Hr)|].
  assert (Hl : listed w = migrate (tasks data)) by (unfold listed; rewrite E; reflexivity).
  split; [rewrite Hl; unfold migrate; apply length_imap|].
  split; [intros i t Hi; rewrite Hl, migrate_lookup, Hi; reflexivity|].
  split; [exact (listed_nonzero w)|].
  split.
  - unfold after_load, loaded. rewrite E, <- Hl.
    destruct (needs_save (tasks data)); [split; reflexivity | reflexivity].
  - rewrite (get_tasks_all _ (readable_after_load w Hr)), listed_after_load, after_load_idem.
    reflexivity.
Qed.

Lemma load_fills_missing_priorities_witness :
  exists ts w1,
    get_tasks None Ex.legacy_world = (Return ts, w1)
    /\ length ts = 2%nat
    /\ (forall i t, [Ex.task 1 "pending" 0; Ex.task 2 "pending" 0] !! i = Some t ->
          ts !! i = Some (if Z.eqb (priority t) 0
                          then set_priority (Z.of_nat i + 1) t else t))
    /\ (forall t, In t ts -> priority t <> 0)
    /\ (tasks_file w1 = Holds (mkTasksDoc [] ts 3)
        /\ tasks_writes w1 = [mkTasksDoc [] ts 3])
    /\ get_tasks None w1 = (Return ts, w1).
Proof.
  apply (load_fills_missing_priorities Ex.legacy_world
           (mkTasksDoc [] [Ex.task 1 "pending" 0; Ex.task 2 "pending" 0] 3)).
  reflexivity.
Defined.

End TaskUpdates.

Module TaskLists.
Import Tasks TaskManager TaskSummary Obs StoreObs TaskFacts NextTaskFacts AddFacts
  ReorderFacts StoreFacts.

Lemma add_raw_thought_returns (thought : string) (w : World) :
  readable (tasks_file w) = true ->
  let data := mkTasksDoc (raw_thoughts (loaded w)
                            ++ [mkRawThought thought (isoformat_now w (ticks w))])
                         (listed w) (next_id (loaded w)) in
  add_raw_thought thought w
  = (Return tt,
     set_tasks_writes (data :: tasks_writes (after_load w))
       (set_tasks_file (Holds data) (set_ticks (S (ticks w)) (after_load w)))).
Proof.
  intros Hr data. unfold add_raw_thought, mbind, M_bind.
  rewrite (_load_data_returns w Hr), tasks_loaded.
  unfold now. destruct (after_load_clock w) as [-> ->]. reflexivity.
Qed.

Lemma get_raw_thoughts_returns (w : World) :
  readable (tasks_file w) = true ->
  get_raw_thoughts w = (Return (raw_thoughts (loaded w)), after_load w).
Proof.
  intros Hr. unfold get_raw_thoughts, mbind, M_bind.
  rewrite (_load_data_returns w Hr). reflexivity.
Qed.

Lemma clear_raw_thoughts_returns (w : World) :
  readable (tasks_file w) = true ->
  let data := mkTasksDoc [] (listed w) (next_id (loaded w)) in
  clear_raw_thoughts w
  = (Return tt,
     set_tasks_writes (data :: tasks_writes (after_load w))
       (set_tasks_file (Holds data) (after_load w))).
Proof.
  intros Hr data. unfold clear_raw_thoughts, mbind, M_bind.
  rewrite (_load_data_returns w Hr), tasks_loaded. reflexivity.
Qed.

(** A stored document whose tasks are the present listing reads back as it
    is. *)
Lemma stored_listing (w w' : World) (data : TasksDoc) :
  tasks_file w' = Holds data -> tasks data = listed w ->
  listed w' = listed w /\ loaded w' = data /\ after_load w' = w'
  /\ readable (tasks_file w') = true.
Proof.
  intros E Ht.
  assert (Hnz : forall u, In u (tasks data) -> priority u <> 0)
    by (rewrite Ht; exact (listed_nonzero w)).
  destruct (listed_stored w' data E Hnz) as (Hl & Hd & Ha).
  rewrite Hl, Ht, E. repeat split; assumption.
Qed.

(** X6. [add_raw_thought] appends the thought with the time of the call and
    [get_raw_thoughts] returns it after the earlier ones; [clear_raw_thoughts]
    empties the list; neither changes the tasks or the id counter. *)
Theorem raw_thought_is_kept_until_cleared (thought : string) (w : World) :
  readable (tasks_file w) = true ->
  exists before w0 w1 w2,
    get_raw_thoughts w = (Return before, w0)
    /\ add_raw_thought thought w = (Return tt, w1)
    /\ get_raw_thoughts w1
       = (Return (before ++ [mkRawThought thought (isoformat_now w (ticks w))]), w1)
    /\ get_tasks None w1 = (Return (listed w), w1)
    /\ clear_raw_thoughts w1 = (Return tt, w2)
    /\ get_raw_thoughts w2 = (Return [], w2)
    /\ get_tasks None w2 = (Return (listed w), w2)
    /\ next_id (loaded w2) = next_id (loaded w).
Proof.
  intros Hr.
  pose proof (add_raw_thought_returns thought w Hr) as Hadd. cbv zeta in Hadd.
  set (data1 := mkTasksDoc _ _ _) in Hadd.
  match type of Hadd with _ = (_, ?w) => set (w1 := w) in * end.
  destruct (stored_listing w w1 data1 eq_refl eq_refl) as (Hl1 & Hd1 & Ha1 & Hr1).
  pose proof (clear_raw_thoughts_returns w1 Hr1) as Hclear. cbv zeta in Hclear.
  set (data2 := mkTasksDoc _ _ _) in Hclear.
  match type of Hclear with _ = (_, ?w) => set (w2 := w) in * end.
  destruct (stored_listing w1 w2 data2 eq_refl eq_refl) as (Hl2 & Hd2 & Ha2 & Hr2).
  exists (raw_thoughts (loaded w)), (after_load w), w1, w2.
  split; [apply (get_raw_thoughts_returns w Hr)|].
  split; [exact Hadd|].
  split; [rewrite (get_raw_thoughts_returns w1 Hr1), Ha1, Hd1; reflexivity|].
  split; [rewrite (get_tasks_all w1 Hr1), Ha1, Hl1; reflexivity|].
  split; [exact Hclear|].
  split; [rewrite (get_raw_thoughts_returns w2 Hr2), Ha2, Hd2; reflexivity|].
  split; [rewrite (get_tasks_all w2 Hr2), Ha2, Hl2, Hl1; reflexivity|].
  rewrite Hd2; unfold data2; rewrite Hd1; reflexivity.
Qed.

Lemma raw_thought_witness :
  exists before w0 w1 w2,
    get_raw_thoughts Ex.interrupted_world = (Return before, w0)
    /\ add_raw_thought "dark mode" Ex.interrupted_world = (Return tt, w1)
    /\ get_raw_thoughts w1
       = (Return (before ++ [mkRawThought "dark mode" (Ex.clock 0)]), w1)
    /\ get_tasks None w1 = (Return (listed Ex.interrupted_world), w1)
    /\ clear_raw_thoughts w1 = (Return tt, w2)
    /\ get_raw_thoughts w2 = (Return [], w2)
    /\ get_tasks None w2 = (Return (listed Ex.interrupted_world), w2)
    /\ next_id (loaded w2) = next_id (loaded Ex.interrupted_world).
Proof.
  apply (raw_thought_is_kept_until_cleared "dark mode" Ex.interrupted_world).
  reflexivity.
Defined.

Lemma positions_from_last (n : nat) (ids : list string) (m : gmap string Z)
    (k : nat) (x : string) :
  last_position ids x k ->
  positions_from n ids m !! x = Some (Z.of_nat (n + k) + 1).
Proof.
  revert n m k. induction ids as [|y r IH]; intros n m k [Hk Hlast]; [discriminate|].
  rewrite positions_from_cons. destruct k as [|k]; simpl in Hk.
  - injection Hk as ->. rewrite positions_from_notin.
    + rewrite lookup_insert_eq. do 2 f_equal. lia.
    + intros Hin. apply list_elem_of_In, list_elem_of_lookup_1 in Hin as [j Hj].
      apply (Hlast (S j)); [lia | exact Hj].
  - rewrite (IH (S n) _ k).
    + do 2 f_equal. lia.
    + split; [exact Hk|]. intros j Hj. apply (Hlast (S j)). lia.
Qed.

Lemma reassign_same (m : gmap string Z) (t : Task) : same_but_priority (reassign m t) t.
Proof. unfold same_but_priority, reassign. destruct (m !! id t); reflexivity. Qed.

(** X7. [reorder_tasks] changes priorities only, for any list of ids: the
    stored list has the same length and order, every task keeps all its other
    fields, a task whose id is not in the list is unchanged, an id that is in
    the list but names no task creates nothing, and a task whose id occurs in
    the list takes the last position of its id, counted from 1. *)
Theorem reorder_changes_priorities_only (ids : list string) (w : World) :
  readable (tasks_file w) = true ->
  exists data w1,
    reorder_tasks ids w = (Return tt, w1)
    /\ tasks_file w1 = Holds data
    /\ raw_thoughts data = raw_thoughts (loaded w)
    /\ next_id data = next_id (loaded w)
    /\ length (tasks data) = length (listed w)
    /\ forall i t, listed w !! i = Some t ->
         exists t', tasks data !! i = Some t'
           /\ same_but_priority t' t
           /\ (~ In (id t) ids -> t' = t)
           /\ (forall k, last_position ids (id t) k -> priority t' = Z.of_nat k + 1).
Proof.
  intros Hr. eexists _, _. split; [apply (reorder_tasks_returns ids w Hr)|].
  repeat split.
  - cbn. apply length_map.
  - intros i t Hi. exists (reassign (id_to_priority ids) t). repeat split.
    + cbn. change (map (reassign (id_to_priority ids)) (listed w))
        with (reassign (id_to_priority ids) <$> listed w).
      rewrite list_lookup_fmap, Hi. reflexivity.
    + apply reassign_same.
    + intros Hn. unfold reassign. rewrite (id_to_priority_notin ids _ Hn). reflexivity.
    + intros k Hk. unfold reassign.
      rewrite id_to_priority_positions, (positions_from_last 0 ids ∅ k _ Hk).
      reflexivity.
Qed.

Lemma reorder_changes_priorities_only_witness :
  exists data w1,
    reorder_tasks ["task_003"; "task_404"; "task_001"; "task_003"] Ex.interrupted_world
    = (Return tt, w1)
    /\ tasks_file w1 = Holds data
    /\ raw_thoughts data = raw_thoughts (loaded Ex.interrupted_world)
    /\ next_id data = next_id (loaded Ex.interrupted_world)
    /\ length (tasks data) = length (listed Ex.interrupted_world)
    /\ forall i t, listed Ex.interrupted_world !! i = Some t ->
         exists t', tasks data !! i = Some t'
           /\ same_but_priority t' t
           /\ (~ In (id t) ["task_003"; "task_404"; "task_001"; "task_003"] -> t' = t)
           /\ (forall k,
                 last_position ["task_003"; "task_404"; "task_001"; "task_003"] (id t) k ->
                 priority t' = Z.of_nat k + 1).
Proof.
  apply (reorder_changes_priorities_only
           ["task_003"; "task_404"; "task_001"; "task_003"] Ex.interrupted_world).
  reflexivity.
Defined.

Example reorder_with_repeated_id :
  match tasks_file (snd (reorder_tasks ["task_003"; "task_404"; "task_001"; "task_003"]
                           Ex.interrupted_world)) with
  | Holds data => map (fun t => (id t, priority t)) (tasks data)
  | _ => []
  end
  = [("task_001", 3); ("task_002", 2); ("task_003", 4)].
Proof. reflexivity. Qed.

(** X8. [add_task] appends one pending task, created at the time of the call
    and not completed, after the listed tasks, which stay as they are, keeps
    the raw thoughts, and [get_progress] afterwards reports the same number of
    done tasks out of one more. *)
Theorem add_task_keeps_the_others (title description : string) (raw_thought : option string)
    (w : World) :
  readable (tasks_file w) = true ->
  exists d n t data w0 w1 w2,
    get_progress w = (Return (d, n), w0)
    /\ add_task title description raw_thought w = (Return t, w1)
    /\ status t = "pending"
    /\ completed_at t = None
    /\ created_at t = isoformat_now w (ticks w)
    /\ tasks_file w1 = Holds data
    /\ tasks data = listed w ++ [t]
    /\ raw_thoughts data = raw_thoughts (loaded w)
    /\ get_progress w1 = (Return (d, S n), w2)
    /\ (d <= n)%nat.
Proof.
  intros Hr.
  pose proof (add_task_returns title description raw_thought w Hr) as Hadd.
  cbv zeta in Hadd.
  set (t := mkTask _ _ _ _ _ _ _ _ _ _) in Hadd.
  set (data := mkTasksDoc _ _ _) in Hadd.
  match type of Hadd with _ = (_, ?w) => set (w1 := w) in * end.
  assert (Hr1 : readable (tasks_file w1) = true) by reflexivity.
  exists (length (with_status "done" (listed w))), (length (listed w)), t, data,
         (after_load w), w1, (after_load w1).
  split; [apply (get_progress_returns w Hr)|].
  split; [exact Hadd|].
  split; [reflexivity|]. split; [reflexivity|].
  split; [unfold t; cbn; destruct (after_load_clock w) as [-> ->]; reflexivity|].
  split; [reflexivity|]. split; [reflexivity|]. split; [reflexivity|].
  split; [|apply filter_length_le].
  rewrite (get_progress_returns w1 Hr1). do 2 f_equal.
  assert (Hl : listed w1 = migrate (listed w ++ [t])) by reflexivity.
  f_equal.
  - rewrite Hl, (count_by_status "done" _ (listed w ++ [t]) (status_migrate _)).
    unfold with_status. rewrite List.filter_app. cbn. rewrite app_nil_r. reflexivity.
  - rewrite Hl. unfold migrate. rewrite length_imap, length_app. cbn. lia.
Qed.

Lemma add_task_keeps_the_others_witness :
  exists d n t data w0 w1 w2,
    get_progress Ex.interrupted_world = (Return (d, n), w0)
    /\ add_task "title" "" None Ex.interrupted_world = (Return t, w1)
    /\ status t = "pending"
    /\ completed_at t = None
    /\ created_at t = Ex.clock 0
    /\ tasks_file w1 = Holds data
    /\ tasks data = listed Ex.interrupted_world ++ [t]
    /\ raw_thoughts data = raw_thoughts (loaded Ex.interrupted_world)
    /\ get_progress w1 = (Return (d, S n), w2)
    /\ (d <= n)%nat.
Proof.
  apply (add_task_keeps_the_others "title" "" None Ex.interrupted_world).
  reflexivity.
Defined.

End TaskLists.

Module SummaryFacts.
Import Tasks TaskManager TaskSummary Obs StoreObs TaskFacts NextTaskFacts AddFacts
  ReorderFacts StoreFacts TaskLists.

Lemma summary_order_total (t u : Task) : summary_key_le t u = false -> summary_order u t.
Proof.
  unfold summary_order, summary_key_le.
  destruct (String.eqb (status t) "done"), (String.eqb (status u) "done"); cbn;
    try discriminate; try reflexivity; intros H; apply Z.leb_le; apply Z.leb_gt in H; lia.
Qed.

Lemma summary_order_trans (t u v : Task) :
  summary_order t u -> summary_order u v -> summary_order t v.
Proof.
  unfold summary_order, summary_key_le.
  destruct (String.eqb (status t) "done"), (String.eqb (status u) "done"),
    (String.eqb (status v) "done"); cbn; try discriminate; try reflexivity;
    rewrite !Z.leb_le; lia.
Qed.

Lemma summary_order_spec (t u : Task) :
  summary_order t u ->
  (is_done t = true -> is_done u = true)
  /\ (is_done t = is_done u -> priority t <= priority u).
Proof.
  unfold summary_order, summary_key_le, is_done.
  destruct (String.eqb (status t) "done"), (String.eqb (status u) "done"); cbn;
    intros H; split; try discriminate; try reflexivity; intros _; apply Z.leb_le, H.
Qed.

Lemma insert_by_summary_key_perm (t : Task) (l : list Task) :
  Permutation (insert_by_summary_key t l) (t :: l).
Proof.
  induction l as [|u r IH]; cbn; [reflexivity|].
  destruct (summary_key_le t u); [reflexivity|].
  rewrite IH. apply perm_swap.
Qed.

Lemma sorted_for_summary_perm (l : list Task) : Permutation (sorted_for_summary l) l.
Proof.
  induction l as [|t r IH]; cbn; [reflexivity|].
  rewrite insert_by_summary_key_perm, IH. reflexivity.
Qed.

Lemma insert_by_summary_key_sorted (t : Task) (l : list Task) :
  StronglySorted summary_order l -> StronglySorted summary_order (insert_by_summary_key t l).
Proof.
  induction 1 as [|u r Hs IH Hu]; cbn.
  - repeat constructor.
  - destruct (summary_key_le t u) eqn:E.
    + constructor; [constructor; assumption|].
      constructor; [exact E|].
      eapply Forall_impl; [exact Hu|]. intros v Hv. exact (summary_order_trans t u v E Hv).
    + constructor; [exact IH|].
      apply List.Forall_forall. intros v Hv.
      apply (Permutation_in _ (insert_by_summary_key_perm t r)) in Hv.
      destruct Hv as [<-|Hv]; [exact (summary_order_total t u E)|].
      rewrite List.Forall_forall in Hu. exact (Hu v Hv).
Qed.

Lemma sorted_for_summary_sorted (l : list Task) :
  StronglySorted summary_order (sorted_for_summary l).
Proof.
  induction l as [|t r IH]; cbn; [constructor|].
  apply insert_by_summary_key_sorted, IH.
Qed.

Lemma sorted_lookups {A : Type} (R : A -> A -> Prop) (l : list A) :
  StronglySorted R l ->
  forall i j x y, (i < j)%nat -> l !! i = Some x -> l !! j = Some y -> R x y.
Proof.
  induction 1 as [|a r Hs IH Ha]; intros i j x y Hij Hi Hj; [discriminate|].
  destruct j as [|j]; [lia|]. simpl in Hj.
  destruct i as [|i]; simpl in Hi.
  - injection Hi as <-. rewrite List.Forall_forall in Ha.
    apply Ha, list_elem_of_In. eapply list_elem_of_lookup_2, Hj.
  - apply (IH i j); [lia | assumption | assumption].
Qed.

Lemma get_summary_returns (w : World) :
  readable (tasks_file w) = true ->
  get_summary w
  = (Return (Fmt.join SessionLoop.newline
               (summary_lines (length (with_status "done" (listed w))) (length (listed w))
                              (listed w) (raw_thoughts (loaded w)))),
     after_load w).
Proof.
  intros Hr. unfold get_summary, mbind, M_bind.
  pose proof (readable_after_load w Hr) as Hr1.
  rewrite (get_progress_returns w Hr).
  rewrite (get_tasks_all _ Hr1), listed_after_load, after_load_idem.
  rewrite (get_raw_thoughts_returns _ Hr1), loaded_after_load, after_load_idem.
  reflexivity.
Qed.

(** X9. The task summary lists every task once, the tasks that are not done
    before the done ones, and within each of the two groups by ascending
    priority; it writes to the task document only what a load writes. *)
Theorem summary_lists_open_tasks_first (w : World) :
  readable (tasks_file w) = true ->
  exists w',
    let ts := sorted_for_summary (listed w) in
    get_summary w
    = (Return (Fmt.join SessionLoop.newline
                 (summary_lines (length (with_status "done" (listed w))) (length (listed w))
                                (listed w) (raw_thoughts (loaded w)))), w')
    /\ Permutation ts (listed w)
    /\ (forall i j x y, (i < j)%nat -> ts !! i = Some x -> ts !! j = Some y ->
          (is_done x = true -> is_done y = true)
          /\ (is_done x = is_done y -> priority x <= priority y))
    /\ tasks_file w' = tasks_file (snd (_load_data w)).
Proof.
  intros Hr. exists (after_load w). cbv zeta.
  split; [apply (get_summary_returns w Hr)|].
  split; [apply sorted_for_summary_perm|].
  split; [|rewrite (_load_data_returns w Hr); reflexivity].
  intros i j x y Hij Hi Hj. apply summary_order_spec.
  exact (sorted_lookups _ _ (sorted_for_summary_sorted _) i j x y Hij Hi Hj).
Qed.

Lemma summary_witness :
  exists w',
    let ts := sorted_for_summary (listed Ex.interrupted_world) in
    get_summary Ex.interrupted_world
    = (Return (Fmt.join SessionLoop.newline
                 (summary_lines (length (with_status "done" (listed Ex.interrupted_world)))
                                (length (listed Ex.interrupted_world))
                                (listed Ex.interrupted_world)
                                (raw_thoughts (loaded Ex.interrupted_world)))), w')
    /\ Permutation ts (listed Ex.interrupted_world)
    /\ (forall i j x y, (i < j)%nat -> ts !! i = Some x -> ts !! j = Some y ->
          (is_done x = true -> is_done y = true)
          /\ (is_done x = is_done y -> priority x <= priority y))
    /\ tasks_file w' = tasks_file (snd (_load_data Ex.interrupted_world)).
Proof.
  apply (summary_lists_open_tasks_first Ex.interrupted_world). reflexivity.
Defined.

Example summary_example :
  fst (get_summary
         (Ex.tasks_world [Ex.task 1 "done" 1; Ex.task 2 "pending" 3;
                          Ex.task 3 "in_progress" 2] 4))
  = Return ("## Tasks (1/3 completed)" +:+ SessionLoop.newline
            +:+ "[~] [task_003] title" +:+ SessionLoop.newline
            +:+ "[ ] [task_002] title" +:+ SessionLoop.newline
            +:+ "[x] [task_001] title").
Proof. vm_compute. reflexivity. Qed.

End SummaryFacts.

Module SessionFacts.
Import CheckpointManager CheckpointRuns Obs StoreObs FmtFacts CheckpointFacts VerifyFacts.

Lemma append_length (a b : string) :
  String.length (a +:+ b) = (String.length a + String.length b)%nat.
Proof.
  induction a as [|c a IH]; [reflexivity|].
  change (S (String.length (a +:+ b)) = S (String.length a + String.length b)).
  rewrite IH. reflexivity.
Qed.

Lemma append_cancel_r (a b c : string) : a +:+ c = b +:+ c -> a = b.
Proof.
  revert b. induction a as [|x a IH]; intros [|y b] H.
  - reflexivity.
  - apply (f_equal String.length) in H. rewrite !append_length in H. cbn in H. lia.
  - apply (f_equal String.length) in H. rewrite !append_length in H. cbn in H. lia.
  - change (String x (a +:+ c) = String y (b +:+ c)) in H.
    injection H as -> H. f_equal. apply IH, H.
Qed.

Lemma format_03d_inj (a b : Z) : Fmt.format_03d a = Fmt.format_03d b -> a = b.
Proof.
  intros H. apply (f_equal Fmt.read_int) in H. rewrite !read_format_03d in H.
  injection H as ->. reflexivity.
Qed.

Lemma session_file_inj (a b : Z) : session_file a = session_file b -> a = b.
Proof.
  unfold session_file. intros H.
  apply String.app_inj in H.
  apply format_03d_inj, (append_cancel_r _ _ ".json"), H.
Qed.

Lemma archive_name_session (cp : gmap string json) (n : Z) :
  session_of cp = Some n -> archive_name cp = Return (session_file n).
Proof.
  unfold session_of, archive_name. destruct (cp !! "session") as [[]|]; try discriminate.
  intros [= ->]. reflexivity.
Qed.

Lemma start_session_returns (w : World) (n : Z) :
  readable (checkpoint_file w) = true ->
  session_of (loaded_checkpoint w) = Some n ->
  exists t_start t_save w',
    start_session w = (Return (started (loaded_checkpoint w) n t_start t_save), w')
    /\ checkpoint_file w' = Holds (started (loaded_checkpoint w) n t_start t_save)
    /\ checkpoints_dir w'
       = <[session_file (n + 1) := started (loaded_checkpoint w) n t_start t_save]>
           (checkpoints_dir w)
    /\ tasks_file w' = tasks_file w
    /\ tasks_writes w' = tasks_writes w.
Proof.
  intros Hr Hn.
  destruct (load_ready w Hr) as (w1 & Hload & Hc1 & Ht1 & Hw1 & Hd1).
  unfold start_session, mbind, M_bind. rewrite Hload.
  assert (Hinc : incr_session (loaded_checkpoint w)
                 = Return (<["session" := JInt (n + 1)]> (loaded_checkpoint w))).
  { unfold session_of in Hn. unfold incr_session.
    destruct (loaded_checkpoint w !! "session") as [[]|]; try discriminate.
    injection Hn as ->. reflexivity. }
  rewrite Hinc. cbn [now].
  set (cp1 := <["session_started_at" := _]> _).
  set (w2 := set_ticks _ w1).
  assert (Ha : archive_name cp1 = Return (session_file (n + 1))).
  { apply archive_name_session. unfold session_of, cp1.
    rewrite lookup_insert_ne by discriminate. rewrite lookup_insert_ne by discriminate.
    rewrite lookup_insert_eq. reflexivity. }
  rewrite (save_returns cp1 w2 _ Ha). cbv zeta.
  eexists _, _, _. split; [reflexivity|].
  cbn. rewrite Hd1, Ht1, Hw1. repeat split; reflexivity.
Qed.

Lemma is_completed_holds (cp : gmap string json) (w : World) :
  checkpoint_file w = Holds cp ->
  is_completed w = (Return (eq_str (cp !! "status") "COMPLETED"), w).
Proof.
  intros E. unfold is_completed, mbind, M_bind. rewrite (load_holds cp w E). reflexivity.
Qed.

Lemma get_session_number_holds (cp : gmap string json) (w : World) :
  checkpoint_file w = Holds cp ->
  get_session_number w = (Return (default (JInt 0) (cp !! "session")), w).
Proof.
  intros E. unfold get_session_number, mbind, M_bind. rewrite (load_holds cp w E).
  reflexivity.
Qed.

Lemma loaded_checkpoint_holds (cp : gmap string json) (w : World) :
  checkpoint_file w = Holds cp -> loaded_checkpoint w = cp.
Proof. intros E. unfold loaded_checkpoint. rewrite E. reflexivity. Qed.

(** X10. [start_session] on a checkpoint whose session is the integer [n]
    returns and stores the checkpoint with session [n + 1] and status
    ["WORKING"], every key other than session, status and the two timestamps
    unchanged (the recorded last verification among them), archives it under
    the name of session [n + 1], and leaves the task document alone;
    afterwards [is_completed] is false and [get_session_number] is [n + 1]. *)
Theorem start_session_opens_the_next_session (w : World) (n : Z) :
  readable (checkpoint_file w) = true ->
  session_of (loaded_checkpoint w) = Some n ->
  exists cp' w',
    start_session w = (Return cp', w')
    /\ cp' !! "session" = Some (JInt (n + 1))
    /\ cp' !! "status" = Some (JStr "WORKING")
    /\ (forall k, k <> "session" -> k <> "status" -> k <> "session_started_at" ->
                  k <> "updated_at" -> cp' !! k = loaded_checkpoint w !! k)
    /\ load w' = (Return cp', w')
    /\ checkpoints_dir w' = <[session_file (n + 1) := cp']> (checkpoints_dir w)
    /\ is_completed w' = (Return false, w')
    /\ get_session_number w' = (Return (JInt (n + 1)), w')
    /\ tasks_file w' = tasks_file w.
Proof.
  intros Hr Hn.
  destruct (start_session_returns w n Hr Hn) as (t1 & t2 & w' & Hs & Hc & Hd & Ht & _).
  exists (started (loaded_checkpoint w) n t1 t2), w'.
  assert (H1 : started (loaded_checkpoint w) n t1 t2 !! "session" = Some (JInt (n + 1))).
  { unfold started. rewrite !lookup_insert_ne by discriminate. apply lookup_insert_eq. }
  assert (H2 : started (loaded_checkpoint w) n t1 t2 !! "status" = Some (JStr "WORKING")).
  { unfold started. rewrite !lookup_insert_ne by discriminate. apply lookup_insert_eq. }
  repeat split; try assumption.
  - intros k K1 K2 K3 K4. unfold started.
    rewrite !lookup_insert_ne by congruence. reflexivity.
  - apply (load_holds _ _ Hc).
  - rewrite (is_completed_holds _ _ Hc), H2. reflexivity.
  - rewrite (get_session_number_holds _ _ Hc), H1. reflexivity.
Qed.

Lemma start_session_witness :
  exists cp' w',
    start_session Ex.passed_record_world = (Return cp', w')
    /\ cp' !! "session" = Some (JInt (4 + 1))
    /\ cp' !! "status" = Some (JStr "WORKING")
    /\ (forall k, k <> "session" -> k <> "status" -> k <> "session_started_at" ->
                  k <> "updated_at" ->
                  cp' !! k = loaded_checkpoint Ex.passed_record_world !! k)
    /\ load w' = (Return cp', w')
    /\ checkpoints_dir w'
       = <[session_file (4 + 1) := cp']> (checkpoints_dir Ex.passed_record_world)
    /\ is_completed w' = (Return false, w')
    /\ get_session_number w' = (Return (JInt (4 + 1)), w')
    /\ tasks_file w' = tasks_file Ex.passed_record_world.
Proof.
  apply (start_session_opens_the_next_session Ex.passed_record_world 4); reflexivity.
Defined.

(** X11. [k] sessions started one after the other from session [n], with no
    archive entry yet under the names of sessions [n + 1] to [n + k], leave the
    checkpoint at session [n + k] and add exactly [k] archive entries, one per
    session and each holding that session's number; the entries that existed
    are unchanged. *)
Theorem one_archive_entry_per_session (k : nat) (w : World) (n : Z) :
  readable (checkpoint_file w) = true ->
  session_of (loaded_checkpoint w) = Some n ->
  (forall j, (1 <= j <= k)%nat -> checkpoints_dir w !! session_file (n + Z.of_nat j) = None) ->
  exists w',
    start_sessions k w = (Return tt, w')
    /\ session_of (loaded_checkpoint w') = Some (n + Z.of_nat k)
    /\ size (checkpoints_dir w') = (size (checkpoints_dir w) + k)%nat
    /\ (forall j, (1 <= j <= k)%nat ->
          exists cp, checkpoints_dir w' !! session_file (n + Z.of_nat j) = Some cp
                     /\ session_of cp = Some (n + Z.of_nat j))
    /\ (forall name, is_Some (checkpoints_dir w !! name) ->
          checkpoints_dir w' !! name = checkpoints_dir w !! name).
Proof.
  revert w n. induction k as [|k IH]; intros w n Hr Hn Hfree.
  - exists w. repeat split.
    + rewrite Hn, Z.add_0_r. reflexivity.
    + lia.
    + intros j Hj. lia.
  - destruct (start_session_returns w n Hr Hn) as (t1 & t2 & w1 & Hs & Hc & Hd & _).
    set (cp1 := started (loaded_checkpoint w) n t1 t2) in *.
    assert (Hn1 : session_of (loaded_checkpoint w1) = Some (n + 1)).
    { rewrite (loaded_checkpoint_holds _ _ Hc). unfold session_of, cp1, started.
      rewrite !lookup_insert_ne by discriminate. rewrite lookup_insert_eq. reflexivity. }
    assert (Hr1 : readable (checkpoint_file w1) = true) by (rewrite Hc; reflexivity).
    destruct (IH w1 (n + 1) Hr1 Hn1) as (w' & Hrun & Hsess & Hsize & Hnew & Hold).
    { intros j Hj. rewrite Hd, lookup_insert_ne.
      - replace (n + 1 + Z.of_nat j) with (n + Z.of_nat (S j)) by lia. apply Hfree. lia.
      - intros H. apply session_file_inj in H. lia. }
    exists w'. split; [|split; [|split; [|split]]].
    + cbn [start_sessions]. unfold mbind, M_bind. rewrite Hs. exact Hrun.
    + rewrite Hsess. f_equal. lia.
    + rewrite Hsize, Hd, map_size_insert_None; [lia|].
      replace (n + 1) with (n + Z.of_nat 1) by lia. apply Hfree. lia.
    + intros j Hj. destruct (decide (j = 1%nat)) as [->|Hj1].
      * exists cp1. split.
        -- rewrite Hold; rewrite Hd; replace (n + Z.of_nat 1) with (n + 1) by lia;
             rewrite lookup_insert_eq; [reflexivity | eexists; reflexivity].
        -- replace (n + Z.of_nat 1) with (n + 1) by lia.
           rewrite <- Hn1, (loaded_checkpoint_holds _ _ Hc). reflexivity.
      * destruct j as [|j]; [lia|].
        destruct (Hnew j) as (cp & Hcp & Hscp); [lia|].
        exists cp. replace (n + Z.of_nat (S j)) with (n + 1 + Z.of_nat j) by lia.
        split; assumption.
    + intros name Hname. rewrite Hold.
      * rewrite Hd. apply lookup_insert_ne. intros <-.
        rewrite <- (Z.add_0_r 1) in Hname at 1.
        replace (n + (1 + 0)) with (n + Z.of_nat 1) in Hname by lia.
        rewrite (Hfree 1%nat) in Hname by lia. destruct Hname; discriminate.
      * rewrite Hd. destruct (decide (session_file (n + 1) = name)) as [<-|Hne].
        -- rewrite lookup_insert_eq. eexists; reflexivity.
        -- rewrite lookup_insert_ne by exact Hne. exact Hname.
Qed.

Lemma one_archive_entry_per_session_witness :
  exists w',
    start_sessions 3 Ex.fresh_world = (Return tt, w')
    /\ session_of (loaded_checkpoint w') = Some (0 + Z.of_nat 3)
    /\ size (checkpoints_dir w') = (size (checkpoints_dir Ex.fresh_world) + 3)%nat
    /\ (forall j, (1 <= j <= 3)%nat ->
          exists cp, checkpoints_dir w' !! session_file (0 + Z.of_nat j) = Some cp
                     /\ session_of cp = Some (0 + Z.of_nat j))
    /\ (forall name, is_Some (checkpoints_dir Ex.fresh_world !! name) ->
          checkpoints_dir w' !! name = checkpoints_dir Ex.fresh_world !! name).
Proof.
  apply (one_archive_entry_per_session 3 Ex.fresh_world 0).
  - reflexivity.
  - reflexivity.
  - intros j _. reflexivity.
Defined.

(** X12. A [save] that fails on the archive name (the session is not an
    integer) has already replaced the current checkpoint and has written no
    archive entry; every later [start_session] then raises [TypeError] and
    changes nothing. [start_session] on a checkpoint document without a session
    raises [KeyError] and writes nothing. *)
Theorem failed_save_has_replaced_the_checkpoint :
  (forall (cp : gmap string json) (w : World) (e : exn),
     archive_name cp = Raise e ->
     exists w',
       save cp w = (Raise e, w')
       /\ checkpoint_file w'
          = Holds (<["updated_at" := JStr (isoformat_now w (ticks w))]> cp)
       /\ checkpoints_dir w' = checkpoints_dir w
       /\ start_session w' = (Raise TypeError, w'))
  /\ (forall (cp : gmap string json) (w : World),
        checkpoint_file w = Holds cp -> cp !! "session" = None ->
        start_session w = (Raise KeyError, w)).
Proof.
  split.
  - intros cp w e Ha. eexists. split; [|split; [|split]].
    + unfold save, mbind, M_bind. cbn [now modify_world].
      rewrite archive_name_updated_at, Ha. reflexivity.
    + reflexivity.
    + reflexivity.
    + unfold start_session, mbind, M_bind.
      erewrite load_holds by reflexivity.
      unfold incr_session. rewrite lookup_insert_ne by discriminate.
      unfold archive_name in Ha.
      destruct (cp !! "session") as [[]|]; try discriminate; reflexivity.
  - intros cp w E Hs. unfold start_session, mbind, M_bind.
    rewrite (load_holds cp w E). unfold incr_session. rewrite Hs. reflexivity.
Qed.

Lemma failed_save_witness :
  (exists w',
     save (<["session" := JStr "7"]> ∅) Ex.fresh_world = (Raise ValueError, w')
     /\ checkpoint_file w'
        = Holds (<["updated_at" := JStr (Ex.clock 0)]> (<["session" := JStr "7"]> ∅))
     /\ checkpoints_dir w' = checkpoints_dir Ex.fresh_world
     /\ start_session w' = (Raise TypeError, w'))
  /\ start_session (set_checkpoint_file (Holds ∅) Ex.fresh_world)
     = (Raise KeyError, set_checkpoint_file (Holds ∅) Ex.fresh_world).
Proof.
  split.
  - apply (proj1 failed_save_has_replaced_the_checkpoint
             (<["session" := JStr "7"]> ∅) Ex.fresh_world ValueError).
    reflexivity.
  - apply (proj2 failed_save_has_replaced_the_checkpoint ∅
             (set_checkpoint_file (Holds ∅) Ex.fresh_world)); reflexivity.
Defined.

(** X13. After [mark_completed] the stored checkpoint has status
    ["COMPLETED"], [is_completed] returns true, every key other than status and
    the two timestamps is unchanged, and the checkpoint is archived under the
    name of its session. *)
Theorem mark_completed_is_seen (w : World) :
  readable (checkpoint_file w) = true ->
  recordable w = true ->
  exists cp' w',
    mark_completed w = (Return tt, w')
    /\ load w' = (Return cp', w')
    /\ is_completed w' = (Return true, w')
    /\ (forall k, k <> "status" -> k <> "completed_at" -> k <> "updated_at" ->
                  cp' !! k = loaded_checkpoint w !! k)
    /\ (forall name, archive_name (loaded_checkpoint w) = Return name ->
          checkpoints_dir w' = <[name := cp']> (checkpoints_dir w)).
Proof.
  intros Hr Hrec.
  destruct (load_ready w Hr) as (w1 & Hload & Hc1 & Ht1 & Hw1 & Hd1).
  unfold recordable, session_ok in Hrec.
  destruct (archive_name (loaded_checkpoint w)) as [name|] eqn:Ha; [|discriminate].
  unfold mark_completed, mbind, M_bind. rewrite Hload. cbn [now].
  set (cp1 := <["completed_at" := _]> _).
  set (w2 := set_ticks _ w1).
  assert (Ha1 : archive_name cp1 = Return name).
  { rewrite <- Ha. unfold archive_name, cp1. rewrite !lookup_insert_ne by discriminate.
    reflexivity. }
  rewrite (save_returns cp1 w2 name Ha1). cbv zeta.
  eexists _, _. split; [reflexivity|].
  split; [apply load_holds; reflexivity|].
  split; [|split].
  - erewrite is_completed_holds by reflexivity.
    unfold cp1. rewrite !lookup_insert_ne by discriminate. rewrite lookup_insert_eq.
    reflexivity.
  - intros k K1 K2 K3. unfold cp1. rewrite !lookup_insert_ne by congruence. reflexivity.
  - intros name' [= <-]. cbn. rewrite Hd1. reflexivity.
Qed.

Lemma mark_completed_witness :
  exists cp' w',
    mark_completed Ex.passed_record_world = (Return tt, w')
    /\ load w' = (Return cp', w')
    /\ is_completed w' = (Return true, w')
    /\ (forall k, k <> "status" -> k <> "completed_at" -> k <> "updated_at" ->
                  cp' !! k = loaded_checkpoint Ex.passed_record_world !! k)
    /\ (forall name, archive_name (loaded_checkpoint Ex.passed_record_world) = Return name ->
          checkpoints_dir w' = <[name := cp']> (checkpoints_dir Ex.passed_record_world)).
Proof.
  apply (mark_completed_is_seen Ex.passed_record_world); reflexivity.
Defined.

End SessionFacts.

Module VerifyExact.
Import SessionLoop Obs LoopObs TaskFacts CheckpointFacts VerifyFacts StoreFacts SessionFacts.

Lemma listed_same_file (w w' : World) : tasks_file w' = tasks_file w -> listed w' = listed w.
Proof. intros E. unfold listed. rewrite E. reflexivity. Qed.

Lemma after_load_same (w w' : World) :
  tasks_file w' = tasks_file w -> tasks_writes w' = tasks_writes w ->
  tasks_file (after_load w') = tasks_file (after_load w)
  /\ tasks_writes (after_load w') = tasks_writes (after_load w).
Proof.
  intros Hf Hw. unfold after_load, loaded. rewrite Hf.
  destruct (tasks_file w) as [|e|data] eqn:E; try (split; [congruence | exact Hw]).
  destruct (TaskManager.needs_save (Tasks.tasks data)); [|split; [congruence | exact Hw]].
  cbn. rewrite Hw. split; reflexivity.
Qed.

Lemma check_files_modified_exact (ex : string -> bool) (cp : gmap string json)
    (B : list Issue) (w : World) :
  files_ok cp = true ->
  check_files_modified ex cp B w = (Return (B ++ files_issue ex cp), w).
Proof.
  intros Hfiles. unfold files_ok in Hfiles. unfold check_files_modified, files_issue.
  destruct (truthy (default (JList []) (cp !! "files_modified"))); cbn in Hfiles.
  - destruct (paths_of (default (JList []) (cp !! "files_modified"))) as [paths|];
      [|discriminate].
    destruct (Validator.is_fail _); [reflexivity | rewrite app_nil_r; reflexivity].
  - rewrite app_nil_r. reflexivity.
Qed.

Lemma check_task_criteria_app (cc : string -> Validator.ValidationReport)
    (B : list Issue) (t : Tasks.Task) :
  check_task_criteria cc B t = B ++ check_task_criteria cc [] t.
Proof.
  unfold check_task_criteria. destruct (Tasks.success_criteria t) as [c|];
    [|rewrite app_nil_r; reflexivity].
  destruct (String.eqb c ""); [rewrite app_nil_r; reflexivity|].
  destruct (Validator.is_fail _); [reflexivity | rewrite app_nil_r; reflexivity].
Qed.

Lemma criteria_exact (cc : string -> Validator.ValidationReport)
    (done_tasks : list Tasks.Task) (B : list Issue) :
  fold_left (check_task_criteria cc) done_tasks B = B ++ criteria_issues cc done_tasks.
Proof.
  unfold criteria_issues. revert B.
  induction done_tasks as [|t r IH] using rev_ind; intros B; cbn [fold_left].
  - rewrite app_nil_r. reflexivity.
  - rewrite !fold_left_app. cbn [fold_left].
    rewrite check_task_criteria_app, IH.
    rewrite (check_task_criteria_app cc (fold_left _ _ _)). symmetry. apply app_assoc.
Qed.

Lemma check_all_done_exact (cp : gmap string json) (B : list Issue) (w : World) :
  readable (tasks_file w) = true ->
  exists w', check_all_done cp B w = (Return (B ++ incomplete_issue cp (listed w)), w')
             /\ (w' = w \/ w' = after_load w).
Proof.
  intros Hr. unfold check_all_done, incomplete_issue.
  destruct (eq_str (cp !! "status") "COMPLETED"); cbn [andb].
  - unfold mbind, M_bind. rewrite (get_progress_returns w Hr). cbn [fst snd].
    exists (after_load w). split; [|right; reflexivity].
    destruct (Nat.ltb _ _); [reflexivity | rewrite app_nil_r; reflexivity].
  - exists w. rewrite app_nil_r. split; [reflexivity | left; reflexivity].
Qed.

Lemma ready_parts (w : World) :
  ready w = true ->
  readable (checkpoint_file w) = true /\ readable (tasks_file w) = true
  /\ files_ok (loaded_checkpoint w) = true /\ retry_ok (loaded_checkpoint w) = true.
Proof.
  unfold ready. intros H.
  apply andb_true_iff in H as [H H4]. apply andb_true_iff in H as [H H3].
  apply andb_true_iff in H as [H1 H2]. repeat split; assumption.
Qed.

Section Exact.
Variable baseline : option (gmap string BaselineEntry).
Variable val_results : list (string * Validator.ValidationReport).
Variable exists_on_disk : string -> bool.
Variable check_criteria : string -> Validator.ValidationReport.

Lemma verify_exact (w : World) :
  ready w = true ->
  exists lv rc w',
    _verify_session baseline val_results exists_on_disk check_criteria w
    = (Return (conclude val_results
                 (fst (from_checks baseline val_results)
                  ++ later_issues exists_on_disk check_criteria (loaded_checkpoint w) (listed w))
                 (snd (from_checks baseline val_results)) rc), w')
    /\ last_verification_of (loaded_checkpoint w) = Return lv
    /\ next_retry_count (prev_retry lv)
         (fst (from_checks baseline val_results)
          ++ later_issues exists_on_disk check_criteria (loaded_checkpoint w) (listed w))
       = Return rc
    /\ checkpoint_file w' = checkpoint_file w
    /\ checkpoints_dir w' = checkpoints_dir w
    /\ readable (tasks_file w') = true
    /\ tasks_file w' = tasks_file (after_load w)
    /\ tasks_writes w' = tasks_writes (after_load w).
Proof.
  intros Hready. destruct (ready_parts w Hready) as (Hcp & Htasks & Hfiles & Hretry).
  destruct (load_ready w Hcp) as (w1 & Hload & Hcp1 & Htf1 & Htw1 & Hdir1).
  set (cp := loaded_checkpoint w) in *.
  unfold _verify_session. fold (from_checks baseline val_results).
  destruct (from_checks baseline val_results) as [B0 W0] eqn:EB. cbn [fst snd].
  cbv [mbind M_bind]. rewrite Hload.
  rewrite (check_files_modified_exact exists_on_disk cp B0 w1 Hfiles).
  assert (readable (tasks_file w1) = true) as Htr1 by (rewrite Htf1; exact Htasks).
  rewrite (get_tasks_status "done" w1 Htr1) by discriminate.
  rewrite criteria_exact, (listed_same_file w w1 Htf1).
  pose proof (after_load_checkpoint w1) as (Hcp2 & Hdir2).
  pose proof (readable_after_load w1 Htr1) as Htr2.
  destruct (check_all_done_exact cp
              ((B0 ++ files_issue exists_on_disk cp)
               ++ criteria_issues check_criteria (with_status "done" (listed w)))
              (after_load w1) Htr2) as (w3 & -> & Hw3).
  rewrite listed_after_load, (listed_same_file w w1 Htf1).
  assert (w3 = after_load w1) as ->
    by (destruct Hw3 as [->| ->]; [reflexivity | apply after_load_idem]).
  unfold later_issues. rewrite <- !app_assoc.
  unfold retry_ok in Hretry.
  destruct (last_verification_of cp) as [lv|]; [|discriminate].
  match goal with
  | |- context [next_retry_count (prev_retry lv) ?B] =>
      assert (exists rc, next_retry_count (prev_retry lv) B = Return rc) as (rc & Hrc)
  end.
  { unfold next_retry_count. destruct (B0 ++ _); [eexists; reflexivity|].
    destruct (prev_retry lv); try discriminate; eexists; reflexivity. }
  rewrite Hrc. exists lv, rc, (after_load w1).
  split; [reflexivity|]. split; [reflexivity|]. split; [exact Hrc|].
  split; [congruence|]. split; [congruence|]. split; [exact Htr2|].
  apply after_load_same; assumption.
Qed.

End Exact.

End VerifyExact.

Module BlockingChecks.
Import SessionLoop Obs LoopObs TaskFacts CheckpointFacts VerifyFacts StoreFacts SessionFacts
  VerifyExact.

Lemma classify_report_blocking (baseline : option (gmap string BaselineEntry))
    (acc : list Issue * list Issue) (entry : string * Validator.ValidationReport) :
  Forall from_blocking_check (fst acc) ->
  Forall from_blocking_check (fst (classify_report baseline acc entry)).
Proof.
  destruct acc as [B W], entry as [name report]. cbn [fst]. intros HB.
  unfold classify_report.
  destruct (negb (Validator.is_fail (Validator.result report))); [exact HB|].
  destruct (negb (_is_new_issue baseline name)); [exact HB|].
  destruct (bool_decide (name ∈ BLOCKING_CHECKS)) eqn:E; [|exact HB].
  cbn [fst]. apply Forall_app. split; [exact HB|].
  constructor; [exists name; split; [reflexivity | exact E]|].
  destruct (Validator.details report) as [d|]; [|constructor].
  destruct (String.eqb d ""); constructor; [|constructor].
  exists name. split; [reflexivity | exact E].
Qed.

Lemma from_checks_blocking (baseline : option (gmap string BaselineEntry))
    (vr : list (string * Validator.ValidationReport)) (acc : list Issue * list Issue) :
  Forall from_blocking_check (fst acc) ->
  Forall from_blocking_check (fst (fold_left (classify_report baseline) vr acc)).
Proof.
  revert acc. induction vr as [|e r IH]; intros acc H; [exact H|].
  cbn [fold_left]. apply IH, classify_report_blocking, H.
Qed.

Lemma blocking_names (n : string) :
  bool_decide (n ∈ BLOCKING_CHECKS) = true -> n = "syntax" \/ n = "tests".
Proof.
  intros H. apply bool_decide_eq_true in H. unfold BLOCKING_CHECKS in H.
  apply elem_of_union in H as [H|H]; apply elem_of_singleton in H; [left | right]; exact H.
Qed.

Lemma later_issues_sources (ex : string -> bool) (cc : string -> Validator.ValidationReport)
    (cp : gmap string json) (ts : list Tasks.Task) (i : Issue) :
  In i (later_issues ex cc cp ts) -> later_source (source i) = true.
Proof.
  unfold later_issues. intros H. apply in_app_iff in H as [H|H].
  - unfold files_issue in H.
    destruct (truthy _); [|destruct H].
    destruct (paths_of _); [|destruct H].
    destruct (Validator.is_fail _); [|destruct H].
    destruct H as [<-|[]]. reflexivity.
  - apply in_app_iff in H as [H|H].
    + destruct (criteria_appends cc (with_status "done" ts) []) as (extra & Hx & Hall).
      unfold criteria_issues in H. rewrite Hx in H. cbn in H.
      rewrite List.Forall_forall in Hall. exact (Hall i H).
    + unfold incomplete_issue in H.
      destruct (_ && _); [|destruct H]. destruct H as [<-|[]]. reflexivity.
Qed.

Lemma from_checks_warns (baseline : option (gmap string BaselineEntry))
    (vr : list (string * Validator.ValidationReport)) (acc : list Issue * list Issue)
    (name : string) (report : Validator.ValidationReport) :
  In (name, report) vr ->
  Validator.is_fail (Validator.result report) = true ->
  _is_new_issue baseline name = true ->
  bool_decide (name ∈ BLOCKING_CHECKS) = false ->
  In (mkIssue (CheckWarning name) (name +:+ ": " +:+ Validator.message report))
     (snd (fold_left (classify_report baseline) vr acc)).
Proof.
  intros Hin Hfail Hnew Hblock. revert acc.
  induction vr as [|e r IH]; intros acc; [destruct Hin|].
  cbn [fold_left]. destruct Hin as [->|Hin]; [|apply IH, Hin].
  destruct (from_checks_spec baseline r (classify_report baseline acc (name, report)))
    as (_ & _ & _ & Hmono & _).
  apply Hmono. destruct acc as [B W]. unfold classify_report.
  rewrite Hfail, Hnew, Hblock. cbn. apply in_app_iff. right. left. reflexivity.
Qed.

Lemma not_blocking_name (name : string) :
  name <> "syntax" -> name <> "tests" -> bool_decide (name ∈ BLOCKING_CHECKS) = false.
Proof.
  intros H1 H2. destruct (bool_decide (name ∈ BLOCKING_CHECKS)) eqn:E; [|reflexivity].
  apply blocking_names in E as [E|E]; contradiction.
Qed.

(** X14. Among the validator's checks only ["syntax"] and ["tests"] can put
    an entry into [blocking_issues]; a failing check of any other name (lint,
    build, git) is reported among the warnings. *)
Theorem only_syntax_and_tests_block
    (baseline : option (gmap string BaselineEntry))
    (val_results : list (string * Validator.ValidationReport))
    (exists_on_disk : string -> bool) (check_criteria : string -> Validator.ValidationReport)
    (w : World) :
  ready w = true ->
  exists r w',
    _verify_session baseline val_results exists_on_disk check_criteria w = (Return r, w')
    /\ (forall i n, In i (blocking_issues r) -> check_of (source i) = Some n ->
          n = "syntax" \/ n = "tests")
    /\ (forall name report, In (name, report) val_results ->
          Validator.is_fail (Validator.result report) = true ->
          name <> "syntax" -> name <> "tests" ->
          exists i, In i (warnings r)
                    /\ (source i = CheckWarning name \/ source i = PreExisting name)).
Proof.
  intros Hready.
  destruct (verify_exact baseline val_results exists_on_disk check_criteria w Hready)
    as (lv & rc & w' & Hrun & _).
  eexists _, _. split; [exact Hrun|].
  rewrite blocking_conclude. split.
  - intros i n Hi Hn. apply in_app_iff in Hi as [Hi|Hi].
    + pose proof (from_checks_blocking baseline val_results ([], []) (List.Forall_nil _)) as Hall.
      rewrite List.Forall_forall in Hall. destruct (Hall i Hi) as (n' & Hn' & Hb).
      rewrite Hn in Hn'. injection Hn' as <-. apply blocking_names, Hb.
    + apply later_issues_sources in Hi. destruct (source i); discriminate.
  - intros name report Hin Hfail H1 H2.
    assert (Hw : forall i, In i (snd (from_checks baseline val_results)) ->
                           In i (warnings (conclude val_results
                                   (fst (from_checks baseline val_results)
                                    ++ later_issues exists_on_disk check_criteria
                                         (loaded_checkpoint w) (listed w))
                                   (snd (from_checks baseline val_results)) rc))).
    { intros i Hi. rewrite warnings_conclude.
      destruct (force_accepted _); [apply in_app_iff; left|]; exact Hi. }
    destruct (_is_new_issue baseline name) eqn:Hnew.
    + exists (mkIssue (CheckWarning name) (name +:+ ": " +:+ Validator.message report)).
      split; [apply Hw | left; reflexivity].
      apply (from_checks_warns baseline val_results ([], []) name report Hin Hfail Hnew).
      apply not_blocking_name; assumption.
    + destruct (from_checks_spec baseline val_results ([], [])) as (_ & _ & _ & _ & I5).
      specialize (I5 name report Hin Hfail). rewrite Hnew in I5.
      exists (mkIssue (PreExisting name)
                (name +:+ ": " +:+ Validator.message report +:+ " (pre-existing, skipped)")).
      split; [apply Hw, I5 | right; reflexivity].
Qed.

Lemma only_syntax_and_tests_block_witness :
  exists r w',
    _verify_session None Ex.failing_lint_run Ex.all_exist Ex.unverifiable Ex.session1
    = (Return r, w')
    /\ (forall i n, In i (blocking_issues r) -> check_of (source i) = Some n ->
          n = "syntax" \/ n = "tests")
    /\ (forall name report, In (name, report) Ex.failing_lint_run ->
          Validator.is_fail (Validator.result report) = true ->
          name <> "syntax" -> name <> "tests" ->
          exists i, In i (warnings r)
                    /\ (source i = CheckWarning name \/ source i = PreExisting name)).
Proof.
  apply (only_syntax_and_tests_block None Ex.failing_lint_run Ex.all_exist Ex.unverifiable
           Ex.session1).
  vm_compute. reflexivity.
Defined.

(** X29. Verification only reads: it leaves the checkpoint and its archive
    as they are, and the task document as a load leaves it, which is untouched
    when no stored task lacks a priority. *)
Theorem verification_only_reads
    (baseline : option (gmap string BaselineEntry))
    (val_results : list (string * Validator.ValidationReport))
    (exists_on_disk : string -> bool) (check_criteria : string -> Validator.ValidationReport)
    (w : World) :
  ready w = true ->
  exists r w',
    _verify_session baseline val_results exists_on_disk check_criteria w = (Return r, w')
    /\ checkpoint_file w' = checkpoint_file w
    /\ checkpoints_dir w' = checkpoints_dir w
    /\ tasks_file w' = tasks_file (snd (TaskManager._load_data w))
    /\ tasks_writes w' = tasks_writes (snd (TaskManager._load_data w))
    /\ (forall data, tasks_file w = Holds data ->
          TaskManager.needs_save (Tasks.tasks data) = false ->
          tasks_file w' = tasks_file w /\ tasks_writes w' = tasks_writes w).
Proof.
  intros Hready.
  destruct (verify_exact baseline val_results exists_on_disk check_criteria w Hready)
    as (lv & rc & w' & Hrun & _ & _ & Hcp & Hdir & _ & Htf & Htw).
  destruct (ready_parts w Hready) as (_ & Htasks & _).
  eexists _, _. split; [exact Hrun|].
  rewrite (_load_data_returns w Htasks). cbn [snd].
  repeat split; try assumption.
  - rewrite Htf, (after_load_clean w data); [reflexivity | assumption | assumption].
  - rewrite Htw, (after_load_clean w data); [reflexivity | assumption | assumption].
Qed.

Lemma verification_only_reads_witness :
  exists r w',
    _verify_session None Ex.failing_tests_run Ex.all_exist Ex.unverifiable Scenes.claimed_world
    = (Return r, w')
    /\ checkpoint_file w' = checkpoint_file Scenes.claimed_world
    /\ checkpoints_dir w' = checkpoints_dir Scenes.claimed_world
    /\ tasks_file w' = tasks_file (snd (TaskManager._load_data Scenes.claimed_world))
    /\ tasks_writes w' = tasks_writes (snd (TaskManager._load_data Scenes.claimed_world))
    /\ (forall data, tasks_file Scenes.claimed_world = Holds data ->
          TaskManager.needs_save (Tasks.tasks data) = false ->
          tasks_file w' = tasks_file Scenes.claimed_world
          /\ tasks_writes w' = tasks_writes Scenes.claimed_world).
Proof.
  apply (verification_only_reads None Ex.failing_tests_run Ex.all_exist Ex.unverifiable
           Scenes.claimed_world).
  vm_compute. reflexivity.
Defined.

End BlockingChecks.

Module LaterFacts.
Import SessionLoop Obs LoopObs TaskFacts CheckpointFacts VerifyFacts StoreFacts SessionFacts
  VerifyExact BlockingChecks.

Lemma from_checks_clean (baseline : option (gmap string BaselineEntry))
    (vr : list (string * Validator.ValidationReport)) (acc : list Issue * list Issue) :
  (forall name report, In (name, report) vr ->
     Validator.is_fail (Validator.result report) = true ->
     bool_decide (name ∈ BLOCKING_CHECKS) = true ->
     _is_new_issue baseline name = false) ->
  fst acc = [] ->
  fst (fold_left (classify_report baseline) vr acc) = [].
Proof.
  revert acc. induction vr as [|[name report] r IH]; intros acc H Hacc; [exact Hacc|].
  cbn [fold_left]. apply IH; [intros n rep Hin; apply H; right; exact Hin|].
  destruct acc as [B W]. cbn [fst] in Hacc. subst B. unfold classify_report.
  destruct (Validator.is_fail (Validator.result report)) eqn:Hf; [|reflexivity].
  cbn [negb]. destruct (_is_new_issue baseline name) eqn:Hn; [|reflexivity].
  cbn [negb]. destruct (bool_decide (name ∈ BLOCKING_CHECKS)) eqn:Hb; [|reflexivity].
  rewrite (H name report (or_introl eq_refl) Hf Hb) in Hn. discriminate.
Qed.

Lemma filter_none {A : Type} (f : A -> bool) (l : list A) :
  (forall x, In x l -> f x = false) -> List.filter f l = [].
Proof.
  induction l as [|x r IH]; intros H; [reflexivity|].
  cbn. rewrite (H x (or_introl eq_refl)). apply IH. intros y Hy. apply H. right. exact Hy.
Qed.

Lemma filter_some {A : Type} (f : A -> bool) (l : list A) (x : A) :
  In x l -> f x = true -> List.filter f l <> [].
Proof.
  intros Hin Hf Hnil. assert (In x (List.filter f l)) as H by (apply filter_In; split; assumption).
  rewrite Hnil in H. exact H.
Qed.

Lemma files_issue_nil (ex : string -> bool) (cp : gmap string json) :
  (forall p, In p (modified_files cp) -> ex p = true) -> files_issue ex cp = [].
Proof.
  unfold files_issue, modified_files. intros H.
  destruct (truthy _); [|reflexivity].
  destruct (paths_of _) as [paths|]; [|reflexivity].
  unfold Validator.check_files_exist. destruct paths as [|p r]; [reflexivity|].
  rewrite filter_none; [reflexivity|].
  intros x Hx. rewrite (H x Hx). reflexivity.
Qed.

Lemma strings_of_nil (l : list json) : strings_of l = Some [] -> l = [].
Proof.
  destruct l as [|[] r]; try discriminate; [reflexivity|].
  cbn. destruct (strings_of r); discriminate.
Qed.

Lemma files_issue_missing (ex : string -> bool) (cp : gmap string json) (p : string) :
  In p (modified_files cp) -> ex p = false ->
  exists message, files_issue ex cp = [mkIssue FilesMissing ("files: " +:+ message)].
Proof.
  unfold files_issue, modified_files. intros Hin Hex.
  destruct (default (JList []) (cp !! "files_modified")) as [| | | |l|]; try destruct Hin.
  unfold paths_of in *. destruct (strings_of l) as [paths|] eqn:Hs; [|destruct Hin].
  assert (truthy (JList l) = true) as ->.
  { destruct l; [|reflexivity]. cbn in Hs. injection Hs as <-. destruct Hin. }
  unfold Validator.check_files_exist. destruct paths as [|q r]; [destruct Hin|].
  destruct (List.filter _ (q :: r)) eqn:Hf.
  - exfalso. apply (filter_some (fun fp => negb (ex fp)) (q :: r) p Hin); [|exact Hf].
    rewrite Hex. reflexivity.
  - eexists. reflexivity.
Qed.

Lemma criteria_issues_nil (cc : string -> Validator.ValidationReport)
    (ts : list Tasks.Task) :
  (forall t c, In t ts -> Tasks.success_criteria t = Some c ->
               Validator.is_fail (Validator.result (cc c)) = false) ->
  criteria_issues cc ts = [].
Proof.
  unfold criteria_issues. induction ts as [|t r IH] using rev_ind; intros H; [reflexivity|].
  rewrite fold_left_app. cbn [fold_left]. rewrite IH.
  - unfold check_task_criteria. destruct (Tasks.success_criteria t) as [c|] eqn:E;
      [|reflexivity].
    destruct (String.eqb c ""); [reflexivity|].
    rewrite (H t c); [reflexivity | apply in_app_iff; right; left; reflexivity | exact E].
  - intros u c Hu. apply H. apply in_app_iff. left. exact Hu.
Qed.

Lemma criteria_issues_spec (cc : string -> Validator.ValidationReport)
    (ts : list Tasks.Task) (i : Issue) :
  In i (criteria_issues cc ts)
  <-> exists t c, In t ts /\ Tasks.success_criteria t = Some c /\ c <> ""
        /\ Validator.is_fail (Validator.result (cc c)) = true
        /\ i = mkIssue (CriteriaFailed (Tasks.id t))
                 (Tasks.id t +:+ " criteria: " +:+ Validator.message (cc c)).
Proof.
  unfold criteria_issues. induction ts as [|t r IH] using rev_ind.
  - cbn. split; [intros [] | intros (t & c & [] & _)].
  - rewrite fold_left_app. cbn [fold_left]. rewrite check_task_criteria_app, in_app_iff, IH.
    split.
    + intros [(u & c & Hu & H)|Hi].
      * exists u, c. split; [apply in_app_iff; left; exact Hu | exact H].
      * unfold check_task_criteria in Hi.
        destruct (Tasks.success_criteria t) as [c|] eqn:E; [|destruct Hi].
        destruct (String.eqb_spec c ""); [destruct Hi|].
        destruct (Validator.is_fail _) eqn:Hf; [|destruct Hi].
        destruct Hi as [<-|[]]. exists t, c.
        split; [apply in_app_iff; right; left; reflexivity|]. repeat split; assumption.
    + intros (u & c & Hu & Hc & Hne & Hf & ->). apply in_app_iff in Hu as [Hu|[<-|[]]].
      * left. exists u, c. repeat split; assumption.
      * right. unfold check_task_criteria. rewrite Hc.
        destruct (String.eqb_spec c ""); [contradiction|]. rewrite Hf. left. reflexivity.
Qed.

Lemma count_done_all (ts : list Tasks.Task) :
  (forall t, In t ts -> Tasks.status t = "done") ->
  length (with_status "done" ts) = length ts.
Proof.
  unfold with_status. induction ts as [|t r IH]; intros H; [reflexivity|].
  cbn. rewrite (H t (or_introl eq_refl)). cbn. f_equal. apply IH.
  intros u Hu. apply H. right. exact Hu.
Qed.

Lemma count_done_some_open (ts : list Tasks.Task) (t : Tasks.Task) :
  In t ts -> Tasks.status t <> "done" ->
  (length (with_status "done" ts) < length ts)%nat.
Proof.
  unfold with_status. induction ts as [|u r IH]; intros Hin Hs; [destruct Hin|].
  cbn. destruct Hin as [->|Hin].
  - destruct (String.eqb_spec (Tasks.status t) "done"); [contradiction|].
    pose proof (filter_length_le (fun t => String.eqb (Tasks.status t) "done") r). lia.
  - specialize (IH Hin Hs). destruct (String.eqb (Tasks.status u) "done"); cbn; lia.
Qed.

End LaterFacts.

Module LaterSteps.
Import SessionLoop Obs LoopObs TaskFacts CheckpointFacts VerifyFacts StoreFacts SessionFacts
  VerifyExact BlockingChecks LaterFacts.

Lemma rejected_until_cap vr (B W : list Issue) (rc : Z) :
  B <> [] ->
  passed (conclude vr B W rc) = Z.leb 3 rc
  /\ force_accepted (conclude vr B W rc) = Z.leb 3 rc.
Proof.
  intros HB. rewrite passed_conclude, force_conclude.
  destruct B; [contradiction | split; reflexivity].
Qed.

Lemma retry_positive (pr : json) (B : list Issue) (rc : Z) :
  B <> [] -> next_retry_count pr B = Return rc ->
  forall z, pr = JInt z -> rc = z + 1.
Proof.
  intros HB H z ->. destruct B; [contradiction|]. cbn in H. congruence.
Qed.

(** X15. A session passes verification with no blocking issue, a retry count
    of 0 and no force-accept when every failing blocking check was already
    failing in the baseline, every file listed as modified exists, no done task
    has a criterion that fails, and the checkpoint does not say COMPLETED while
    a task is not done; the next prompt then carries no verification
    section. *)
Theorem clean_session_is_verified
    (baseline : option (gmap string BaselineEntry))
    (val_results : list (string * Validator.ValidationReport))
    (exists_on_disk : string -> bool) (check_criteria : string -> Validator.ValidationReport)
    (w : World) :
  ready w = true ->
  (forall name report, In (name, report) val_results ->
     Validator.is_fail (Validator.result report) = true ->
     bool_decide (name ∈ BLOCKING_CHECKS) = true ->
     _is_new_issue baseline name = false) ->
  (forall p, In p (modified_files (loaded_checkpoint w)) -> exists_on_disk p = true) ->
  (forall t c, In t (listed w) -> Tasks.status t = "done" ->
               Tasks.success_criteria t = Some c ->
               Validator.is_fail (Validator.result (check_criteria c)) = false) ->
  (eq_str (loaded_checkpoint w !! "status") "COMPLETED" = true ->
   forall t, In t (listed w) -> Tasks.status t = "done") ->
  exists r w',
    _verify_session baseline val_results exists_on_disk check_criteria w = (Return r, w')
    /\ passed r = true
    /\ force_accepted r = false
    /\ blocking_issues r = []
    /\ retry_count r = 0
    /\ Prompt._get_verification_prompt (Some r) = "".
Proof.
  intros Hready Hchecks Hfiles Hcrit Hdone.
  destruct (verify_exact baseline val_results exists_on_disk check_criteria w Hready)
    as (lv & rc & w' & Hrun & _ & Hrc & _).
  assert (HB : fst (from_checks baseline val_results)
               ++ later_issues exists_on_disk check_criteria (loaded_checkpoint w) (listed w)
               = []).
  { unfold from_checks. rewrite (from_checks_clean baseline val_results ([], []) Hchecks eq_refl).
    unfold later_issues. rewrite (files_issue_nil _ _ Hfiles).
    rewrite criteria_issues_nil.
    - unfold incomplete_issue.
      destruct (eq_str (loaded_checkpoint w !! "status") "COMPLETED"); [|reflexivity].
      rewrite (count_done_all _ (Hdone eq_refl)), Nat.ltb_irrefl. reflexivity.
    - intros t c Ht Hc. apply in_with_status in Ht as [Ht Hs]. exact (Hcrit t c Ht Hs Hc). }
  rewrite HB in Hrun, Hrc. cbn in Hrc. injection Hrc as <-.
  eexists _, _. split; [exact Hrun|]. repeat split.
Qed.

Lemma clean_session_witness :
  exists r w',
    _verify_session None Ex.failing_lint_run Ex.all_exist Ex.unverifiable Ex.session1
    = (Return r, w')
    /\ passed r = true
    /\ force_accepted r = false
    /\ blocking_issues r = []
    /\ retry_count r = 0
    /\ Prompt._get_verification_prompt (Some r) = "".
Proof.
  apply (clean_session_is_verified None Ex.failing_lint_run Ex.all_exist Ex.unverifiable
           Ex.session1).
  - vm_compute. reflexivity.
  - intros name report [H|[H|[H|[H|[]]]]]; injection H as <- <-; intros Hf Hb;
      vm_compute in Hf, Hb; discriminate.
  - intros p _. reflexivity.
  - intros t c [].
  - intros _ t [].
Defined.

(** X16. When the checkpoint says COMPLETED and some task is not done,
    verification lists the issue "Only d/n done but checkpoint says COMPLETED"
    with the counts of [get_progress], and the result passes only by
    force-accept, that is when the retry count, one more than the recorded one,
    has reached 3. *)
Theorem completed_with_open_tasks_is_rejected
    (baseline : option (gmap string BaselineEntry))
    (val_results : list (string * Validator.ValidationReport))
    (exists_on_disk : string -> bool) (check_criteria : string -> Validator.ValidationReport)
    (w : World) (t : Tasks.Task) :
  ready w = true ->
  eq_str (loaded_checkpoint w !! "status") "COMPLETED" = true ->
  In t (listed w) -> Tasks.status t <> "done" ->
  exists r w',
    _verify_session baseline val_results exists_on_disk check_criteria w = (Return r, w')
    /\ In (mkIssue TasksIncomplete
             ("tasks: Only " +:+ Fmt.str_int (Z.of_nat (length (with_status "done" (listed w))))
              +:+ "/" +:+ Fmt.str_int (Z.of_nat (length (listed w)))
              +:+ " done but checkpoint says COMPLETED"))
          (blocking_issues r)
    /\ passed r = Z.leb 3 (retry_count r)
    /\ force_accepted r = Z.leb 3 (retry_count r)
    /\ (forall z, previous_retry_count w = JInt z -> retry_count r = z + 1).
Proof.
  intros Hready Hc Hin Hs.
  destruct (verify_exact baseline val_results exists_on_disk check_criteria w Hready)
    as (lv & rc & w' & Hrun & Hlv & Hrc & _).
  eexists _, _. split; [exact Hrun|].
  rewrite blocking_conclude, retry_conclude.
  assert (Hi : In (mkIssue TasksIncomplete
             ("tasks: Only " +:+ Fmt.str_int (Z.of_nat (length (with_status "done" (listed w))))
              +:+ "/" +:+ Fmt.str_int (Z.of_nat (length (listed w)))
              +:+ " done but checkpoint says COMPLETED"))
            (fst (from_checks baseline val_results)
             ++ later_issues exists_on_disk check_criteria (loaded_checkpoint w) (listed w))).
  { apply in_app_iff. right. unfold later_issues. rewrite !in_app_iff. right. right.
    unfold incomplete_issue. rewrite Hc.
    pose proof (count_done_some_open (listed w) t Hin Hs) as Hlt.
    apply Nat.ltb_lt in Hlt. rewrite Hlt. left. reflexivity. }
  assert (HB : fst (from_checks baseline val_results)
               ++ later_issues exists_on_disk check_criteria (loaded_checkpoint w) (listed w)
               <> []) by (intros E; rewrite E in Hi; exact Hi).
  split; [exact Hi|].
  destruct (rejected_until_cap val_results _ (snd (from_checks baseline val_results)) rc HB)
    as [Hp Hf].
  split; [exact Hp|]. split; [exact Hf|].
  intros z Hz. apply (retry_positive _ _ _ HB Hrc).
  rewrite (prev_retry_loaded w lv Hlv). exact Hz.
Qed.

Lemma completed_with_open_tasks_witness :
  exists r w',
    _verify_session None Scenes.all_ok_run Ex.all_exist Ex.unverifiable Scenes.claimed_world
    = (Return r, w')
    /\ In (mkIssue TasksIncomplete
             ("tasks: Only "
              +:+ Fmt.str_int (Z.of_nat (length (with_status "done" (listed Scenes.claimed_world))))
              +:+ "/" +:+ Fmt.str_int (Z.of_nat (length (listed Scenes.claimed_world)))
              +:+ " done but checkpoint says COMPLETED"))
          (blocking_issues r)
    /\ passed r = Z.leb 3 (retry_count r)
    /\ force_accepted r = Z.leb 3 (retry_count r)
    /\ (forall z, previous_retry_count Scenes.claimed_world = JInt z -> retry_count r = z + 1).
Proof.
  apply (completed_with_open_tasks_is_rejected None Scenes.all_ok_run Ex.all_exist
           Ex.unverifiable Scenes.claimed_world (Ex.task 2 "pending" 2)).
  - vm_compute. reflexivity.
  - reflexivity.
  - right. left. reflexivity.
  - discriminate.
Defined.

(** X17. When the checkpoint lists a modified file that does not exist,
    verification has a blocking issue that reports the missing files, and the
    result passes only when the retry count has reached 3. *)
Theorem missing_modified_file_blocks
    (baseline : option (gmap string BaselineEntry))
    (val_results : list (string * Validator.ValidationReport))
    (exists_on_disk : string -> bool) (check_criteria : string -> Validator.ValidationReport)
    (w : World) (p : string) :
  ready w = true ->
  In p (modified_files (loaded_checkpoint w)) ->
  exists_on_disk p = false ->
  exists r w' i,
    _verify_session baseline val_results exists_on_disk check_criteria w = (Return r, w')
    /\ In i (blocking_issues r)
    /\ source i = FilesMissing
    /\ line i
       = "files: " +:+ Validator.message
                         (Validator.check_files_exist exists_on_disk
                            (modified_files (loaded_checkpoint w)))
    /\ passed r = Z.leb 3 (retry_count r).
Proof.
  intros Hready Hin Hex.
  destruct (verify_exact baseline val_results exists_on_disk check_criteria w Hready)
    as (lv & rc & w' & Hrun & _).
  destruct (files_issue_missing exists_on_disk (loaded_checkpoint w) p Hin Hex)
    as (message & Hmsg).
  assert (Hline : message
                  = Validator.message
                      (Validator.check_files_exist exists_on_disk
                         (modified_files (loaded_checkpoint w)))).
  { unfold files_issue, modified_files in *.
    destruct (truthy _); [|discriminate].
    destruct (paths_of _) as [paths|]; [|discriminate].
    destruct (Validator.is_fail _); [|discriminate].
    injection Hmsg as Hmsg. apply String.app_inj in Hmsg. symmetry. exact Hmsg. }
  exists (conclude val_results
            (fst (from_checks baseline val_results)
             ++ later_issues exists_on_disk check_criteria (loaded_checkpoint w) (listed w))
            (snd (from_checks baseline val_results)) rc), w',
         (mkIssue FilesMissing ("files: " +:+ message)).
  split; [exact Hrun|]. rewrite blocking_conclude, retry_conclude.
  assert (Hi : In (mkIssue FilesMissing ("files: " +:+ message))
                 (fst (from_checks baseline val_results)
                  ++ later_issues exists_on_disk check_criteria (loaded_checkpoint w)
                       (listed w))).
  { apply in_app_iff. right. unfold later_issues. rewrite Hmsg. left. reflexivity. }
  split; [exact Hi|]. split; [reflexivity|]. split; [cbn; rewrite Hline; reflexivity|].
  apply rejected_until_cap. intros E. rewrite E in Hi. exact Hi.
Qed.

Lemma missing_modified_file_witness :
  exists r w' i,
    _verify_session None Scenes.all_ok_run Scenes.only_readme Ex.unverifiable
      Scenes.claimed_world = (Return r, w')
    /\ In i (blocking_issues r)
    /\ source i = FilesMissing
    /\ line i
       = "files: " +:+ Validator.message
                         (Validator.check_files_exist Scenes.only_readme
                            (modified_files (loaded_checkpoint Scenes.claimed_world)))
    /\ passed r = Z.leb 3 (retry_count r).
Proof.
  apply (missing_modified_file_blocks None Scenes.all_ok_run Scenes.only_readme
           Ex.unverifiable Scenes.claimed_world "src/app.py").
  - vm_compute. reflexivity.
  - left. reflexivity.
  - reflexivity.
Defined.

(** X18. A done task whose success criterion fails adds the blocking issue
    "<id> criteria: <message>", and the result then passes only when the retry
    count has reached 3; conversely every criteria issue comes from a listed
    task that is done and whose criterion fails: the criteria of tasks that are
    not done are not evaluated. *)
Theorem criteria_of_done_tasks_block
    (baseline : option (gmap string BaselineEntry))
    (val_results : list (string * Validator.ValidationReport))
    (exists_on_disk : string -> bool) (check_criteria : string -> Validator.ValidationReport)
    (w : World) :
  ready w = true ->
  exists r w',
    _verify_session baseline val_results exists_on_disk check_criteria w = (Return r, w')
    /\ (forall t c, In t (listed w) -> Tasks.status t = "done" ->
          Tasks.success_criteria t = Some c -> c <> "" ->
          Validator.is_fail (Validator.result (check_criteria c)) = true ->
          In (mkIssue (CriteriaFailed (Tasks.id t))
                (Tasks.id t +:+ " criteria: " +:+ Validator.message (check_criteria c)))
             (blocking_issues r)
          /\ passed r = Z.leb 3 (retry_count r))
    /\ (forall i tid, In i (blocking_issues r) -> source i = CriteriaFailed tid ->
          exists t c, In t (listed w) /\ Tasks.id t = tid /\ Tasks.status t = "done"
            /\ Tasks.success_criteria t = Some c
            /\ Validator.is_fail (Validator.result (check_criteria c)) = true).
Proof.
  intros Hready.
  destruct (verify_exact baseline val_results exists_on_disk check_criteria w Hready)
    as (lv & rc & w' & Hrun & _).
  eexists _, _. split; [exact Hrun|]. rewrite blocking_conclude, retry_conclude. split.
  - intros t c Hin Hs Hc Hne Hf.
    assert (Hi : In (mkIssue (CriteriaFailed (Tasks.id t))
                       (Tasks.id t +:+ " criteria: " +:+ Validator.message (check_criteria c)))
                   (fst (from_checks baseline val_results)
                    ++ later_issues exists_on_disk check_criteria (loaded_checkpoint w)
                         (listed w))).
    { apply in_app_iff. right. unfold later_issues. rewrite !in_app_iff. right. left.
      apply criteria_issues_spec. exists t, c.
      split; [apply in_with_status; split; assumption|]. repeat split; assumption. }
    split; [exact Hi|]. apply rejected_until_cap. intros E. rewrite E in Hi. exact Hi.
  - intros i tid Hi Hsrc. apply in_app_iff in Hi as [Hi|Hi].
    + pose proof (from_checks_blocking baseline val_results ([], []) (List.Forall_nil _))
        as Hall.
      rewrite List.Forall_forall in Hall. destruct (Hall i Hi) as (n & Hn & _).
      rewrite Hsrc in Hn. discriminate.
    + unfold later_issues in Hi. rewrite !in_app_iff in Hi. destruct Hi as [Hi|[Hi|Hi]].
      * unfold files_issue in Hi. destruct (truthy _); [|destruct Hi].
        destruct (paths_of _); [|destruct Hi]. destruct (Validator.is_fail _); [|destruct Hi].
        destruct Hi as [<-|[]]. discriminate.
      * apply criteria_issues_spec in Hi as (t & c & Ht & Hc & _ & Hf & ->).
        apply in_with_status in Ht as [Ht Hs]. injection Hsrc as <-.
        exists t, c. repeat split; assumption.
      * unfold incomplete_issue in Hi. destruct (_ && _); [|destruct Hi].
        destruct Hi as [<-|[]]. discriminate.
Qed.

Lemma criteria_of_done_tasks_witness :
  exists r w',
    _verify_session None Scenes.all_ok_run Ex.all_exist Scenes.criteria_fail
      Scenes.claimed_world = (Return r, w')
    /\ In (mkIssue (CriteriaFailed "task_001") "task_001 criteria: Tests failed")
          (blocking_issues r)
    /\ passed r = Z.leb 3 (retry_count r).
Proof.
  destruct (criteria_of_done_tasks_block None Scenes.all_ok_run Ex.all_exist
              Scenes.criteria_fail Scenes.claimed_world eq_refl) as (r & w' & Hrun & H & _).
  exists r, w'. split; [exact Hrun|].
  apply (H Scenes.shipped "tests pass").
  - left. reflexivity.
  - reflexivity.
  - reflexivity.
  - discriminate.
  - reflexivity.
Defined.

End LaterSteps.

Module RecordFacts.
Import SessionLoop Obs LoopObs TaskFacts CheckpointFacts VerifyFacts StoreFacts SessionFacts
  VerifyExact BlockingChecks LaterFacts LaterSteps.

Lemma failed_verification_status (r : VerificationResult) (cp : gmap string json) (v : json) :
  failed_verification r (<["status" := v]> cp) = failed_verification r cp.
Proof. unfold failed_verification. rewrite lookup_insert_ne by discriminate. reflexivity. Qed.

(** X19. The test that follows verification in [start] ends the loop exactly
    when the checkpoint says COMPLETED and verification passed. When it says
    COMPLETED and verification failed, the status is set back to ["WORKING"],
    the failed verification is stored under ["last_verification"] with its
    retry count, every other key is kept and [is_completed] is false
    afterwards; in every other case the checkpoint and its archive are left as
    they are. *)
Theorem rejected_claim_is_reset
    (baseline : option (gmap string BaselineEntry))
    (val_results : list (string * Validator.ValidationReport))
    (exists_on_disk : string -> bool) (check_criteria : string -> Validator.ValidationReport)
    (w : World) :
  ready w = true -> recordable w = true ->
  exists r finished w',
    verify_and_record baseline val_results exists_on_disk check_criteria w
    = (Return (r, finished), w')
    /\ finished = claims_completed w && passed r
    /\ (claims_completed w && negb (passed r) = false ->
        checkpoint_file w' = checkpoint_file w /\ checkpoints_dir w' = checkpoints_dir w)
    /\ (claims_completed w && negb (passed r) = true ->
        exists cp',
          checkpoint_file w' = Holds cp'
          /\ cp' !! "status" = Some (JStr "WORKING")
          /\ cp' !! "last_verification"
             = Some (JObj (failed_verification r (loaded_checkpoint w)))
          /\ (forall k, k <> "status" -> k <> "last_verification" -> k <> "updated_at" ->
                        cp' !! k = loaded_checkpoint w !! k)
          /\ CheckpointManager.is_completed w' = (Return false, w')
          /\ previous_retry_count w' = JInt (retry_count r)).
Proof.
  intros Hready Hsession.
  destruct (verify_exact baseline val_results exists_on_disk check_criteria w Hready)
    as (lv & rc & w1 & Hrun & _ & _ & Hcp & Hdir & _).
  match type of Hrun with _ = (Return ?x, _) => set (r := x) in * end.
  destruct (ready_parts w Hready) as (Hrcp & _).
  assert (Hic : exists w2,
             CheckpointManager.is_completed w1 = (Return (claims_completed w), w2)
             /\ checkpoint_file w2 = checkpoint_file w
             /\ checkpoints_dir w2 = checkpoints_dir w
             /\ (claims_completed w = true -> w2 = w1)).
  { unfold claims_completed. destruct (checkpoint_file w) as [|e|cp] eqn:E.
    - unfold CheckpointManager.is_completed, mbind, M_bind.
      rewrite (load_initial w1) by (rewrite Hcp; reflexivity).
      eexists. split; [reflexivity|]. repeat split; try assumption. discriminate.
    - unfold CheckpointManager.is_completed, mbind, M_bind.
      rewrite (load_initial w1) by (rewrite Hcp; destruct e; try discriminate; reflexivity).
      eexists. split; [reflexivity|]. repeat split; try assumption. discriminate.
    - exists w1. split; [apply (is_completed_holds cp w1 Hcp)|].
      rewrite Hcp. repeat split; try assumption. }
  destruct Hic as (w2 & Hic & Hcp2 & Hdir2 & Hw2).
  unfold verify_and_record. cbv [mbind M_bind]. rewrite Hrun, Hic.
  destruct (claims_completed w) eqn:Hclaim; cbn [andb];
    [|eexists _, _, _; split; [reflexivity|]; split; [reflexivity|];
      split; [intros _; split; assumption | discriminate]].
  rewrite (Hw2 eq_refl) in *. clear Hw2.
  destruct (passed r) eqn:Hp;
    [eexists _, _, _; split; [reflexivity|]; split; [rewrite Hp; reflexivity|];
     split; [intros _; split; assumption | rewrite Hp; discriminate]|].
  unfold claims_completed in Hclaim. unfold recordable, session_ok, loaded_checkpoint in *.
  destruct (checkpoint_file w) as [|e|cp] eqn:E; try discriminate.
  rewrite (load_holds cp w1 Hcp).
  destruct (CheckpointManager.archive_name cp) as [name|] eqn:Hname; [|discriminate].
  rewrite (save_returns _ w1 name) by (rewrite archive_name_record; exact Hname).
  cbv zeta. rewrite failed_verification_status.
  eexists _, _, _. split; [reflexivity|]. split; [rewrite Hp; reflexivity|].
  split; [rewrite Hp; discriminate|]. intros _.
  eexists. split; [reflexivity|].
  split; [rewrite !lookup_insert_ne by discriminate; apply lookup_insert_eq|].
  split; [rewrite lookup_insert_ne by discriminate; apply lookup_insert_eq|].
  split; [intros k K1 K2 K3; rewrite !lookup_insert_ne by congruence; reflexivity|].
  split.
  - erewrite is_completed_holds by reflexivity.
    rewrite !lookup_insert_ne by discriminate. rewrite lookup_insert_eq. reflexivity.
  - unfold previous_retry_count, stored_last_verification. cbn [checkpoint_file].
    rewrite lookup_insert_ne by discriminate. rewrite lookup_insert_eq.
    apply prev_retry_failed_verification.
Qed.

Lemma rejected_claim_witness :
  exists r finished w',
    verify_and_record None Ex.failing_tests_run Ex.all_exist Ex.unverifiable Ex.session1
    = (Return (r, finished), w')
    /\ finished = claims_completed Ex.session1 && passed r
    /\ (claims_completed Ex.session1 && negb (passed r) = false ->
        checkpoint_file w' = checkpoint_file Ex.session1
        /\ checkpoints_dir w' = checkpoints_dir Ex.session1)
    /\ (claims_completed Ex.session1 && negb (passed r) = true ->
        exists cp',
          checkpoint_file w' = Holds cp'
          /\ cp' !! "status" = Some (JStr "WORKING")
          /\ cp' !! "last_verification"
             = Some (JObj (failed_verification r (loaded_checkpoint Ex.session1)))
          /\ (forall k, k <> "status" -> k <> "last_verification" -> k <> "updated_at" ->
                        cp' !! k = loaded_checkpoint Ex.session1 !! k)
          /\ CheckpointManager.is_completed w' = (Return false, w')
          /\ previous_retry_count w' = JInt (retry_count r)).
Proof.
  apply (rejected_claim_is_reset None Ex.failing_tests_run Ex.all_exist Ex.unverifiable
           Ex.session1); vm_compute; reflexivity.
Defined.

Lemma run_all_names (s t l b : Validator.ValidationReport)
    (g : option Validator.ValidationReport) (name : string)
    (report : Validator.ValidationReport) :
  In (name, report) (Validator.run_all s t l b g) ->
  (name = "syntax" -> report = s) /\ (name = "tests" -> report = t).
Proof.
  unfold Validator.run_all. intros H. apply in_app_iff in H as [H|H].
  - destruct H as [H|[H|[H|[H|[]]]]]; injection H as <- <-; split; intros E;
      try reflexivity; discriminate.
  - destruct g; [|destruct H]. destruct H as [H|[]]. injection H as <- <-.
    split; intros E; discriminate.
Qed.

Lemma captured_syntax (s t l b : Validator.ValidationReport)
    (g : option Validator.ValidationReport) :
  _is_new_issue (Some (_capture_baseline (Validator.run_all s t l b g))) "syntax"
  = negb (Validator.is_fail (Validator.result s)).
Proof. destruct s as [[] ? ? ?], g; vm_compute; reflexivity. Qed.

Lemma captured_tests (s t l b : Validator.ValidationReport)
    (g : option Validator.ValidationReport) :
  _is_new_issue (Some (_capture_baseline (Validator.run_all s t l b g))) "tests"
  = negb (Validator.is_fail (Validator.result t)).
Proof. destruct t as [[] ? ? ?], g; vm_compute; reflexivity. Qed.

(** X20. With the baseline captured from one [run_all] and a later [run_all],
    a failure of ["tests"] (of ["syntax"]) blocks exactly when that check did
    not fail at capture; a run whose results are those of the capture yields no
    blocking issue from the checks. *)
Theorem baseline_excuses_what_failed_at_capture
    (s0 t0 l0 b0 s t l b : Validator.ValidationReport)
    (g0 g : option Validator.ValidationReport) :
  let baseline := Some (_capture_baseline (Validator.run_all s0 t0 l0 b0 g0)) in
  let blocking := fst (from_checks baseline (Validator.run_all s t l b g)) in
  ((exists i, In i blocking /\ source i = CheckFailed "tests")
   <-> Validator.is_fail (Validator.result t) = true
       /\ Validator.is_fail (Validator.result t0) = false)
  /\ ((exists i, In i blocking /\ source i = CheckFailed "syntax")
      <-> Validator.is_fail (Validator.result s) = true
          /\ Validator.is_fail (Validator.result s0) = false)
  /\ fst (from_checks baseline (Validator.run_all s0 t0 l0 b0 g0)) = [].
Proof.
  cbv zeta. set (baseline := Some _).
  destruct (from_checks_spec baseline (Validator.run_all s t l b g) ([], []))
    as (I1 & _ & _ & _ & I5).
  fold (from_checks baseline (Validator.run_all s t l b g)) in I1, I5.
  assert (Hs : _is_new_issue baseline "syntax" = negb (Validator.is_fail (Validator.result s0)))
    by apply captured_syntax.
  assert (Ht : _is_new_issue baseline "tests" = negb (Validator.is_fail (Validator.result t0)))
    by apply captured_tests.
  split; [|split].
  - split.
    + intros (i & Hi & Hsrc). destruct (I1 i Hi) as [[]|(n & rep & Hin & Hf & Hnew & Hor)].
      rewrite Hsrc in Hor. destruct Hor as [Hor|Hor]; [|discriminate]. injection Hor as <-.
      destruct (run_all_names _ _ _ _ _ _ _ Hin) as [_ Hrep]. rewrite (Hrep eq_refl) in Hf.
      rewrite Ht in Hnew. split; [exact Hf|]. apply negb_true_iff in Hnew. exact Hnew.
    + intros [Hf Hf0]. specialize (I5 "tests" t). rewrite Ht, Hf0 in I5. cbn [negb] in I5.
      eexists. split; [apply I5|reflexivity].
      * unfold Validator.run_all. right. left. reflexivity.
      * exact Hf.
      * reflexivity.
  - split.
    + intros (i & Hi & Hsrc). destruct (I1 i Hi) as [[]|(n & rep & Hin & Hf & Hnew & Hor)].
      rewrite Hsrc in Hor. destruct Hor as [Hor|Hor]; [|discriminate]. injection Hor as <-.
      destruct (run_all_names _ _ _ _ _ _ _ Hin) as [Hrep _]. rewrite (Hrep eq_refl) in Hf.
      rewrite Hs in Hnew. split; [exact Hf|]. apply negb_true_iff in Hnew. exact Hnew.
    + intros [Hf Hf0]. specialize (I5 "syntax" s). rewrite Hs, Hf0 in I5. cbn [negb] in I5.
      eexists. split; [apply I5|reflexivity].
      * unfold Validator.run_all. left. reflexivity.
      * exact Hf.
      * reflexivity.
  - apply from_checks_clean; [|reflexivity].
    intros name report Hin Hf Hb. destruct (run_all_names _ _ _ _ _ _ _ Hin) as [H1 H2].
    apply blocking_names in Hb as [->| ->].
    + rewrite Hs, <- (H1 eq_refl), Hf. reflexivity.
    + rewrite Ht, <- (H2 eq_refl), Hf. reflexivity.
Qed.

Lemma join_not_empty (sep : string) (c : ascii) (x : string) (r : list string) :
  Fmt.join sep (String c x :: r) <> "".
Proof. destruct r; cbn; discriminate. Qed.

(** X21. The verification section of the next prompt is empty exactly when
    the last verification passed (force-accepted ones included) or there was
    none. After a failed verification it lists the first 10 blocking issues and
    the first 5 warnings, and at a retry count of 2 it warns that attempt 3 of 3
    is the last before the force-accept. *)
Theorem prompt_reports_the_failed_verification
    (val_results : list (string * Validator.ValidationReport))
    (B W : list Issue) (rc : Z) :
  let r := conclude val_results B W rc in
  (Prompt._get_verification_prompt (Some r) = "" <-> passed r = true)
  /\ (passed r = false ->
      Prompt._get_verification_prompt (Some r)
      = Fmt.join newline (Prompt.verification_lines r)
      /\ (forall i, In i (firstn 10 B) -> In ("- " +:+ line i) (Prompt.verification_lines r))
      /\ (forall i, In i (firstn 5 W) -> In ("- " +:+ line i) (Prompt.verification_lines r))
      /\ (rc = 2 ->
          In "WARNING: This is attempt 3 of 3. If issues persist, the system will force-accept."
             (Prompt.verification_lines r)))
  /\ Prompt._get_verification_prompt None = "".
Proof.
  cbv zeta. split; [|split; [|reflexivity]].
  - unfold Prompt._get_verification_prompt.
    destruct (passed (conclude val_results B W rc)) eqn:Hp; [split; reflexivity|].
    split; [|discriminate]. intros H. exfalso.
    rewrite blocking_conclude in H. rewrite passed_conclude in Hp.
    destruct B as [|b B']; [discriminate|]. 
    revert H. unfold Prompt.verification_lines. apply join_not_empty.
  - intros Hp. pose proof Hp as Hp'. rewrite passed_conclude in Hp'.
    destruct B as [|b B']; [discriminate|]. rewrite force_conclude in Hp'.
    split; [|split; [|split]].
    + unfold Prompt._get_verification_prompt. rewrite Hp, blocking_conclude. reflexivity.
    + intros i Hi. unfold Prompt.verification_lines. rewrite blocking_conclude.
      apply in_app_iff. right. apply in_app_iff. left. right.
      apply in_app_iff. left. apply (in_map (fun issue => "- " +:+ line issue)). exact Hi.
    + intros i Hi. unfold Prompt.verification_lines.
      rewrite warnings_conclude, force_conclude, Hp'.
      destruct W as [|x W']; [destruct Hi|].
      apply in_app_iff. right. apply in_app_iff. right. apply in_app_iff. left. right.
      apply in_app_iff. left. apply (in_map (fun issue => "- " +:+ line issue)). exact Hi.
    + intros ->. unfold Prompt.verification_lines. rewrite retry_conclude.
      rewrite !in_app_iff. do 4 right. left. left. reflexivity.
Qed.

Lemma prompt_witness :
  let B := [mkIssue (CheckFailed "tests") "tests: Tests failed"] in
  let r := conclude Ex.failing_tests_run B [] 2 in
  passed r = false
  /\ Prompt._get_verification_prompt (Some r) = Fmt.join newline (Prompt.verification_lines r)
  /\ (forall i, In i (firstn 10 B) -> In ("- " +:+ line i) (Prompt.verification_lines r))
  /\ (forall i, In i (firstn 5 []) -> In ("- " +:+ line i) (Prompt.verification_lines r))
  /\ (2 = 2 ->
      In "WARNING: This is attempt 3 of 3. If issues persist, the system will force-accept."
         (Prompt.verification_lines r)).
Proof.
  cbv zeta. split; [reflexivity|].
  apply (proj1 (proj2 (prompt_reports_the_failed_verification Ex.failing_tests_run
                         [mkIssue (CheckFailed "tests") "tests: Tests failed"] [] 2))).
  reflexivity.
Defined.

Example prompt_at_the_last_attempt :
  Prompt._get_verification_prompt
    (Some (conclude Ex.failing_tests_run
             [mkIssue (CheckFailed "tests") "tests: Tests failed"] [] 2))
  = Fmt.join newline
      ["## VERIFICATION FAILED (attempt 2/3)";
       "The system ran automated checks after your last session.";
       "";
       "BLOCKING ISSUES (must fix):";
       "- tests: Tests failed";
       "";
       "FIX THE BLOCKING ISSUES before marking any task as done.";
       "WARNING: This is attempt 3 of 3. If issues persist, the system will force-accept.";
       ""].
Proof. vm_compute. reflexivity. Qed.

End RecordFacts.

Module GuardRuns.
Import SessionLoop Obs LoopObs GuardFacts.

Lemma show_shown (shown : option (string * string)) :
  forallb is_shown (show shown) = true.
Proof.
  destruct shown as [[d e]|]; cbn; [|reflexivity]. destruct (String.eqb d ""); reflexivity.
Qed.

Lemma read_lines_unfold (self : Self) (l : Line) (running : bool)
    (rest : list (Line * bool)) (code : Z) :
  read_lines self ((l, running) :: rest) code
  = let parsed := _parse_stream_event self l in
    let effects := snd parsed ++ show (snd (fst parsed)) in
    if _context_overflow (fst (fst parsed)) && running
    then (fst (fst parsed), effects ++ [ContextCheckpointSaved; WorkerTerminated], 0)
    else (state_of (read_lines (fst (fst parsed)) rest code),
          effects ++ effects_of (read_lines (fst (fst parsed)) rest code),
          exit_of (read_lines (fst (fst parsed)) rest code)).
Proof.
  cbn [read_lines]. destruct (_parse_stream_event self l) as [[self' shown] announced].
  cbv zeta. cbn [fst snd]. destruct (_context_overflow self' && running); [reflexivity|].
  destruct (read_lines self' rest code) as [[self'' later] code']. reflexivity.
Qed.




Lemma read_lines_overflow (self : Self) (pre : list (Line * bool)) (l : Line) (n : Z) :
  below self ->
  (forall l' b m, In (l', b) pre -> reported_tokens l' = Some m ->
                  at_or_above_threshold m = false) ->
  reported_tokens l = Some n -> at_or_above_threshold n = true ->
  exists self' shown,
    forallb is_shown shown = true
    /\ _context_overflow self' = true
    /\ tokens_in (_session_metrics self') = n
    /\ forall post code,
         read_lines self (pre ++ (l, true) :: post) code
         = (self', shown ++ [ThresholdReached n; ContextCheckpointSaved; WorkerTerminated], 0).
Proof.
  revert self. induction pre as [|[l' b] pre IH]; intros self Hbelow Hpre Hl Hn.
  - destruct (parse_cases self l) as [(s & sh & _ & _ & _ & Hnone)|(event & -> & Hparse & Hrep)];
      [congruence|].
    destruct (record_usage_spec self (usage event)) as (T & F & A).
    rewrite Hrep in Hl. rewrite Hl in T, F, A. cbn [default id] in T, F, A.
    destruct Hbelow as [Hflag _]. rewrite Hn, Hflag in F, A. cbn in F, A.
    exists (fst (record_usage self (usage event))), [].
    repeat split; try assumption.
    intros post code. cbn [app]. rewrite read_lines_unfold. cbv zeta.
    rewrite Hparse. cbn [fst snd]. rewrite F, A. reflexivity.
  - destruct (parse_below self l' Hbelow) as [[F T] Hann].
    { intros m Hm. apply (Hpre l' b m); [left; reflexivity | exact Hm]. }
    destruct (IH (fst (fst (_parse_stream_event self l'))) (conj F T))
      as (s & sh & Hsh & Hs1 & Hs2 & Hrun); try assumption.
    { intros l'' b' m Hin. apply (Hpre l'' b' m). right. exact Hin. }
    exists s, (show (snd (fst (_parse_stream_event self l'))) ++ sh).
    split; [rewrite forallb_app, show_shown, Hsh; reflexivity|].
    repeat split; try assumption.
    intros post code. cbn [app]. rewrite read_lines_unfold. cbv zeta.
    rewrite Hann, F. cbn [andb app]. rewrite (Hrun post code).
    unfold state_of, effects_of, exit_of. cbn [fst snd]. rewrite app_assoc. reflexivity.
Qed.

Lemma scan_blocks_tools (self : Self) (content : list Block) :
  tools_used (_session_metrics (fst (scan_blocks self content)))
  = tools_used (_session_metrics self)
  \/ tools_used (_session_metrics (fst (scan_blocks self content)))
     = tools_used (_session_metrics self) + 1.
Proof.
  induction content as [|b r IH]; cbn; [left; reflexivity|].
  destruct (String.eqb (btype b) "tool_use"); [right; reflexivity|].
  destruct (String.eqb (btype b) "text" && _); [left; reflexivity|].
  destruct (String.eqb (btype b) "thinking" && _); [left; reflexivity | exact IH].
Qed.

Lemma record_usage_tools (self : Self) (usage : gmap string Z) :
  tools_used (_session_metrics (fst (record_usage self usage)))
  = tools_used (_session_metrics self).
Proof. unfold record_usage. destruct (_ && _); reflexivity. Qed.

Lemma parse_tools (self : Self) (l : Line) :
  let after := tools_used (_session_metrics (fst (fst (_parse_stream_event self l)))) in
  after = tools_used (_session_metrics self)
  \/ (after = tools_used (_session_metrics self) + 1 /\ is_assistant l = true).
Proof.
  cbv zeta. destruct l as [|s|event]; try (left; reflexivity).
  unfold _parse_stream_event, is_assistant.
  destruct (String.eqb (etype event) "system" || String.eqb (etype event) "user");
    [left; reflexivity|].
  destruct (String.eqb (etype event) "rate_limit_event") eqn:E1.
  - destruct (negb _); [|left; reflexivity].
    pose proof (record_usage_tools self (usage event)) as H.
    destruct (record_usage self (usage event)). left. exact H.
  - destruct (String.eqb (etype event) "result").
    + destruct (negb _); left; reflexivity.
    + destruct (String.eqb (etype event) "assistant"); [|left; reflexivity].
      pose proof (scan_blocks_tools self (content event)) as H.
      destruct (scan_blocks self (content event)). cbn [fst snd] in *.
      destruct H as [H|H]; [left; exact H | right; split; [exact H | reflexivity]].
Qed.

Lemma read_lines_tools (self : Self) (lines : list (Line * bool)) (code : Z) :
  tools_used (_session_metrics self)
  <= tools_used (_session_metrics (state_of (read_lines self lines code)))
  <= tools_used (_session_metrics self) + Z.of_nat (assistant_messages lines).
Proof.
  revert self. induction lines as [|[l running] rest IH]; intros self.
  - cbn. lia.
  - rewrite read_lines_unfold. cbv zeta.
    assert (Hcount : Z.of_nat (assistant_messages ((l, running) :: rest))
                     = (if is_assistant l then 1 else 0) + Z.of_nat (assistant_messages rest)).
    { unfold assistant_messages. cbn [List.filter fst].
      destruct (is_assistant l); cbn [length]; lia. }
    rewrite Hcount. pose proof (parse_tools self l) as Hp. cbv zeta in Hp.
    pose proof (Zle_0_nat (assistant_messages rest)) as Hpos.
    destruct (_context_overflow _ && running).
    + unfold state_of. cbn [fst]. destruct Hp as [->|[-> ->]]; lia.
    + specialize (IH (fst (fst (_parse_stream_event self l)))).
      unfold state_of in *. cbn [fst] in *.
      destruct Hp as [Hp|[Hp ->]]; rewrite Hp in IH; destruct (is_assistant l); lia.
Qed.

(** X24. The [tools_used] metric of a session lies between 0 and the number
    of assistant messages: each message counts at most one tool call, however
    many it holds. *)
Theorem tools_counted_once_per_message (self : Self) (lines : list (Line * bool))
    (returncode : Z) :
  0 <= tools_used (_session_metrics (state_of (_run_claude_max self lines returncode)))
  <= Z.of_nat (assistant_messages lines).
Proof. unfold _run_claude_max. apply (read_lines_tools reset lines returncode). Qed.

Example two_tools_in_one_message :
  tools_used
    (_session_metrics
       (state_of
          (_run_claude_max reset
             [(Json (mkEvent "assistant" ∅ ""
                       [mkBlock "tool_use" (Some "Read") ∅ "" "";
                        mkBlock "tool_use" (Some "Edit") ∅ "" ""]), true)] 0)))
  = 1.
Proof. reflexivity. Qed.

End GuardRuns.

Module CheckFacts.
Import SessionLoop Obs LoopObs VerifyFacts VerifyExact BlockingChecks LaterFacts LaterSteps
  RecordFacts.
Import Validator ValidatorChecks.

Lemma _check_syntax_result (p : Project) : result (_check_syntax p) <> ERROR.
Proof.
  unfold _check_syntax. destruct (py_files p); [discriminate|].
  destruct (flat_map _ _); discriminate.
Qed.

Lemma tests_report_result (code : Z) (stdout stderr : string) :
  result (tests_report code stdout stderr) <> ERROR.
Proof.
  unfold tests_report. destruct (Z.eqb code 0); [discriminate|].
  destruct (Z.eqb code 5); discriminate.
Qed.

Lemma _run_tests_result (p : Project) : result (_run_tests p) <> ERROR.
Proof.
  unfold _run_tests. destruct (_run_command p _ 120) as [[code out] err].
  destruct (Z.eqb code (-2)); [|apply tests_report_result].
  destruct (_run_command p _ 60) as [[code' out'] err'].
  destruct (Z.eqb code' (-2)); [discriminate | apply tests_report_result].
Qed.

Lemma lint_report_result (code : Z) (stdout stderr : string) :
  result (lint_report code stdout stderr) <> ERROR.
Proof. unfold lint_report. destruct (Z.eqb code 0); discriminate. Qed.

Lemma _run_lint_result (p : Project) : result (_run_lint p) <> ERROR.
Proof.
  unfold _run_lint. destruct (_run_command p _ 60) as [[code out] err].
  destruct (Z.eqb code (-2)); [|apply lint_report_result].
  destruct (_run_command p _ 60) as [[code' out'] err'].
  destruct (Z.eqb code' (-2)); [discriminate | apply lint_report_result].
Qed.

Lemma _check_build_result (p : Project) : result (_check_build p) <> ERROR.
Proof.
  unfold _check_build. destruct (has_pyproject p).
  - destruct (_run_command p _ 120) as [[code out] err].
    destruct (Z.eqb code (-2)); [discriminate|]. destruct (Z.eqb code 0); discriminate.
  - destruct (has_package_json p); [|discriminate].
    destruct (_run_command p _ 60) as [[code out] err].
    destruct (Z.eqb code 0); [discriminate|].
    destruct (Text.contains _ _); discriminate.
Qed.

Lemma _check_git_result (p : Project) :
  match _check_git p with
  | Some report => has_git p = true /\ result report = OK
  | None => has_git p = false
  end.
Proof.
  unfold _check_git. destruct (has_git p); [|reflexivity]. cbn [negb].
  destruct (_run_command p ["git"; "diff"; "--stat"] 60) as [[c1 o1] e1].
  destruct (_run_command p ["git"; "diff"; "--cached"; "--stat"] 60) as [[c2 o2] e2].
  destruct (_run_command p ["git"; "status"; "--porcelain"] 60) as [[c3 o3] e3].
  split; reflexivity.
Qed.

(** X25. [run_all] reports the checks syntax, tests, lint and build in this
    order, followed by git exactly when the project has a [.git] directory; no
    check ever reports ERROR, the git check always reports OK, and so only the
    syntax and tests checks of a run can block. *)
Theorem checks_never_report_an_error (p : Project) :
  map fst (run_all p)
  = ["syntax"; "tests"; "lint"; "build"] ++ (if has_git p then ["git"] else [])
  /\ (forall name report, In (name, report) (run_all p) -> result report <> ERROR)
  /\ (forall report, In ("git", report) (run_all p) -> result report = OK)
  /\ (forall baseline i, In i (fst (from_checks baseline (run_all p))) ->
        check_of (source i) = Some "syntax" \/ check_of (source i) = Some "tests").
Proof.
  pose proof (_check_git_result p) as Hgit. unfold run_all, Validator.run_all.
  split; [|split; [|split]].
  - destruct (_check_git p) as [g|]; [destruct Hgit as [-> _] | rewrite Hgit]; reflexivity.
  - intros name report Hin. apply in_app_iff in Hin as [Hin|Hin].
    + destruct Hin as [H|[H|[H|[H|[]]]]]; injection H as <- <-.
      * apply _check_syntax_result.
      * apply _run_tests_result.
      * apply _run_lint_result.
      * apply _check_build_result.
    + destruct (_check_git p) as [g|]; [|destruct Hin].
      destruct Hin as [H|[]]. injection H as <- <-. destruct Hgit as [_ ->]. discriminate.
  - intros report Hin. apply in_app_iff in Hin as [Hin|Hin].
    + destruct Hin as [H|[H|[H|[H|[]]]]]; discriminate.
    + destruct (_check_git p) as [g|]; [|destruct Hin].
      destruct Hin as [H|[]]. injection H as <-. apply Hgit.
  - intros baseline i Hi.
    unfold from_checks in Hi.
    match type of Hi with
    | In _ (fst (fold_left _ ?vr _)) =>
        pose proof (from_checks_blocking baseline vr ([], []) (List.Forall_nil _)) as Hall
    end.
    rewrite List.Forall_forall in Hall. destruct (Hall i Hi) as (n & Hn & Hb).
    rewrite Hn. apply blocking_names in Hb as [->| ->]; [left | right]; reflexivity.
Qed.

Lemma in_run_all_tests (p : Project) : In ("tests", _run_tests p) (run_all p).
Proof. unfold run_all, Validator.run_all. right. left. reflexivity. Qed.

(** X26. When the pytest run times out, [_run_tests] reports FAIL with the
    message "Tests failed" and the details "Command timed out"; without a
    baseline, verification then has the blocking issue "tests: Tests failed"
    and passes only when the retry count has reached 3. *)
Theorem tests_that_time_out_block (p : Project)
    (exists_on_disk : string -> bool) (check_criteria : string -> ValidationReport)
    (w : World) :
  ready w = true ->
  run p ["python"; "-m"; "pytest"; "-v"; "--tb=short"] 120 = TimeoutExpired ->
  _run_tests p = mkReport FAIL "Tests failed" (Some "Command timed out") (Some "pytest")
  /\ exists r w',
       _verify_session None (run_all p) exists_on_disk check_criteria w = (Return r, w')
       /\ In (mkIssue (CheckFailed "tests") "tests: Tests failed") (blocking_issues r)
       /\ passed r = Z.leb 3 (retry_count r)
       /\ force_accepted r = Z.leb 3 (retry_count r).
Proof.
  intros Hready Hrun.
  assert (Ht : _run_tests p
               = mkReport FAIL "Tests failed" (Some "Command timed out") (Some "pytest")).
  { unfold _run_tests, _run_command. rewrite Hrun. reflexivity. }
  split; [exact Ht|].
  destruct (verify_exact None (run_all p) exists_on_disk check_criteria w Hready)
    as (lv & rc & w' & Hv & _).
  eexists _, _. split; [exact Hv|]. rewrite blocking_conclude, retry_conclude.
  destruct (from_checks_spec None (run_all p) ([], [])) as (_ & _ & _ & _ & I5).
  specialize (I5 "tests" (_run_tests p) (in_run_all_tests p)).
  rewrite Ht in I5. specialize (I5 eq_refl). cbn in I5. specialize (I5 eq_refl).
  assert (Hi : In (mkIssue (CheckFailed "tests") "tests: Tests failed")
                 (fst (from_checks None (run_all p))
                  ++ later_issues exists_on_disk check_criteria (loaded_checkpoint w)
                       (listed w)))
    by (apply in_app_iff; left; exact I5).
  split; [exact Hi|]. apply rejected_until_cap. intros E. rewrite E in Hi. exact Hi.
Qed.

Lemma tests_that_time_out_witness :
  _run_tests Scenes.stuck_project
  = mkReport FAIL "Tests failed" (Some "Command timed out") (Some "pytest")
  /\ exists r w',
       _verify_session None (run_all Scenes.stuck_project) Ex.all_exist Ex.unverifiable
         Ex.session1 = (Return r, w')
       /\ In (mkIssue (CheckFailed "tests") "tests: Tests failed") (blocking_issues r)
       /\ passed r = Z.leb 3 (retry_count r)
       /\ force_accepted r = Z.leb 3 (retry_count r).
Proof.
  apply (tests_that_time_out_block Scenes.stuck_project Ex.all_exist Ex.unverifiable
           Ex.session1).
  - vm_compute. reflexivity.
  - reflexivity.
Defined.

Example stuck_project_run :
  map (fun entry => (fst entry, result (snd entry))) (run_all Scenes.stuck_project)
  = [("syntax", FAIL); ("tests", FAIL); ("lint", FAIL); ("build", SKIP)].
Proof. vm_compute. reflexivity. Qed.

(** X30. In a project without Python files where neither pytest nor unittest
    can be started, the syntax and tests checks are skipped, and the checks of
    the run yield no blocking issue whatever lint and build report and whatever
    the baseline holds. *)
Theorem checks_without_tools_never_block (p : Project)
    (baseline : option (gmap string BaselineEntry)) :
  py_files p = [] ->
  run p ["python"; "-m"; "pytest"; "-v"; "--tb=short"] 120 = FileNotFoundError ->
  run p ["python"; "-m"; "unittest"; "discover"; "-v"] 60 = FileNotFoundError ->
  _check_syntax p = mkReport SKIP "No Python files found" None None
  /\ _run_tests p = mkReport SKIP "No test framework found" None None
  /\ fst (from_checks baseline (run_all p)) = [].
Proof.
  intros Hpy Hpytest Hunittest.
  assert (Hs : _check_syntax p = mkReport SKIP "No Python files found" None None)
    by (unfold _check_syntax; rewrite Hpy; reflexivity).
  assert (Ht : _run_tests p = mkReport SKIP "No test framework found" None None)
    by (unfold _run_tests, _run_command; rewrite Hpytest, Hunittest; reflexivity).
  split; [exact Hs|]. split; [exact Ht|].
  apply from_checks_clean; [|reflexivity].
  intros name report Hin Hf Hb. exfalso.
  destruct (run_all_names _ _ _ _ _ _ _ Hin) as [H1 H2].
  apply blocking_names in Hb as [->| ->].
  - rewrite (H1 eq_refl), Hs in Hf. discriminate.
  - rewrite (H2 eq_refl), Ht in Hf. discriminate.
Qed.

Lemma checks_without_tools_witness :
  _check_syntax Scenes.bare_project = mkReport SKIP "No Python files found" None None
  /\ _run_tests Scenes.bare_project = mkReport SKIP "No test framework found" None None
  /\ fst (from_checks None (run_all Scenes.bare_project)) = [].
Proof.
  apply (checks_without_tools_never_block Scenes.bare_project None); reflexivity.
Defined.

End CheckFacts.

Module PromptFacts.
Import SessionLoop Obs StoreObs LoopObs CheckpointFacts VerifyFacts SessionFacts.
Import Prompt.

Lemma message_lines_app (a b : list Message) (la lb : list string) :
  message_lines a = Some la -> message_lines b = Some lb ->
  message_lines (a ++ b) = Some (la ++ lb).
Proof.
  revert la. induction a as [|m r IH]; intros la Ha Hb.
  - injection Ha as <-. exact Hb.
  - cbn in Ha |- *. destruct (Prompt.text m) as [t|]; [|discriminate].
    destruct (message_lines r) as [lr|]; [|discriminate]. injection Ha as <-.
    rewrite (IH lr eq_refl Hb). reflexivity.
Qed.

Lemma message_lines_total (l : list Message) :
  (forall m, In m l -> Prompt.text m <> None) -> exists lines, message_lines l = Some lines.
Proof.
  induction l as [|m r IH]; intros H; [eexists; reflexivity|].
  cbn. destruct (Prompt.text m) as [t|] eqn:E;
    [|exfalso; apply (H m (or_introl eq_refl)); exact E].
  destruct IH as [lines ->]; [intros x Hx; apply H; right; exact Hx|].
  eexists. reflexivity.
Qed.

Lemma nothing_unread_after_marking (l : list Message) :
  List.filter (fun m => negb (Prompt.read m)) (map mark_read l) = [].
Proof. induction l as [|m r IH]; [reflexivity | exact IH]. Qed.

Lemma mark_read_idem (l : list Message) : map mark_read (map mark_read l) = map mark_read l.
Proof. rewrite map_map. reflexivity. Qed.

(** X27. A message queued through the dashboard is delivered exactly once:
    the next [_read_queue_messages] returns the unread messages in their order
    with the new one last, marks every message as read and keeps them all, and
    the call after that returns the empty string and leaves the file as it
    is. *)
Theorem queued_message_is_delivered_once (msg_text added_at : string)
    (queue_file : file QueueDoc) (l : list Message) :
  msg_text <> "" ->
  queue_file = Holds (mkQueueDoc (Some l))
  \/ (missing_or_unparsable queue_file = true /\ l = []) ->
  (forall m, In m l -> unread m = true -> Prompt.text m <> None) ->
  exists q1 q2 lines,
    queue_message msg_text added_at queue_file = (Return tt, q1)
    /\ message_lines (List.filter unread l) = Some lines
    /\ _read_queue_messages q1
       = (Return (Fmt.join newline
                    (["## USER MESSAGES (from queue)"] ++ lines
                     ++ [message_line added_at msg_text]
                     ++ ["Please address these messages as part of your work." +:+ newline])),
          q2)
    /\ q2 = Holds (mkQueueDoc (Some (map mark_read l
                                     ++ [mkMessage (Some msg_text) (Some added_at) true])))
    /\ _read_queue_messages q2 = (Return "", q2).
Proof.
  intros Hmsg Hq Htext.
  destruct (message_lines_total (List.filter unread l)) as [lines Hlines].
  { intros m Hm. apply filter_In in Hm as [Hm Hu]. exact (Htext m Hm Hu). }
  set (new := mkMessage (Some msg_text) (Some added_at) false).
  assert (Hq1 : queue_message msg_text added_at queue_file
                = (Return tt, Holds (mkQueueDoc (Some (l ++ [new]))))).
  { unfold queue_message. destruct (String.eqb_spec msg_text ""); [contradiction|].
    destruct Hq as [->|[Hq ->]]; [reflexivity|].
    destruct queue_file as [|[]|]; try discriminate; reflexivity. }
  exists (Holds (mkQueueDoc (Some (l ++ [new])))),
         (Holds (mkQueueDoc (Some (map mark_read l
                                   ++ [mkMessage (Some msg_text) (Some added_at) true])))),
         lines.
  split; [exact Hq1|]. split; [exact Hlines|]. split; [|split; [reflexivity|]].
  - unfold _read_queue_messages. cbn [messages default id].
    fold unread. change (fun m => negb (Prompt.read m)) with unread.
    rewrite List.filter_app. cbn [List.filter unread Prompt.read new negb].
    rewrite (message_lines_app (List.filter unread l) [new] lines
               [message_line added_at msg_text] Hlines eq_refl).
    destruct (List.filter unread l ++ [new]) eqn:E;
      [apply app_eq_nil in E as [_ E]; discriminate|].
    rewrite map_app. cbn [map mark_read Prompt.text Prompt.added_at new].
    rewrite <- app_assoc. reflexivity.
  - unfold _read_queue_messages. cbn [messages default id].
    change (map mark_read l ++ [mkMessage (Some msg_text) (Some added_at) true])
      with (map mark_read l ++ map mark_read [new]).
    rewrite <- map_app, nothing_unread_after_marking. reflexivity.
Qed.

Lemma queued_message_witness :
  exists q1 q2 lines,
    queue_message "fix the login page" "2026-01-02T09:00:00"
      (Holds (mkQueueDoc (Some Scenes.queue))) = (Return tt, q1)
    /\ message_lines (List.filter unread Scenes.queue) = Some lines
    /\ _read_queue_messages q1
       = (Return (Fmt.join newline
                    (["## USER MESSAGES (from queue)"] ++ lines
                     ++ [message_line "2026-01-02T09:00:00" "fix the login page"]
                     ++ ["Please address these messages as part of your work." +:+ newline])),
          q2)
    /\ q2 = Holds (mkQueueDoc
                     (Some (map mark_read Scenes.queue
                            ++ [mkMessage (Some "fix the login page")
                                          (Some "2026-01-02T09:00:00") true])))
    /\ _read_queue_messages q2 = (Return "", q2).
Proof.
  apply (queued_message_is_delivered_once "fix the login page" "2026-01-02T09:00:00"
           (Holds (mkQueueDoc (Some Scenes.queue))) Scenes.queue).
  - discriminate.
  - left. reflexivity.
  - intros m [<-|[<-|[]]] _; discriminate.
Defined.

Lemma last_items_snoc {A : Type} (n : nat) (l : list A) (x : A) :
  Text.last_items (S n) (l ++ [x]) = Text.last_items n l ++ [x].
Proof.
  unfold Text.last_items. rewrite length_app. cbn [length].
  replace (length l + 1 - S n)%nat with (length l - n)%nat by lia.
  rewrite skipn_app. replace (length l - n - length l)%nat with 0%nat by lia.
  reflexivity.
Qed.

Lemma last_items_suffix {A : Type} (n : nat) (l : list A) :
  (length (Text.last_items n l) <= n)%nat
  /\ exists dropped, l = dropped ++ Text.last_items n l.
Proof.
  unfold Text.last_items. split.
  - rewrite length_skipn. lia.
  - exists (firstn (length l - n) l). symmetry. apply firstn_skipn.
Qed.

Lemma last_items_length {A : Type} (n : nat) (l : list A) :
  length (Text.last_items n l) = Nat.min n (length l).
Proof. unfold Text.last_items. rewrite length_skipn. lia. Qed.

(** What [_save_context_checkpoint] stores when the checkpoint can be read,
    its session formats as a file name and its decisions are a list. *)
Lemma context_checkpoint_saved (pct tokens_in : Z) (metrics : json) (w : World)
    (decisions : list json) :
  readable (checkpoint_file w) = true ->
  recordable w = true ->
  decisions_of (loaded_checkpoint w) = Some decisions ->
  exists cp' w',
    _save_context_checkpoint pct tokens_in metrics w = (Return tt, w')
    /\ checkpoint_file w' = Holds cp'
    /\ CheckpointManager.is_completed w' = (Return false, w')
    /\ cp' !! "status" = Some (JStr "WORKING")
    /\ cp' !! "context_percent" = Some (JInt pct)
    /\ cp' !! "session_metrics" = Some metrics
    /\ cp' !! "decisions"
       = Some (JList (Text.last_items 19 decisions ++ [auto_checkpoint_note pct tokens_in]))
    /\ cp' !! "session" = loaded_checkpoint w !! "session"
    /\ cp' !! "last_verification" = loaded_checkpoint w !! "last_verification"
    /\ tasks_file w' = tasks_file w.
Proof.
  intros Hr Hrec Hdec.
  destruct (load_ready w Hr) as (w1 & Hload & Hc1 & Ht1 & Hw1 & Hd1).
  unfold recordable, session_ok in Hrec.
  destruct (CheckpointManager.archive_name (loaded_checkpoint w)) as [name|] eqn:Ha;
    [|discriminate].
  unfold _save_context_checkpoint, mbind, M_bind. rewrite Hload.
  unfold decisions_of in Hdec.
  rewrite lookup_insert_ne by discriminate. rewrite lookup_insert_ne by discriminate.
  destruct (default (JList []) (loaded_checkpoint w !! "decisions")) as [| | | |ds|];
    try discriminate.
  injection Hdec as ->.
  fold (auto_checkpoint_note pct tokens_in).
  change 20%nat with (S 19). rewrite last_items_snoc.
  set (cp1 := <["session_metrics" := metrics]> _).
  assert (Ha1 : CheckpointManager.archive_name cp1 = Return name).
  { rewrite <- Ha. unfold CheckpointManager.archive_name, cp1.
    rewrite !lookup_insert_ne by discriminate. reflexivity. }
  rewrite (save_returns cp1 w1 name Ha1). cbv zeta.
  eexists _, _.
  split; [reflexivity|].
  split; [reflexivity|].
  split.
  { erewrite is_completed_holds by reflexivity. unfold cp1.
    rewrite !lookup_insert_ne by discriminate. rewrite lookup_insert_eq. reflexivity. }
  unfold cp1.
  split; [rewrite !lookup_insert_ne by discriminate; apply lookup_insert_eq|].
  split; [rewrite !lookup_insert_ne by discriminate; apply lookup_insert_eq|].
  split; [rewrite lookup_insert_ne by discriminate; apply lookup_insert_eq|].
  split; [rewrite !lookup_insert_ne by discriminate; apply lookup_insert_eq|].
  split; [rewrite !lookup_insert_ne by discriminate; reflexivity|].
  split; [rewrite !lookup_insert_ne by discriminate; reflexivity|].
  cbn. exact Ht1.
Qed.

(** When the decisions of the checkpoint are not a list, [decisions.append]
    raises before anything is written. *)
Lemma context_checkpoint_not_saved (pct tokens_in : Z) (metrics : json) (w : World) :
  readable (checkpoint_file w) = true ->
  decisions_of (loaded_checkpoint w) = None ->
  exists w',
    _save_context_checkpoint pct tokens_in metrics w = (Raise AttributeError, w')
    /\ checkpoint_file w' = checkpoint_file w
    /\ checkpoints_dir w' = checkpoints_dir w
    /\ tasks_file w' = tasks_file w.
Proof.
  intros Hr Hdec.
  destruct (load_ready w Hr) as (w1 & Hload & Hc1 & Ht1 & Hw1 & Hd1).
  exists w1. split; [|repeat split; assumption].
  unfold _save_context_checkpoint, mbind, M_bind. rewrite Hload.
  unfold decisions_of in Hdec.
  rewrite lookup_insert_ne by discriminate. rewrite lookup_insert_ne by discriminate.
  destruct (default (JList []) (loaded_checkpoint w !! "decisions")) as [| | | |ds|];
    try discriminate; reflexivity.
Qed.

(** X28. The context checkpoint leaves the work resumable: whatever the
    status was, the stored checkpoint has status ["WORKING"] (so [is_completed]
    is false), the given context percentage and metrics, the session number and
    the recorded last verification unchanged, and as decisions the last 19 of
    the earlier ones (all of them when there are at most 19), in their order,
    followed by the auto-checkpoint note. *)
Theorem context_checkpoint_leaves_the_work_resumable (pct tokens_in : Z) (metrics : json)
    (w : World) (decisions : list json) :
  readable (checkpoint_file w) = true ->
  recordable w = true ->
  decisions_of (loaded_checkpoint w) = Some decisions ->
  exists cp' w' kept dropped,
    _save_context_checkpoint pct tokens_in metrics w = (Return tt, w')
    /\ CheckpointManager.load w' = (Return cp', w')
    /\ CheckpointManager.is_completed w' = (Return false, w')
    /\ cp' !! "status" = Some (JStr "WORKING")
    /\ cp' !! "context_percent" = Some (JInt pct)
    /\ cp' !! "session_metrics" = Some metrics
    /\ cp' !! "decisions" = Some (JList (kept ++ [auto_checkpoint_note pct tokens_in]))
    /\ decisions = dropped ++ kept
    /\ length kept = Nat.min 19 (length decisions)
    /\ cp' !! "session" = loaded_checkpoint w !! "session"
    /\ cp' !! "last_verification" = loaded_checkpoint w !! "last_verification".
Proof.
  intros Hr Hrec Hdec.
  destruct (context_checkpoint_saved pct tokens_in metrics w decisions Hr Hrec Hdec)
    as (cp' & w' & Hsave & Hfile & Hdone & Hstatus & Hpct & Hmetrics & Hkept & Hsession
        & Hlast & _).
  destruct (last_items_suffix 19 decisions) as [_ [dropped Hdrop]].
  exists cp', w', (Text.last_items 19 decisions), dropped.
  split; [exact Hsave|]. split; [apply load_holds, Hfile|].
  split; [exact Hdone|]. split; [exact Hstatus|]. split; [exact Hpct|].
  split; [exact Hmetrics|]. split; [exact Hkept|]. split; [exact Hdrop|].
  split; [apply last_items_length|]. split; [exact Hsession | exact Hlast].
Qed.

Lemma context_checkpoint_witness :
  exists cp' w' kept dropped,
    _save_context_checkpoint 70 140000 JNull Cases.long_history_world = (Return tt, w')
    /\ CheckpointManager.load w' = (Return cp', w')
    /\ CheckpointManager.is_completed w' = (Return false, w')
    /\ cp' !! "status" = Some (JStr "WORKING")
    /\ cp' !! "context_percent" = Some (JInt 70)
    /\ cp' !! "session_metrics" = Some JNull
    /\ cp' !! "decisions" = Some (JList (kept ++ [auto_checkpoint_note 70 140000]))
    /\ Cases.long_history = dropped ++ kept
    /\ length kept = Nat.min 19 (length Cases.long_history)
    /\ cp' !! "session" = loaded_checkpoint Cases.long_history_world !! "session"
    /\ cp' !! "last_verification"
       = loaded_checkpoint Cases.long_history_world !! "last_verification".
Proof.
  apply (context_checkpoint_leaves_the_work_resumable 70 140000 JNull
           Cases.long_history_world Cases.long_history); vm_compute; reflexivity.
Defined.

Example long_history_kept :
  Text.last_items 19 Cases.long_history
  = map (fun k => JStr ("decision " +:+ Fmt.str_int (Z.of_nat k))) (seq 7 19).
Proof. vm_compute. reflexivity. Qed.

Example auto_checkpoint_note_example :
  auto_checkpoint_note 70 140000 = JStr "Auto-checkpoint at 70% context (140,000 tokens)".
Proof. reflexivity. Qed.

End PromptFacts.

(** * The context guard over the files *)

Module RunFacts.
Import SessionLoop Obs LoopObs GuardFacts GuardRuns PromptFacts ClaudeMax RunObs.

Section Floats.
Variable percent_int : Q -> Z.
Variable metrics_dict : SessionMetrics -> json.

Lemma read_lines_step (self : Self) (l : Line) (running : bool)
    (rest : list (Line * bool)) (code : Z) (exits_in_time : bool) (w : World) :
  read_lines percent_int metrics_dict self ((l, running) :: rest) code exits_in_time w
  = let parsed := _parse_stream_event self l in
    let effects := snd parsed ++ show (snd (fst parsed)) in
    if _context_overflow (fst (fst parsed)) && running
    then let branch :=
           context_overflow_branch percent_int metrics_dict (fst (fst parsed))
             exits_in_time w in
         (fst (fst parsed), effects ++ fst (fst branch), snd (fst branch), snd branch)
    else after_effects effects
           (read_lines percent_int metrics_dict (fst (fst parsed)) rest code
              exits_in_time w).
Proof.
  cbn [read_lines]. destruct (_parse_stream_event self l) as [[self' shown] announced].
  cbv zeta. cbn [fst snd]. destruct (_context_overflow self' && running).
  - destruct (context_overflow_branch _ _ self' exits_in_time w) as [[acted ending] w'].
    reflexivity.
  - destruct (read_lines _ _ self' rest code exits_in_time w) as [[[self'' later] ending] w'].
    reflexivity.
Qed.

(** The overflow branch either passes on the exception of the save, with
    nothing terminated, or saves, terminates and waits. *)
Lemma context_overflow_branch_cases (self : Self) (exits_in_time : bool) (w : World) :
  let save :=
    Prompt._save_context_checkpoint (percent_int (_context_percent self))
      (tokens_in (_session_metrics self)) (metrics_dict (_session_metrics self)) w in
  (exists e, fst save = Raise e
             /\ context_overflow_branch percent_int metrics_dict self exits_in_time w
                = ([], Raises e, snd save))
  \/ (fst save = Return tt
      /\ context_overflow_branch percent_int metrics_dict self exits_in_time w
         = ([ContextCheckpointSaved; WorkerTerminated],
            if exits_in_time then Returns 0 else TimeoutExpired, snd save)).
Proof.
  cbv zeta. unfold context_overflow_branch.
  destruct (Prompt._save_context_checkpoint _ _ _ w) as [[[]|e] w'].
  - right. split; reflexivity.
  - left. exists e. split; reflexivity.
Qed.

(** The loop over the files and the loop without them go through the same
    states and effects; the former lacks the two effects of the overflow
    branch when the save raises. *)
Lemma read_lines_traces (self : Self) (lines : list (Line * bool)) (code : Z)
    (exits_in_time : bool) (w : World) :
  let run := read_lines percent_int metrics_dict self lines code exits_in_time w in
  run_state run = state_of (SessionLoop.read_lines self lines code)
  /\ exists dropped,
       effects_of (SessionLoop.read_lines self lines code) = run_effects run ++ dropped
       /\ (dropped = [] \/ dropped = [ContextCheckpointSaved; WorkerTerminated]).
Proof.
  cbv zeta. revert self. induction lines as [|[l running] rest IH]; intros self.
  - split; [reflexivity|]. exists []. split; [reflexivity | left; reflexivity].
  - rewrite read_lines_step, read_lines_unfold. cbv zeta.
    destruct (_context_overflow (fst (fst (_parse_stream_event self l))) && running).
    + split; [reflexivity|]. unfold effects_of, run_effects. cbn [fst snd].
      destruct (context_overflow_branch_cases (fst (fst (_parse_stream_event self l)))
                  exits_in_time w) as [(e & _ & ->)|(_ & ->)]; cbn [fst snd].
      * exists [ContextCheckpointSaved; WorkerTerminated]. rewrite app_nil_r.
        split; [reflexivity | right; reflexivity].
      * exists []. rewrite app_nil_r. split; [reflexivity | left; reflexivity].
    + destruct (IH (fst (fst (_parse_stream_event self l)))) as (Hs & dropped & He & Hd).
      split; [exact Hs|]. exists dropped. split; [|exact Hd].
      unfold after_effects, effects_of, run_effects in *. cbn [fst snd] in *.
      rewrite He, app_assoc. reflexivity.
Qed.

Lemma terminated_show (shown : option (string * string)) :
  List.filter is_worker_terminated (show shown) = [].
Proof.
  destruct shown as [[d e]|]; cbn; [|reflexivity].
  destruct (String.eqb d ""); reflexivity.
Qed.

Lemma terminated_announced (self : Self) (l : Line) :
  List.filter is_worker_terminated (snd (_parse_stream_event self l)) = [].
Proof.
  destruct (parse_cases self l) as [(self' & shown & -> & _)|(event & -> & -> & _)];
    [reflexivity|].
  cbn [snd]. destruct (record_usage_spec self (usage event)) as (_ & _ & ->).
  destruct (_ && _); reflexivity.
Qed.

Lemma read_lines_acts_at_most_once (self : Self) (lines : list (Line * bool)) (code : Z)
    (exits_in_time : bool) (w : World) :
  let effects :=
    run_effects (read_lines percent_int metrics_dict self lines code exits_in_time w) in
  (guard_fired effects <= 1)%nat
  /\ (checkpoints_saved effects <= 1)%nat
  /\ (workers_terminated effects <= 1)%nat.
Proof.
  cbv zeta. revert self. induction lines as [|[l running] rest IH]; intros self.
  - cbn. lia.
  - pose proof (read_lines_at_most_once self ((l, running) :: rest) code) as Hfired.
    destruct (read_lines_traces self ((l, running) :: rest) code exits_in_time w)
      as (_ & dropped & He & Hd).
    split.
    { unfold guard_fired in *. rewrite He, List.filter_app, length_app in Hfired. lia. }
    rewrite read_lines_step. cbv zeta.
    destruct (_context_overflow (fst (fst (_parse_stream_event self l))) && running).
    + unfold run_effects, checkpoints_saved, workers_terminated. cbn [fst snd].
      rewrite !List.filter_app, saved_announced, saved_show, terminated_announced,
        terminated_show.
      destruct (context_overflow_branch_cases (fst (fst (_parse_stream_event self l)))
                  exits_in_time w) as [(e & _ & ->)|(_ & ->)]; cbn; lia.
    + destruct (IH (fst (fst (_parse_stream_event self l)))) as (_ & Hsaved & Hterm).
      unfold after_effects, run_effects, checkpoints_saved, workers_terminated in *.
      cbn [fst snd] in *.
      rewrite !List.filter_app, saved_announced, saved_show, terminated_announced,
        terminated_show.
      cbn [app]. split; assumption.
Qed.

(** Lines under the threshold are passed over whatever follows them. *)
Lemma read_lines_prefix (self : Self) (pre : list (Line * bool)) :
  below self -> under_threshold pre ->
  exists self1 shown,
    below self1
    /\ forallb is_shown shown = true
    /\ forall rest code exits_in_time w,
         read_lines percent_int metrics_dict self (pre ++ rest) code exits_in_time w
         = after_effects shown
             (read_lines percent_int metrics_dict self1 rest code exits_in_time w).
Proof.
  revert self. induction pre as [|[l b] pre IH]; intros self Hbelow Hpre.
  - exists self, []. split; [exact Hbelow|]. split; [reflexivity|].
    intros rest code exits_in_time w. cbn [app].
    destruct (read_lines _ _ self rest code exits_in_time w) as [[[s e] en] w'].
    reflexivity.
  - destruct (parse_below self l Hbelow) as [[F T] Hann].
    { intros m Hm. apply (Hpre l b m); [left; reflexivity | exact Hm]. }
    destruct (IH (fst (fst (_parse_stream_event self l))) (conj F T))
      as (self1 & shown & Hb1 & Hshown & Hrun).
    { intros l' b' m Hin. apply (Hpre l' b' m). right. exact Hin. }
    exists self1, (show (snd (fst (_parse_stream_event self l))) ++ shown).
    split; [exact Hb1|]. split; [rewrite forallb_app, show_shown, Hshown; reflexivity|].
    intros rest code exits_in_time w. cbn [app]. rewrite read_lines_step. cbv zeta.
    rewrite Hann, F. cbn [andb app]. rewrite Hrun.
    unfold after_effects, run_state, run_effects, run_ending, run_world. cbn [fst snd].
    rewrite app_assoc. reflexivity.
Qed.

Lemma record_usage_percent (self : Self) (usage : gmap string Z) :
  _context_percent (fst (record_usage self usage))
  = percent_of (default (tokens_in (_session_metrics self)) (usage !! "input_tokens")).
Proof. unfold record_usage. destruct (_ && _); reflexivity. Qed.

(** The first report at or above the threshold: what the line leaves. *)
Lemma parse_report (self : Self) (l : Line) (n : Z) :
  below self -> reported_tokens l = Some n -> at_or_above_threshold n = true ->
  exists self',
    _parse_stream_event self l = (self', None, [ThresholdReached n])
    /\ _context_overflow self' = true
    /\ tokens_in (_session_metrics self') = n
    /\ _context_percent self' = percent_of n.
Proof.
  intros Hbelow Hl Hn.
  destruct (parse_cases self l) as [(s & sh & _ & _ & _ & Hnone)|(event & -> & Hparse & Hrep)];
    [congruence|].
  destruct (record_usage_spec self (usage event)) as (T & F & A).
  pose proof (record_usage_percent self (usage event)) as P.
  rewrite Hrep in Hl. rewrite Hl in T, F, A, P. cbn [default id] in T, F, A, P.
  destruct Hbelow as [Hflag _]. rewrite Hn, Hflag in F, A. cbn in F, A.
  exists (fst (record_usage self (usage event))).
  rewrite Hparse, A. repeat split; assumption.
Qed.

(** Lines read after the Worker has exited are read to the end: the loop does
    not act and does not touch the files. *)
Lemma read_lines_exited (self : Self) (lines : list (Line * bool)) (code : Z)
    (exits_in_time : bool) (w : World) :
  worker_exited lines ->
  exists self' effects,
    read_lines percent_int metrics_dict self lines code exits_in_time w
    = (self', effects, Returns code, w)
    /\ checkpoints_saved effects = 0%nat
    /\ workers_terminated effects = 0%nat
    /\ (_context_overflow self = true ->
        _context_overflow self' = true /\ fired effects = []).
Proof.
  revert self. induction lines as [|[l b] rest IH]; intros self Hexited.
  - exists self, []. repeat split; assumption.
  - assert (b = false) as -> by (apply (Hexited l b); left; reflexivity).
    destruct (IH (fst (fst (_parse_stream_event self l)))) as (s & e & Hrun & Hs & Ht & Hf).
    { intros l' b' Hin. apply (Hexited l' b'). right. exact Hin. }
    eexists _, _. split.
    { rewrite read_lines_step. cbv zeta. rewrite andb_false_r, Hrun. reflexivity. }
    unfold run_effects. cbn [fst snd].
    unfold checkpoints_saved, workers_terminated in *.
    rewrite !List.filter_app, saved_announced, saved_show, terminated_announced,
      terminated_show.
    cbn [app]. split; [exact Hs|]. split; [exact Ht|].
    intros Hflag. destruct (parse_after self l Hflag) as [F A].
    destruct (Hf F) as [Hs' Hfired]. split; [exact Hs'|].
    rewrite !fired_app, A, fired_show, Hfired. reflexivity.
Qed.

Lemma fired_shown (shown : list Effect) : forallb is_shown shown = true -> fired shown = [].
Proof.
  induction shown as [|e r IH]; [reflexivity|]. cbn [forallb]. intros H.
  apply andb_true_iff in H as [He Hr]. destruct e; try discriminate. cbn. apply IH, Hr.
Qed.

Lemma saved_shown (shown : list Effect) :
  forallb is_shown shown = true ->
  checkpoints_saved shown = 0%nat /\ workers_terminated shown = 0%nat.
Proof.
  induction shown as [|e r IH]; [split; reflexivity|]. cbn [forallb]. intros H.
  apply andb_true_iff in H as [He Hr]. destruct e; try discriminate. cbn. apply IH, Hr.
Qed.

(** A session that starts is the read loop from the reset, over the files
    as the Worker left them. *)
Lemma run_starts (self : Self) (worker_edits : World -> World)
    (lines : list (Line * bool)) (code : Z) (exits_in_time : bool) (w : World) :
  starts w = true ->
  _run_claude_max percent_int metrics_dict self true worker_edits lines code
    exits_in_time w
  = read_lines percent_int metrics_dict reset lines code exits_in_time
      (at_overflow worker_edits w).
Proof.
  unfold starts, _run_claude_max, at_overflow.
  destruct (CheckpointManager.get_session_number w) as [[session_num|e] w1];
    [|discriminate].
  destruct (log_name session_num); [reflexivity | discriminate].
Qed.

Lemma run_acts_at_most_once (self : Self) (found : bool) (worker_edits : World -> World)
    (lines : list (Line * bool)) (code : Z) (exits_in_time : bool) (w : World) :
  let effects :=
    run_effects (_run_claude_max percent_int metrics_dict self found worker_edits lines
                   code exits_in_time w) in
  (guard_fired effects <= 1)%nat
  /\ (checkpoints_saved effects <= 1)%nat
  /\ (workers_terminated effects <= 1)%nat.
Proof.
  cbv zeta. unfold _run_claude_max.
  destruct (CheckpointManager.get_session_number w) as [[session_num|e] w1];
    [|cbn; lia].
  destruct (log_name session_num); [|cbn; lia].
  destruct found; [|cbn; lia].
  apply read_lines_acts_at_most_once.
Qed.

(** The first report at or above the threshold is read while the Worker is
    running: the loop enters the overflow branch at that line, with the state
    the report left, and reads no further. *)
Lemma read_lines_overflow_branch (pre : list (Line * bool)) (l : Line) (n : Z) :
  under_threshold pre ->
  reported_tokens l = Some n -> at_or_above_threshold n = true ->
  exists self' shown,
    forallb is_shown shown = true
    /\ _context_overflow self' = true
    /\ tokens_in (_session_metrics self') = n
    /\ _context_percent self' = percent_of n
    /\ forall post code exits_in_time w,
         read_lines percent_int metrics_dict reset (pre ++ (l, true) :: post) code
           exits_in_time w
         = let branch :=
             context_overflow_branch percent_int metrics_dict self' exits_in_time w in
           (self', shown ++ ThresholdReached n :: fst (fst branch), snd (fst branch),
            snd branch).
Proof.
  intros Hpre Hl Hn.
  destruct (read_lines_prefix reset pre below_reset Hpre)
    as (self1 & shown & Hb1 & Hshown & Hrun).
  destruct (parse_report self1 l n Hb1 Hl Hn) as (self' & Hparse & Hflag & Htok & Hpct).
  exists self', shown. repeat split; try assumption.
  intros post code exits_in_time w. rewrite Hrun.
  rewrite read_lines_step. cbv zeta. rewrite Hparse. cbn [fst snd]. rewrite Hflag.
  cbn [andb show app]. reflexivity.
Qed.

(** The same report read after the Worker has exited. *)
Lemma read_lines_report_after_exit (pre : list (Line * bool)) (l : Line) (n : Z)
    (post : list (Line * bool)) (code : Z) (exits_in_time : bool) (w : World) :
  under_threshold pre ->
  reported_tokens l = Some n -> at_or_above_threshold n = true ->
  worker_exited post ->
  exists self' effects,
    read_lines percent_int metrics_dict reset (pre ++ (l, false) :: post) code
      exits_in_time w
    = (self', effects, Returns code, w)
    /\ _context_overflow self' = true
    /\ fired effects = [ThresholdReached n]
    /\ checkpoints_saved effects = 0%nat
    /\ workers_terminated effects = 0%nat.
Proof.
  intros Hpre Hl Hn Hpost.
  destruct (read_lines_prefix reset pre below_reset Hpre)
    as (self1 & shown & Hb1 & Hshown & Hrun).
  destruct (parse_report self1 l n Hb1 Hl Hn) as (self' & Hparse & Hflag & Htok & Hpct).
  destruct (read_lines_exited self' post code exits_in_time w Hpost)
    as (s & e & Hrest & Hsaved & Hterm & Hafter).
  destruct (Hafter Hflag) as [Hs Hfired].
  destruct (saved_shown shown Hshown) as [Hs0 Ht0].
  exists s, (shown ++ ThresholdReached n :: e). split.
  { rewrite Hrun, read_lines_step. cbv zeta.
    rewrite Hparse. cbn [fst snd]. rewrite andb_false_r, Hrest. reflexivity. }
  split; [exact Hs|]. split; [|split].
  - rewrite fired_app, (fired_shown shown Hshown). cbn. fold (fired e).
    rewrite Hfired. reflexivity.
  - unfold checkpoints_saved in *. rewrite List.filter_app, length_app, Hs0. exact Hsaved.
  - unfold workers_terminated in *. rewrite List.filter_app, length_app, Ht0. exact Hterm.
Qed.

End Floats.

(** X23. In a session that starts, when the first usage report at or above
    the threshold is read while the Worker is running, the session ends at
    that line, whatever lines follow and whatever the Worker's own exit
    status: the threshold is announced and [_save_context_checkpoint] runs on
    the state the report left and the files as the Worker left them. If the
    save raises, the exception leaves [_run_claude_max] and the Worker is not
    terminated; if it returns, the Worker is terminated and the session
    returns 0, or [wait(timeout=10)] raises [TimeoutExpired] when the Worker
    does not exit in time. With a checkpoint that can be read, whose session
    formats as a file name, the save returns when the decisions are a list,
    leaving a checkpoint with status ["WORKING"], and raises [AttributeError]
    with the checkpoint file untouched when they are not. *)
Theorem overflow_ends_the_session (percent_int : Q -> Z)
    (metrics_dict : SessionMetrics -> json) (self : Self)
    (worker_edits : World -> World) (pre : list (Line * bool)) (l : Line) (n : Z) :
  under_threshold pre ->
  reported_tokens l = Some n -> at_or_above_threshold n = true ->
  exists self' shown,
    forallb is_shown shown = true
    /\ _context_overflow self' = true
    /\ tokens_in (_session_metrics self') = n
    /\ (forall post returncode exits_in_time w,
          starts w = true ->
          (exists e w',
             Prompt._save_context_checkpoint (percent_int (percent_of n)) n
               (metrics_dict (_session_metrics self')) (at_overflow worker_edits w)
             = (Raise e, w')
             /\ _run_claude_max percent_int metrics_dict self true worker_edits
                  (pre ++ (l, true) :: post) returncode exits_in_time w
                = (self', shown ++ [ThresholdReached n], Raises e, w'))
          \/ (exists w',
                Prompt._save_context_checkpoint (percent_int (percent_of n)) n
                  (metrics_dict (_session_metrics self')) (at_overflow worker_edits w)
                = (Return tt, w')
                /\ _run_claude_max percent_int metrics_dict self true worker_edits
                     (pre ++ (l, true) :: post) returncode exits_in_time w
                   = (self',
                      shown ++ [ThresholdReached n; ContextCheckpointSaved;
                                WorkerTerminated],
                      if exits_in_time then Returns 0 else TimeoutExpired, w')))
    /\ (forall w decisions,
          starts w = true ->
          readable (checkpoint_file (at_overflow worker_edits w)) = true ->
          recordable (at_overflow worker_edits w) = true ->
          decisions_of (loaded_checkpoint (at_overflow worker_edits w)) = Some decisions ->
          exists cp' w',
            checkpoint_file w' = Holds cp'
            /\ cp' !! "status" = Some (JStr "WORKING")
            /\ CheckpointManager.is_completed w' = (Return false, w')
            /\ forall post returncode exits_in_time,
                 _run_claude_max percent_int metrics_dict self true worker_edits
                   (pre ++ (l, true) :: post) returncode exits_in_time w
                 = (self',
                    shown ++ [ThresholdReached n; ContextCheckpointSaved;
                              WorkerTerminated],
                    if exits_in_time then Returns 0 else TimeoutExpired, w'))
    /\ (forall w,
          starts w = true ->
          readable (checkpoint_file (at_overflow worker_edits w)) = true ->
          decisions_of (loaded_checkpoint (at_overflow worker_edits w)) = None ->
          exists w',
            checkpoint_file w' = checkpoint_file (at_overflow worker_edits w)
            /\ forall post returncode exits_in_time,
                 _run_claude_max percent_int metrics_dict self true worker_edits
                   (pre ++ (l, true) :: post) returncode exits_in_time w
                 = (self', shown ++ [ThresholdReached n], Raises AttributeError, w')).
Proof.
  intros Hpre Hl Hn.
  destruct (read_lines_overflow_branch percent_int metrics_dict pre l n Hpre Hl Hn)
    as (self' & shown & Hshown & Hflag & Htok & Hpct & Hrun).
  exists self', shown. split; [exact Hshown|]. split; [exact Hflag|].
  split; [exact Htok|].
  assert (Hcases : forall post returncode exits_in_time w,
            starts w = true ->
            (exists e w',
               Prompt._save_context_checkpoint (percent_int (percent_of n)) n
                 (metrics_dict (_session_metrics self')) (at_overflow worker_edits w)
               = (Raise e, w')
               /\ _run_claude_max percent_int metrics_dict self true worker_edits
                    (pre ++ (l, true) :: post) returncode exits_in_time w
                  = (self', shown ++ [ThresholdReached n], Raises e, w'))
            \/ (exists w',
                  Prompt._save_context_checkpoint (percent_int (percent_of n)) n
                    (metrics_dict (_session_metrics self')) (at_overflow worker_edits w)
                  = (Return tt, w')
                  /\ _run_claude_max percent_int metrics_dict self true worker_edits
                       (pre ++ (l, true) :: post) returncode exits_in_time w
                     = (self',
                        shown ++ [ThresholdReached n; ContextCheckpointSaved;
                                  WorkerTerminated],
                        if exits_in_time then Returns 0 else TimeoutExpired, w'))).
  { intros post returncode exits_in_time w Hstarts.
    rewrite (run_starts percent_int metrics_dict self worker_edits _ returncode
               exits_in_time w Hstarts).
    rewrite Hrun. cbv zeta.
    destruct (context_overflow_branch_cases percent_int metrics_dict self' exits_in_time
                (at_overflow worker_edits w))
      as [(e & Hsave & ->)|(Hsave & ->)]; rewrite Hpct, Htok in Hsave |- *; cbn [fst snd].
    - left. exists e. eexists. split; [|reflexivity].
      destruct (Prompt._save_context_checkpoint _ _ _ _) as [r w']. cbn in Hsave |- *.
      rewrite Hsave. reflexivity.
    - right. eexists. split; [|reflexivity].
      destruct (Prompt._save_context_checkpoint _ _ _ _) as [r w']. cbn in Hsave |- *.
      rewrite Hsave. reflexivity. }
  split; [exact Hcases|]. split.
  - intros w decisions Hstarts Hr Hrec Hdec.
    destruct (context_checkpoint_saved (percent_int (percent_of n)) n
                (metrics_dict (_session_metrics self')) (at_overflow worker_edits w)
                decisions Hr Hrec Hdec)
      as (cp' & w' & Hsave & Hfile & Hdone & Hstatus & _).
    exists cp', w'. split; [exact Hfile|]. split; [exact Hstatus|]. split; [exact Hdone|].
    intros post returncode exits_in_time.
    destruct (Hcases post returncode exits_in_time w Hstarts)
      as [(e & w2 & Hsave2 & _)|(w2 & Hsave2 & Hrun2)]; [congruence|].
    rewrite Hrun2. do 2 f_equal. congruence.
  - intros w Hstarts Hr Hdec.
    destruct (context_checkpoint_not_saved (percent_int (percent_of n)) n
                (metrics_dict (_session_metrics self')) (at_overflow worker_edits w)
                Hr Hdec)
      as (w' & Hsave & Hfile & _).
    exists w'. split; [exact Hfile|].
    intros post returncode exits_in_time.
    destruct (Hcases post returncode exits_in_time w Hstarts)
      as [(e & w2 & Hsave2 & Hrun2)|(w2 & Hsave2 & _)]; [|congruence].
    rewrite Hrun2. rewrite Hsave in Hsave2. injection Hsave2 as <- <-. reflexivity.
Qed.

Lemma overflow_ends_the_session_witness :
  exists self' shown,
    (forall post returncode,
       exists w',
         _run_claude_max Runs.whole_percent Runs.metrics_dict reset true no_edits
           ([(Ex.usage_report 100000, true)] ++ (Ex.usage_report 150000, true) :: post)
           returncode true Cases.long_history_world
         = (self',
            shown ++ [ThresholdReached 150000; ContextCheckpointSaved; WorkerTerminated],
            Returns 0, w'))
    /\ (forall post returncode exits_in_time,
          exists w',
            _run_claude_max Runs.whole_percent Runs.metrics_dict reset true no_edits
              ([(Ex.usage_report 100000, true)] ++ (Ex.usage_report 150000, true) :: post)
              returncode exits_in_time Cases.odd_decisions_world
            = (self', shown ++ [ThresholdReached 150000], Raises AttributeError, w')).
Proof.
  destruct (overflow_ends_the_session Runs.whole_percent Runs.metrics_dict reset no_edits
              [(Ex.usage_report 100000, true)] (Ex.usage_report 150000) 150000)
    as (self' & shown & _ & _ & _ & _ & Hsaved & Hraised).
  - intros l b m [H|[]] Hm. injection H as <- <-. vm_compute in Hm.
    injection Hm as <-. reflexivity.
  - reflexivity.
  - reflexivity.
  - exists self', shown. split.
    + intros post returncode.
      destruct (Hsaved Cases.long_history_world Cases.long_history)
        as (cp' & w' & _ & _ & _ & Hrun); [reflexivity..|].
      exists w'. exact (Hrun post returncode true).
    + intros post returncode exits_in_time.
      destruct (Hraised Cases.odd_decisions_world) as (w' & _ & Hrun); [reflexivity..|].
      exists w'. exact (Hrun post returncode exits_in_time).
Defined.

(** C3 (amended). In a session run by [_run_claude_max] that starts, when a
    usage report brings the input tokens to 70% of the context window or more
    and no earlier report of the session did, the threshold is announced on
    that report and on no other of the session, whatever later reports say,
    whatever state the previous session left and whether or not the Worker is
    still running. If the Worker is running when that report is read, the
    checkpoint can be read, its session formats as a file name, its decisions
    are a list and the Worker exits within the wait, the guard acts there: the
    context checkpoint is saved with status ["WORKING"], the percentage and
    the token count of the report, the Worker is terminated, the session
    returns 0 and no later line is read. If the Worker has exited by the time
    the report and the lines after it are read, the guard does not act:
    nothing is saved or terminated, the files are as the Worker left them and
    the session returns the Worker's exit status. In any session the threshold
    is announced, the checkpoint saved and the Worker terminated at most once
    each; the session does not depend on the state the previous session left
    behind; and a report is at the threshold exactly from 140000 tokens of
    200000 on. *)
Theorem context_guard_acts_once :
  (forall (percent_int : Q -> Z) (metrics_dict : SessionMetrics -> json) (self : Self)
          (worker_edits : World -> World) (pre : list (Line * bool)) (l : Line)
          (running : bool) (post : list (Line * bool)) (code : Z) (exits_in_time : bool)
          (w : World) (n : Z),
     starts w = true ->
     under_threshold pre ->
     reported_tokens l = Some n -> at_or_above_threshold n = true ->
     fired (run_effects (_run_claude_max percent_int metrics_dict self true worker_edits
                           (pre ++ (l, running) :: post) code exits_in_time w))
     = [ThresholdReached n])
  /\ (forall (percent_int : Q -> Z) (metrics_dict : SessionMetrics -> json) (self : Self)
             (worker_edits : World -> World) (pre : list (Line * bool)) (l : Line)
             (post : list (Line * bool)) (code : Z) (w : World) (n : Z)
             (decisions : list json),
        starts w = true ->
        under_threshold pre ->
        reported_tokens l = Some n -> at_or_above_threshold n = true ->
        readable (checkpoint_file (at_overflow worker_edits w)) = true ->
        recordable (at_overflow worker_edits w) = true ->
        decisions_of (loaded_checkpoint (at_overflow worker_edits w)) = Some decisions ->
        exists self' shown cp' w',
          _run_claude_max percent_int metrics_dict self true worker_edits
            (pre ++ (l, true) :: post) code true w
          = (self',
             shown ++ [ThresholdReached n; ContextCheckpointSaved; WorkerTerminated],
             Returns 0, w')
          /\ forallb is_shown shown = true
          /\ _context_overflow self' = true
          /\ tokens_in (_session_metrics self') = n
          /\ checkpoint_file w' = Holds cp'
          /\ cp' !! "status" = Some (JStr "WORKING")
          /\ cp' !! "context_percent" = Some (JInt (percent_int (percent_of n)))
          /\ cp' !! "session_metrics" = Some (metrics_dict (_session_metrics self'))
          /\ cp' !! "decisions"
             = Some (JList (Text.last_items 19 decisions
                            ++ [auto_checkpoint_note (percent_int (percent_of n)) n]))
          /\ cp' !! "session"
             = loaded_checkpoint (at_overflow worker_edits w) !! "session")
  /\ (forall (percent_int : Q -> Z) (metrics_dict : SessionMetrics -> json) (self : Self)
             (worker_edits : World -> World) (pre : list (Line * bool)) (l : Line)
             (post : list (Line * bool)) (code : Z) (exits_in_time : bool) (w : World)
             (n : Z),
        starts w = true ->
        under_threshold pre ->
        reported_tokens l = Some n -> at_or_above_threshold n = true ->
        worker_exited post ->
        exists self' effects,
          _run_claude_max percent_int metrics_dict self true worker_edits
            (pre ++ (l, false) :: post) code exits_in_time w
          = (self', effects, Returns code, at_overflow worker_edits w)
          /\ _context_overflow self' = true
          /\ fired effects = [ThresholdReached n]
          /\ checkpoints_saved effects = 0%nat
          /\ workers_terminated effects = 0%nat)
  /\ (forall (percent_int : Q -> Z) (metrics_dict : SessionMetrics -> json) (self : Self)
             (found : bool) (worker_edits : World -> World) (lines : list (Line * bool))
             (code : Z) (exits_in_time : bool) (w : World),
        (guard_fired
           (run_effects (_run_claude_max percent_int metrics_dict self found worker_edits
                           lines code exits_in_time w)) <= 1)%nat
        /\ (checkpoints_saved
              (run_effects (_run_claude_max percent_int metrics_dict self found
                              worker_edits lines code exits_in_time w)) <= 1)%nat
        /\ (workers_terminated
              (run_effects (_run_claude_max percent_int metrics_dict self found
                              worker_edits lines code exits_in_time w)) <= 1)%nat)
  /\ (forall (percent_int : Q -> Z) (metrics_dict : SessionMetrics -> json)
             (self self' : Self) (found : bool) (worker_edits : World -> World)
             (lines : list (Line * bool)) (code : Z) (exits_in_time : bool) (w : World),
        _run_claude_max percent_int metrics_dict self found worker_edits lines code
          exits_in_time w
        = _run_claude_max percent_int metrics_dict self' found worker_edits lines code
            exits_in_time w)
  /\ (forall n : Z, at_or_above_threshold n = true <-> 140000 <= n)
  /\ at_or_above_threshold 140000 = true.
Proof.
  split; [|split; [|split; [|split; [|split; [|split]]]]].
  - intros percent_int metrics_dict self worker_edits pre l running post code
      exits_in_time w n Hstarts Hpre Hl Hn.
    rewrite (run_starts percent_int metrics_dict self worker_edits _ code exits_in_time w
               Hstarts).
    destruct (read_lines_traces percent_int metrics_dict reset
                (pre ++ (l, running) :: post) code exits_in_time
                (at_overflow worker_edits w))
      as (_ & dropped & He & Hd).
    pose proof (read_lines_fires reset pre l running post code n below_reset Hpre Hl Hn)
      as Hfired.
    rewrite He, fired_app in Hfired.
    destruct Hd as [->| ->]; cbn in Hfired; rewrite app_nil_r in Hfired; exact Hfired.
  - intros percent_int metrics_dict self worker_edits pre l post code w n decisions
      Hstarts Hpre Hl Hn Hr Hrec Hdec.
    destruct (read_lines_overflow_branch percent_int metrics_dict pre l n Hpre Hl Hn)
      as (self' & shown & Hshown & Hflag & Htok & Hpct & Hrun).
    destruct (context_checkpoint_saved (percent_int (percent_of n)) n
                (metrics_dict (_session_metrics self')) (at_overflow worker_edits w)
                decisions Hr Hrec Hdec)
      as (cp' & w' & Hsave & Hfile & _ & Hstatus & Hcp & Hmetrics & Hkept & Hsession & _).
    exists self', shown, cp', w'. split.
    { rewrite (run_starts percent_int metrics_dict self worker_edits _ code true w
                 Hstarts).
      rewrite Hrun. cbv zeta. unfold context_overflow_branch.
      rewrite Hpct, Htok, Hsave. reflexivity. }
    repeat split; assumption.
  - intros percent_int metrics_dict self worker_edits pre l post code exits_in_time w n
      Hstarts Hpre Hl Hn Hpost.
    rewrite (run_starts percent_int metrics_dict self worker_edits _ code exits_in_time w
               Hstarts).
    exact (read_lines_report_after_exit percent_int metrics_dict pre l n post code
             exits_in_time (at_overflow worker_edits w) Hpre Hl Hn Hpost).
  - intros percent_int metrics_dict self found worker_edits lines code exits_in_time w.
    exact (run_acts_at_most_once percent_int metrics_dict self found worker_edits lines
             code exits_in_time w).
  - reflexivity.
  - exact at_or_above_threshold_iff.
  - reflexivity.
Qed.

Lemma context_guard_witness :
  exists self' shown cp' w',
    _run_claude_max Runs.whole_percent Runs.metrics_dict Runs.overflowed true no_edits
      ([(Ex.usage_report 100000, true)]
       ++ (Ex.usage_report 140000, true) :: [(Ex.usage_report 150000, true)])
      1 true Cases.long_history_world
    = (self', shown ++ [ThresholdReached 140000; ContextCheckpointSaved; WorkerTerminated],
       Returns 0, w')
    /\ forallb is_shown shown = true
    /\ _context_overflow self' = true
    /\ tokens_in (_session_metrics self') = 140000
    /\ checkpoint_file w' = Holds cp'
    /\ cp' !! "status" = Some (JStr "WORKING")
    /\ cp' !! "context_percent" = Some (JInt 70)
    /\ cp' !! "session_metrics" = Some (Runs.metrics_dict (_session_metrics self'))
    /\ cp' !! "decisions"
       = Some (JList (Text.last_items 19 Cases.long_history
                      ++ [auto_checkpoint_note 70 140000]))
    /\ cp' !! "session" = Some (JInt 3).
Proof.
  apply (proj1 (proj2 context_guard_acts_once) Runs.whole_percent Runs.metrics_dict
           Runs.overflowed no_edits [(Ex.usage_report 100000, true)]
           (Ex.usage_report 140000) [(Ex.usage_report 150000, true)] 1
           Cases.long_history_world 140000 Cases.long_history).
  - reflexivity.
  - intros l b m [H|[]] Hm. injection H as <- <-. vm_compute in Hm.
    injection Hm as <-. reflexivity.
  - reflexivity.
  - reflexivity.
  - reflexivity.
  - reflexivity.
  - reflexivity.
Defined.

(** The claim as stated fails when the report is read after the Worker has
    exited: the threshold is announced and the flag set, but the checkpoint is
    not saved (it still says COMPLETED), the Worker is not terminated, the
    files are untouched and the session returns the Worker's exit status 1. It
    also fails when the Worker is running but the decisions of the checkpoint
    are not a list: the save raises and the session does not return. *)
Lemma guard_does_not_act_after_exit :
  at_or_above_threshold 140000 = true
  /\ (exists self' effects,
        _run_claude_max Runs.whole_percent Runs.metrics_dict reset true no_edits
          Runs.read_after_exit 1 true Cases.long_history_world
        = (self', effects, Returns 1, Cases.long_history_world)
        /\ _context_overflow self' = true
        /\ fired effects = [ThresholdReached 140000]
        /\ checkpoints_saved effects = 0%nat
        /\ workers_terminated effects = 0%nat)
  /\ CheckpointManager.is_completed Cases.long_history_world
     = (Return true, Cases.long_history_world)
  /\ _run_claude_max Runs.whole_percent Runs.metrics_dict reset true no_edits
       Runs.overflowing 1 true Cases.odd_decisions_world
     = (mkSelf (mkMetrics 140000 0 0 0 0 (percent_of 140000)) true (percent_of 140000),
        [ThresholdReached 140000], Raises AttributeError, Cases.odd_decisions_world).
Proof.
  split; [reflexivity|]. split; [|split].
  - eexists _, _. split; [vm_compute; reflexivity|]. repeat split.
  - vm_compute. reflexivity.
  - vm_compute. reflexivity.
Qed.

Example overflowing_session_trace :
  run_effects (_run_claude_max Runs.whole_percent Runs.metrics_dict reset true no_edits
                 Runs.overflowing 0 true Cases.long_history_world)
  = [ThresholdReached 140000; ContextCheckpointSaved; WorkerTerminated].
Proof. vm_compute. reflexivity. Qed.

(** The save reads the checkpoint as the Worker left it. *)
Example worker_edit_reaches_the_save :
  run_ending (_run_claude_max Runs.whole_percent Runs.metrics_dict reset true
                (fun _ => Cases.odd_decisions_world) Runs.overflowing 0 true
                Cases.long_history_world)
  = Raises AttributeError.
Proof. vm_compute. reflexivity. Qed.

(** Without the [claude] program the session returns 1 and reads nothing. *)
Example worker_not_found :
  _run_claude_max Runs.whole_percent Runs.metrics_dict Runs.overflowed false no_edits
    Runs.overflowing 0 true Cases.long_history_world
  = (reset, [], Returns 1, Cases.long_history_world).
Proof. reflexivity. Qed.

End RunFacts.
